(** * Attendance dashboard: aggregation, winner lock and data refresh

    A shallow embedding of the aggregation pipeline of the dashboard
    component ([src/App.tsx], and the earlier variant of the same component
    in [src/unnamed/part_001], without roster and winner lock), of the
    per-session winner lock and of the data refresh, followed by the
    properties of the specification.

    JavaScript values are modelled as follows.
    - numbers that hold counts, targets and percentages are integers ([Z]);
      the one division, [count / target * 100], is evaluated over the
      rationals ([Q]) and rounded by [Math_round].  For the targets of the
      preset tables (at most 222) and counts below 2^32 the double that
      JavaScript computes rounds to the same integer: the exact quotient is
      either a multiple of 1/2 with an exactly representable value (targets
      divisible by 8) or at least 1/(2*target) away from the nearest half.
    - [string | null] fields are [option string]; a field is falsy when it
      is [None] or the empty string.
    - an object used as a dictionary whose key order is observed
      ([dateMap], [PRESET_TARGETS]) is an insertion-ordered association
      list read through [Object_entries]; one that is only looked up
      ([stateUniqueMap], [sessionWinners]) is a [gmap]; a [Set] of which
      only [has] and [size] are used is a [gset].  A plain object also
      answers to the names it inherits from [Object.prototype]
      ([Js.Object_prototype]): the lookups of the model are those of the
      objects on every other key.  The guard of the winner lock, whose key
      is the selected session, tests the inherited names ([Js.inherited]);
      the properties that depend on a lookup at a key taken from the data
      say that the key is not such a name.
    - [String.prototype.trim] and [new Date(s).getTime()] belong to the
      runtime and are parameters of the development ([None] stands for the
      NaN of an invalid date); concrete instances are given for the
      evaluations on concrete inputs. *)

From Stdlib Require Import ZArith QArith Qround List String Ascii Lia Permutation Sorted.
From stdpp Require Import base gmap sets list strings sorting.

#[global] Set Warnings "-clear-no-such-hyp".

Close Scope Q_scope.
Open Scope string_scope.
Open Scope list_scope.
Open Scope Z_scope.

(** ** Runtime model *)

Module Js.

(** [s ? a : b] on a [string | null] value: [None] and the empty string are falsy. *)
Definition truthy (o : option string) : option string :=
  match o with
  | Some s => if decide (s = EmptyString) then None else Some s
  | None => None
  end.

(** [Math.round]: nearest integer, halves towards +infinity. *)
Definition Math_round (x : Q) : Z := Qfloor (Qplus x (1 # 2)).

(** [Array.prototype.sort(comparefn)]: a stable sort (ECMAScript 2019); a
    comparator value of NaN counts as +0.  Written as the stable insertion
    sort: an element stays in front of the elements it does not compare
    greater than.  With a consistent comparator the result is the one
    stable arrangement, whatever the algorithm of the engine.  With a
    comparator that gives NaN the language leaves the order to the engine,
    and the insertion order below is one such order: V8 gives the same on
    the arrays evaluated further down, and another on some longer ones. *)
Section ArraySort.
Context {A : Type} (comparefn : A → A → option Z).

Definition SortCompare (x y : A) : Z := default 0 (comparefn x y).

Fixpoint sort_insert (x : A) (l : list A) : list A :=
  match l with
  | [] => [x]
  | y :: l' => if SortCompare x y <=? 0 then x :: l else y :: sort_insert x l'
  end.

Fixpoint Array_sort (l : list A) : list A :=
  match l with
  | [] => []
  | x :: l' => sort_insert x (Array_sort l')
  end.
End ArraySort.

(** The [forEach] loops that keep the first entry of strictly greater
    measure, starting from [-1]:
    [let top = null; let max = -1;
     xs.forEach(x => { if (f(x) > max) { max = f(x); top = x; } })]. *)
Section ForEachMax.
Context {A : Type} (f : A → Z).

Definition max_step (acc : option A * Z) (x : A) : option A * Z :=
  if acc.2 <? f x then (Some x, f x) else acc.

Definition forEach_max (l : list A) : option A :=
  (fold_left max_step l (None, -1)).1.
End ForEachMax.

(** Own property order of an ordinary object: array-index keys (canonical
    decimal strings below 2^32 - 1) in ascending numeric order, then the
    other string keys in insertion order. *)
Definition digit_of (a : ascii) : option N :=
  let n := N_of_ascii a in
  if ((48 <=? n) && (n <=? 57))%N then Some (n - 48)%N else None.

Fixpoint digits_value (acc : N) (s : string) : option N :=
  match s with
  | EmptyString => Some acc
  | String a s' =>
      match digit_of a with
      | Some d => digits_value (10 * acc + d)%N s'
      | None => None
      end
  end.

Definition array_index (s : string) : option N :=
  match s with
  | EmptyString => None
  | String a s' =>
      if Ascii.eqb a "0"%char
      then (if decide (s' = EmptyString) then Some 0%N else None)
      else match digits_value 0 s with
           | Some n => if (n <? 4294967295)%N then Some n else None
           | None => None
           end
  end.

Definition is_index (s : string) : bool := bool_decide (is_Some (array_index s)).

Definition index_compare {V : Type} (a b : string * V) : option Z :=
  Some (Z.of_N (default 0%N (array_index a.1)) - Z.of_N (default 0%N (array_index b.1))).

Definition Object_entries {V : Type} (o : list (string * V)) : list (string * V) :=
  Array_sort index_compare (List.filter (λ e, is_index e.1) o)
  ++ List.filter (λ e, negb (is_index e.1)) o.

Definition Object_keys {V : Type} (o : list (string * V)) : list string :=
  map fst (Object_entries o).

Definition Object_values {V : Type} (o : list (string * V)) : list V :=
  map snd (Object_entries o).

(** [o[k]] on an association list: the value of the first binding. *)
Fixpoint get {V : Type} (o : list (string * V)) (k : string) : option V :=
  match o with
  | [] => None
  | (k', v) :: o' => if decide (k = k') then Some v else get o' k
  end.

(** [o[k] = (o[k] || 0) + 1]: an existing key keeps its place, a new key
    goes last. *)
Fixpoint increment (o : list (string * Z)) (k : string) : list (string * Z) :=
  match o with
  | [] => [(k, 0 + 1)]
  | (k', v) :: o' =>
      if decide (k = k') then (k', v + 1) :: o' else (k', v) :: increment o' k
  end.

(** The names that every plain object inherits from [Object.prototype].
    For such a name that is not an own property, [o[k]] is the inherited
    member: a function, or the prototype itself for [__proto__]; it is
    truthy. *)
Definition Object_prototype : list string :=
  [ "constructor"; "__defineGetter__"; "__defineSetter__"; "hasOwnProperty";
    "__lookupGetter__"; "__lookupSetter__"; "isPrototypeOf"; "propertyIsEnumerable";
    "toString"; "valueOf"; "__proto__"; "toLocaleString" ].

Definition inherited (k : string) : bool :=
  existsb (λ name, String.eqb k name) Object_prototype.

End Js.

(** ** Data model *)

Module AttendanceRecord.
Record t := mk {
  no_pekerja : string;
  nama : option string;
  penempatan : option string;
  tarikh_kehadiran : option string;
  wing_negeri : option string;
  sesi : option string
}.
End AttendanceRecord.

Module MasterRecord.
Record t := mk {
  no_pekerja : string;
  nama : option string;
  wing_negeri : option string;
  penempatan : option string
}.
End MasterRecord.

Module DateStat.
Record t := mk { date : string; count : Z }.
End DateStat.

Module StateStat.
Record t := mk { state : string; count : Z; target : Z; percentage : Z }.
End StateStat.

Module WinnerLock.
Record t := mk { state : string; percentage : Z; timestamp : string }.
End WinnerLock.

#[global] Instance AttendanceRecord_eq_dec : EqDecision AttendanceRecord.t.
Proof. solve_decision. Defined.

#[global] Instance MasterRecord_eq_dec : EqDecision MasterRecord.t.
Proof. solve_decision. Defined.

#[global] Instance DateStat_eq_dec : EqDecision DateStat.t.
Proof. solve_decision. Defined.

#[global] Instance StateStat_eq_dec : EqDecision StateStat.t.
Proof. solve_decision. Defined.

#[global] Instance WinnerLock_eq_dec : EqDecision WinnerLock.t.
Proof. solve_decision. Defined.

(** ** The aggregation steps that both variants of the component share *)

Module Aggregation.

Section Steps.
Variable trim : string → string.
Variable getTime : string → option Z.
Variable PRESET_TARGETS : list (string * Z).
Variables selectedDate selectedSession selectedState : string.

(** The predicate of [rawData.filter(record => ...)]. *)
Definition matchFilters (record : AttendanceRecord.t) : bool :=
  let matchDate :=
    bool_decide (selectedDate = "all")
    || bool_decide (AttendanceRecord.tarikh_kehadiran record = Some selectedDate) in
  let matchSession :=
    bool_decide (selectedSession = "all")
    || bool_decide (AttendanceRecord.sesi record = Some selectedSession) in
  let matchState :=
    bool_decide (selectedState = "all")
    || bool_decide (AttendanceRecord.wing_negeri record = Some selectedState) in
  matchDate && matchSession && matchState.

Definition filtered (rawData : list AttendanceRecord.t) : list AttendanceRecord.t :=
  List.filter matchFilters rawData.

(** [record.tarikh_kehadiran ? record.tarikh_kehadiran.trim() : 'N/A'] *)
Definition dateKey (record : AttendanceRecord.t) : string :=
  match Js.truthy (AttendanceRecord.tarikh_kehadiran record) with
  | Some s => trim s
  | None => "N/A"
  end.

(** [record.wing_negeri ? record.wing_negeri.trim() : 'Lain-lain'] *)
Definition stateKey (record : AttendanceRecord.t) : string :=
  match Js.truthy (AttendanceRecord.wing_negeri record) with
  | Some s => trim s
  | None => "Lain-lain"
  end.

(** [dateMap[dateKey] = (dateMap[dateKey] || 0) + 1] for every record.  The
    tally is that of the plain object at every date key that names no
    member of [Object.prototype]; at such a name the object yields a
    string, or drops the record (for [__proto__]). *)
Definition dateMap (filtered : list AttendanceRecord.t) : list (string * Z) :=
  fold_left (λ dateMap record, Js.increment dateMap (dateKey record)) filtered [].

(** [(a, b) => new Date(a.date).getTime() - new Date(b.date).getTime()];
    the difference is NaN as soon as one of the dates is invalid. *)
Definition byDate (a b : DateStat.t) : option Z :=
  match getTime (DateStat.date a), getTime (DateStat.date b) with
  | Some ta, Some tb => Some (ta - tb)
  | _, _ => None
  end.

Definition dateDistribution (filtered : list AttendanceRecord.t) : list DateStat.t :=
  Js.Array_sort byDate
    (map (λ e : string * Z, DateStat.mk e.1 e.2) (Js.Object_entries (dateMap filtered))).

Definition stateKeys : list string :=
  if decide (selectedState ≠ "all") then [selectedState]
  else Js.Object_keys PRESET_TARGETS.

(** [target > 0 ? Math.round((count / target) * 100) : 0] *)
Definition percentageOf (count target : Z) : Z :=
  if 0 <? target
  then Js.Math_round (Qmult (Qdiv (inject_Z count) (inject_Z target)) (inject_Z 100))
  else 0.

(** The body of [stateKeys.map(key => ...)], given how a key is counted.
    [PRESET_TARGETS[key] || 0] is the number below for every key that
    names no member of [Object.prototype]. *)
Definition stateStat (countOf : string → Z) (key : string) : StateStat.t :=
  let count := countOf key in
  let target := default 0 (Js.get PRESET_TARGETS key) in
  StateStat.mk key count target (percentageOf count target).

(** [(a, b) => b.percentage - a.percentage] *)
Definition byPercentageDesc (a b : StateStat.t) : option Z :=
  Some (StateStat.percentage b - StateStat.percentage a).

Definition stateDistribution (countOf : string → Z) : list StateStat.t :=
  Js.Array_sort byPercentageDesc (map (stateStat countOf) stateKeys).

Definition topDay (dateDistribution : list DateStat.t) : option DateStat.t :=
  Js.forEach_max DateStat.count dateDistribution.

Definition topState (stateDistribution : list StateStat.t) : option StateStat.t :=
  Js.forEach_max StateStat.percentage stateDistribution.

(** The same lookup, [PRESET_TARGETS[selectedState] || 0], when a unit is
    selected. *)
Definition totalTarget : Z :=
  if decide (selectedState = "all")
  then fold_left (λ a b, a + b) (Js.Object_values PRESET_TARGETS) 0
  else default 0 (Js.get PRESET_TARGETS selectedState).

Definition overallPercentage (totalHeadcount : Z) : Z :=
  percentageOf totalHeadcount totalTarget.
End Steps.

End Aggregation.

(** ** Data refresh: what both variants share *)

Module Fetch.
(** A thrown value, of which only [err.message] is read. *)
Record JsError := mkError { message : option string }.

(** What [await supabase.from(..).select(..)] does: the promise rejects,
    or it resolves to [{ data, error }]. *)
Inductive QueryOutcome :=
| Rejects (err : JsError)
| Resolves (data : option (list AttendanceRecord.t)) (error : option JsError).

Record State := mkState {
  loading : bool;
  error : option string;
  lastUpdated : Z;
  rawData : list AttendanceRecord.t
}.

Definition setLoading (b : bool) (st : State) : State :=
  mkState b (error st) (lastUpdated st) (rawData st).
Definition setError (e : option string) (st : State) : State :=
  mkState (loading st) e (lastUpdated st) (rawData st).
Definition setLastUpdated (now : Z) (st : State) : State :=
  mkState (loading st) (error st) now (rawData st).
Definition setRawData (data : list AttendanceRecord.t) (st : State) : State :=
  mkState (loading st) (error st) (lastUpdated st) data.

(** The [try] block: the value thrown, if any, and the state reached.
    [supabase] is [None] when the client is not configured. *)
Definition tryBlock (supabase : option QueryOutcome) (now : Z) (st : State)
  : option JsError * State :=
  match supabase with
  | None => (Some (mkError (Some "Supabase configuration missing.")), st)
  | Some (Rejects err) => (Some err, st)
  | Some (Resolves data supabaseError) =>
      match supabaseError with
      | Some err => (Some err, st)
      | None =>
          match data with
          | Some data => (None, setLastUpdated now (setRawData data st))
          | None => (None, st)
          end
      end
  end.

(** [setLoading(true); setError(null); try {..} catch (err) {
    setError(err.message || fallback) } finally { setLoading(false) }] *)
Definition fetchWith (fallback : string) (supabase : option QueryOutcome) (now : Z)
    (st : State) : State :=
  let st := setLoading true st in
  let st := setError None st in
  let '(thrown, st) := tryBlock supabase now st in
  let st :=
    match thrown with
    | Some err => setError (Some (default fallback (Js.truthy (message err)))) st
    | None => st
    end in
  setLoading false st.
End Fetch.

(** ** [src/App.tsx] *)

Module App.

Definition PRESET_TARGETS : list (string * Z) :=
  [ ("KETUA PENGARAH", 10); ("TKP (PIA)", 17); ("TKP (KP)", 19); ("TKP (SMO)", 13);
    ("FAMA KELANTAN", 10); ("FAMA JOHOR", 15); ("FAMA SELANGOR", 14);
    ("FAMA SABAH", 20); ("FAMA SARAWAK", 13); ("FAMA NEGERI SEMBILAN", 11);
    ("FAMA TERENGGANU", 12); ("FAMA PAHANG", 17); ("FAMA KEDAH", 13);
    ("FAMA PERAK", 15); ("FAMA PERLIS", 6); ("FAMA PULAU PINANG", 8);
    ("FAMA MELAKA", 8) ].

Record DashboardStats := mkStats {
  totalParticipants : Z;
  totalTarget : Z;
  overallPercentage : Z;
  topDay : option DateStat.t;
  topState : option StateStat.t;
  dateDistribution : list DateStat.t;
  stateDistribution : list StateStat.t;
  filteredData : list AttendanceRecord.t;
  notRegisteredData : list MasterRecord.t
}.

Section Stats.
Variable trim : string → string.
Variable getTime : string → option Z.
Variables selectedDate selectedSession selectedState : string.

Definition uniqueParticipants (filtered : list AttendanceRecord.t) : gset string :=
  list_to_set (map AttendanceRecord.no_pekerja filtered).

Definition notRegistered (masterData : list MasterRecord.t)
    (uniqueParticipants : gset string) : list MasterRecord.t :=
  let notRegistered :=
    List.filter
      (λ staff, negb (bool_decide (MasterRecord.no_pekerja staff ∈ uniqueParticipants)))
      masterData in
  if decide (selectedState ≠ "all")
  then List.filter
         (λ staff, bool_decide (MasterRecord.wing_negeri staff = Some selectedState))
         notRegistered
  else notRegistered.

(** One turn of the [filtered.forEach] loop on [stateUniqueMap], for a
    unit key that names no member of [Object.prototype]; at such a name
    the loop stops with a TypeError and nothing is rendered. *)
Definition addToState (stateUniqueMap : gmap string (gset string))
    (record : AttendanceRecord.t) : gmap string (gset string) :=
  let stateKey := Aggregation.stateKey trim record in
  let stateUniqueMap :=
    match stateUniqueMap !! stateKey with
    | Some _ => stateUniqueMap
    | None => <[stateKey := ∅]> stateUniqueMap
    end in
  <[stateKey := default ∅ (stateUniqueMap !! stateKey)
                ∪ {[AttendanceRecord.no_pekerja record]}]> stateUniqueMap.

Definition stateUniqueMap (filtered : list AttendanceRecord.t)
  : gmap string (gset string) :=
  fold_left addToState filtered ∅.

(** [stateUniqueMap[key] ? stateUniqueMap[key].size : 0], for a key that
    names no member of [Object.prototype]. *)
Definition countOf (stateUniqueMap : gmap string (gset string)) (key : string) : Z :=
  match stateUniqueMap !! key with
  | Some ids => Z.of_nat (size ids)
  | None => 0
  end.

Definition stats (rawData : list AttendanceRecord.t) (masterData : list MasterRecord.t)
  : DashboardStats :=
  let filtered := Aggregation.filtered selectedDate selectedSession selectedState rawData in
  let uniqueParticipants := uniqueParticipants filtered in
  let totalHeadcount := Z.of_nat (size uniqueParticipants) in
  let notRegistered := notRegistered masterData uniqueParticipants in
  let stateUniqueMap := stateUniqueMap filtered in
  let dateDistribution := Aggregation.dateDistribution trim getTime filtered in
  let stateDistribution :=
    Aggregation.stateDistribution PRESET_TARGETS selectedState (countOf stateUniqueMap) in
  {| totalParticipants := totalHeadcount;
     totalTarget := Aggregation.totalTarget PRESET_TARGETS selectedState;
     overallPercentage := Aggregation.overallPercentage PRESET_TARGETS selectedState totalHeadcount;
     topDay := Aggregation.topDay dateDistribution;
     topState := Aggregation.topState stateDistribution;
     dateDistribution := dateDistribution;
     stateDistribution := stateDistribution;
     filteredData := filtered;
     notRegisteredData := notRegistered |}.
End Stats.

(** The winner lock: the React state [sessionWinners] and the item
    ['fama_session_winners_v2'] of local storage. *)
Record LockState := mkLock {
  sessionWinners : gmap string WinnerLock.t;
  localStorage : option (gmap string WinnerLock.t)
}.

(** The body of the winner-lock effect; [now] is [new Date().toISOString()].
    The guard [if (sessionWinners[currentSessionKey]) return] reads a plain
    object: it is truthy for a recorded key and also for a key that names
    a member of [Object.prototype]. *)
Definition lockWinner (now : string) (selectedSession : string)
    (stateDistribution : list StateStat.t) (st : LockState) : LockState :=
  let currentSessionKey := selectedSession in
  match sessionWinners st !! currentSessionKey with
  | Some _ => st
  | None =>
      if Js.inherited currentSessionKey then st
      else
        let champion :=
          List.find (λ s, 100 <=? StateStat.percentage s) stateDistribution in
        match champion with
        | Some champion =>
            let winnerData :=
              WinnerLock.mk (StateStat.state champion) (StateStat.percentage champion) now in
            let updatedWinners := <[currentSessionKey := winnerData]> (sessionWinners st) in
            mkLock updatedWinners (Some updatedWinners)
        | None => st
        end
  end.

(** [const currentSessionWinner = sessionWinners[selectedSession]], for a
    session key that names no member of [Object.prototype]. *)
Definition currentSessionWinner (selectedSession : string) (st : LockState)
  : option WinnerLock.t :=
  sessionWinners st !! selectedSession.

Definition fetchAttendanceData := Fetch.fetchWith "Gagal mendapatkan data.".

End App.

(** ** The earlier variant of the component, [src/unnamed/part_001]
       (no roster, no winner lock) *)

Module Part001.

Definition PRESET_TARGETS : list (string * Z) :=
  [ ("KETUA PENGARAH", 10); ("TKP (PIA)", 17); ("TKP (KP)", 19); ("TKP (SMO)", 13);
    ("FAMA KELANTAN", 10); ("FAMA JOHOR", 15); ("FAMA SELANGOR", 14);
    ("FAMA SABAH", 20); ("FAMA SARAWAK", 13); ("FAMA NEGERI SEMBILAN", 12);
    ("FAMA TERENGGANU", 12); ("FAMA PAHANG", 17); ("FAMA KEDAH", 13);
    ("FAMA PERAK", 15); ("FAMA PERLIS", 6); ("FAMA PULAU PINANG", 8);
    ("FAMA MELAKA", 8) ].

Record DashboardStats := mkStats {
  totalParticipants : Z;
  totalTarget : Z;
  overallPercentage : Z;
  topDay : option DateStat.t;
  topState : option StateStat.t;
  dateDistribution : list DateStat.t;
  stateDistribution : list StateStat.t
}.

Section Stats.
Variable trim : string → string.
Variable getTime : string → option Z.
Variables selectedDate selectedSession selectedState : string.

(** [stateMap[stateKey] = (stateMap[stateKey] || 0) + 1] for every record;
    as for [dateMap], the tally of the plain object at every unit key that
    names no member of [Object.prototype]. *)
Definition stateMap (filtered : list AttendanceRecord.t) : list (string * Z) :=
  fold_left (λ stateMap record, Js.increment stateMap (Aggregation.stateKey trim record))
    filtered [].

(** [stateMap[key] || 0], for a key that names no member of
    [Object.prototype]. *)
Definition countOf (stateMap : list (string * Z)) (key : string) : Z :=
  default 0 (Js.get stateMap key).

Definition stats (rawData : list AttendanceRecord.t) : DashboardStats :=
  let filtered := Aggregation.filtered selectedDate selectedSession selectedState rawData in
  let totalParticipants := Z.of_nat (length filtered) in
  let stateMap := stateMap filtered in
  let dateDistribution := Aggregation.dateDistribution trim getTime filtered in
  let stateDistribution :=
    Aggregation.stateDistribution PRESET_TARGETS selectedState (countOf stateMap) in
  {| totalParticipants := totalParticipants;
     totalTarget := Aggregation.totalTarget PRESET_TARGETS selectedState;
     overallPercentage :=
       Aggregation.overallPercentage PRESET_TARGETS selectedState totalParticipants;
     topDay := Aggregation.topDay dateDistribution;
     topState := Aggregation.topState stateDistribution;
     dateDistribution := dateDistribution;
     stateDistribution := stateDistribution |}.
End Stats.

Definition fetchAttendanceData :=
  Fetch.fetchWith "Gagal mendapatkan data dari pangkalan data.".

End Part001.

(** ** Instances of the runtime parameters, for concrete inputs *)

Module Runtime.

(** [trim] on the white space and line terminators of ASCII; the runtime
    also removes U+00A0, U+FEFF and the other Unicode spaces.  The
    instance is used on ASCII texts only. *)
Definition is_space (a : ascii) : bool :=
  let n := N_of_ascii a in ((n =? 32) || ((9 <=? n) && (n <=? 13)))%N.

Fixpoint trimStart (s : string) : string :=
  match s with
  | EmptyString => EmptyString
  | String a s' => if is_space a then trimStart s' else s
  end.

Fixpoint trimEnd (s : string) : string :=
  match s with
  | EmptyString => EmptyString
  | String a s' =>
      match trimEnd s' with
      | EmptyString => if is_space a then EmptyString else String a EmptyString
      | t => String a t
      end
  end.

Definition trim (s : string) : string := trimEnd (trimStart s).

(** Days between 1970-01-01 and a date of the proleptic Gregorian calendar. *)
Definition days_from_civil (y m d : Z) : Z :=
  let y := if m <=? 2 then y - 1 else y in
  let era := y / 400 in
  let yoe := y - era * 400 in
  let doy := (153 * (if 2 <? m then m - 3 else m + 9) + 2) / 5 + d - 1 in
  let doe := yoe * 365 + yoe / 4 - yoe / 100 + doy in
  era * 146097 + doe - 719468.

Definition days_in_month (y m : Z) : Z :=
  if m =? 2
  then (if ((y mod 4 =? 0) && negb (y mod 100 =? 0)) || (y mod 400 =? 0) then 29 else 28)
  else if (m =? 4) || (m =? 6) || (m =? 9) || (m =? 11) then 30 else 31.

Definition number (s : string) : option Z := Z.of_N <$> Js.digits_value 0 s.

(** [new Date(s).getTime()] on the date-only form [YYYY-MM-DD] with a day
    of the calendar (UTC midnight, in milliseconds), and the NaN of an
    invalid date on every other text, as on ['N/A'].  The runtime reads
    further forms as dates (a day past the end of its month, surrounding
    white space, other notations); the instance is used on dates of the
    form above and on texts without a digit only. *)
Definition getTime (s : string) : option Z :=
  match s with
  | String y1 (String y2 (String y3 (String y4 (String "-" (String m1 (String m2
      (String "-" (String d1 (String d2 EmptyString))))))))) =>
      y ← number (String y1 (String y2 (String y3 (String y4 EmptyString))));
      m ← number (String m1 (String m2 EmptyString));
      d ← number (String d1 (String d2 EmptyString));
      if (1 <=? m) && (m <=? 12) && (1 <=? d) && (d <=? days_in_month y m)
      then Some (days_from_civil y m d * 86400000)
      else None
  | _ => None
  end.

End Runtime.


(** ** The rest of the component: selector lists, handlers, rendering *)

Module Builtins.

(** [Array.from(new Set(xs))]: the distinct values in the order of their
    first insertion. *)
Fixpoint Set_add_all (seen xs : list string) : list string :=
  match xs with
  | [] => seen
  | x :: xs' =>
      if decide (x ∈ seen) then Set_add_all seen xs' else Set_add_all (seen ++ [x]) xs'
  end.

Definition Set_from (xs : list string) : list string := Set_add_all [] xs.

(** [xs.filter(Boolean)] on [string | null] values. *)
Definition filter_Boolean (xs : list (option string)) : list string := omap Js.truthy xs.

(** The comparison of [sort()] without a comparator: strings by their code
    units.  The bytes of the model order the same way, except between a
    character outside the Basic Multilingual Plane and one from U+E000 on. *)
Definition defaultCompare (a b : string) : option Z :=
  Some match String.compare a b with
       | Lt => -1
       | Eq => 0
       | Gt => 1
       end.

(** [xs.indexOf(x)], [-1] when absent. *)
Fixpoint indexOf_from (i : Z) (xs : list string) (x : string) : Z :=
  match xs with
  | [] => -1
  | y :: xs' => if decide (y = x) then i else indexOf_from (i + 1) xs' x
  end.

Definition indexOf (xs : list string) (x : string) : Z := indexOf_from 0 xs x.

End Builtins.

(** The lists behind the three selectors. *)
Module Lists.

Definition availableDates (rawData : list AttendanceRecord.t) : list string :=
  let dates :=
    Builtins.Set_from
      (Builtins.filter_Boolean (map AttendanceRecord.tarikh_kehadiran rawData)) in
  Js.Array_sort Builtins.defaultCompare dates.

Definition availableSessions (selectedDate : string) (rawData : list AttendanceRecord.t)
  : list string :=
  let sourceData :=
    if decide (selectedDate ≠ "all")
    then List.filter
           (λ r, bool_decide (AttendanceRecord.tarikh_kehadiran r = Some selectedDate))
           rawData
    else rawData in
  let sessions :=
    Builtins.Set_from (Builtins.filter_Boolean (map AttendanceRecord.sesi sourceData)) in
  Js.Array_sort Builtins.defaultCompare sessions.

(** [src/App.tsx] *)
Definition SORT_ORDER : list string :=
  [ "KETUA PENGARAH"; "TKP (PIA)"; "TKP (KP)"; "TKP (SMO)"; "FAMA PERLIS"; "FAMA KEDAH";
    "FAMA PULAU PINANG"; "FAMA PERAK"; "FAMA SELANGOR"; "FAMA NEGERI SEMBILAN";
    "FAMA MELAKA"; "FAMA JOHOR"; "FAMA PAHANG"; "FAMA TERENGGANU"; "FAMA KELANTAN";
    "FAMA SARAWAK"; "FAMA SABAH" ].

(** The comparator of [availableStates] in [src/App.tsx];
    [localeCompare] belongs to the runtime. *)
Definition bySortOrder (localeCompare : string → string → Z) (a b : string) : option Z :=
  let indexA := Builtins.indexOf SORT_ORDER a in
  let indexB := Builtins.indexOf SORT_ORDER b in
  if bool_decide (indexA ≠ -1) && bool_decide (indexB ≠ -1) then Some (indexA - indexB)
  else if bool_decide (indexA ≠ -1) then Some (-1)
  else if bool_decide (indexB ≠ -1) then Some 1
  else Some (localeCompare a b).

Definition availableStates (localeCompare : string → string → Z)
    (rawData : list AttendanceRecord.t) (masterData : list MasterRecord.t) : list string :=
  let states :=
    Builtins.Set_from
      (Js.Object_keys App.PRESET_TARGETS
       ++ Builtins.filter_Boolean (map AttendanceRecord.wing_negeri rawData)
       ++ Builtins.filter_Boolean (map MasterRecord.wing_negeri masterData)) in
  Js.Array_sort (bySortOrder localeCompare) states.

(** The earlier variant: no roster, no custom order. *)
Definition availableStates_part001 (rawData : list AttendanceRecord.t) : list string :=
  let states :=
    Builtins.Set_from
      (Js.Object_keys Part001.PRESET_TARGETS
       ++ Builtins.filter_Boolean (map AttendanceRecord.wing_negeri rawData)) in
  Js.Array_sort Builtins.defaultCompare states.

End Lists.

(** The three selectors and what changes them. *)
Module Filters.

Record State := mk {
  selectedDate : string;
  selectedSession : string;
  selectedState : string
}.

(** [useState('all')] three times. *)
Definition initial : State := mk "all" "all" "all".

(** [useEffect(() => { setSelectedSession('all') }, [selectedDate])]: the
    state once the effect of a render with a new [selectedDate] has run. *)
Definition resetSession (before after : State) : State :=
  if decide (selectedDate before = selectedDate after) then after
  else mk (selectedDate after) "all" (selectedState after).

Definition setSelectedDate (value : string) (st : State) : State :=
  resetSession st (mk value (selectedSession st) (selectedState st)).

Definition setSelectedSession (value : string) (st : State) : State :=
  mk (selectedDate st) value (selectedState st).

Definition setSelectedState (value : string) (st : State) : State :=
  mk (selectedDate st) (selectedSession st) value.

(** The argument of a chart click: [data], [data.activePayload] and the
    [payload] of its entries. *)
Record ChartEvent (A : Type) := mkEvent { activePayload : option (list A) }.
Arguments mkEvent {A} _.
Arguments activePayload {A} _.

(** [if (data && data.activePayload && data.activePayload.length)
      setSelectedState(current => current === stateName ? 'all' : stateName)] *)
Definition handleStateClick (data : option (ChartEvent StateStat.t)) (st : State) : State :=
  match data with
  | Some {| activePayload := Some (payload :: _) |} =>
      let stateName := StateStat.state payload in
      setSelectedState
        (if decide (selectedState st = stateName) then "all" else stateName) st
  | _ => st
  end.

Definition handleDateClick (data : option (ChartEvent DateStat.t)) (st : State) : State :=
  match data with
  | Some {| activePayload := Some (payload :: _) |} =>
      let dateValue := DateStat.date payload in
      setSelectedDate
        (if decide (selectedDate st = dateValue) then "all" else dateValue) st
  | _ => st
  end.

(** The records on display under a selection. *)
Definition filtered (st : State) (rawData : list AttendanceRecord.t)
  : list AttendanceRecord.t :=
  Aggregation.filtered (selectedDate st) (selectedSession st) (selectedState st) rawData.

End Filters.

(** What the cards, bars and labels compute from the statistics. *)
Module Render.

(** [formatDate]; formatting an invalid date throws a RangeError, which the
    [catch] turns into the string itself.  [Intl_format] is the formatter
    of the runtime on a time value. *)
Definition formatDate (getTime : string → option Z) (Intl_format : Z → string)
    (dateString : option string) : string :=
  match Js.truthy dateString with
  | None => "N/A"
  | Some s =>
      if decide (s = "N/A") then "N/A"
      else match getTime s with
           | Some t => Intl_format t
           | None => s
           end
  end.

(** The gradient of a bar of the unit chart. *)
Definition fillUrl (entry : StateStat.t) : string :=
  if 100 <=? StateStat.percentage entry then "url(#barGradientGreen)"
  else if StateStat.percentage entry <? 80 then "url(#barGradientAmber)"
  else "url(#barGradientBlue)".

(** The colour of the percentage in the tooltip of the unit chart. *)
Definition tooltipColor (data : StateStat.t) : string :=
  if 100 <=? StateStat.percentage data then "text-emerald-600"
  else if 80 <=? StateStat.percentage data then "text-blue-600"
  else "text-amber-600".

Definition stateOpacity (selectedState : string) (entry : StateStat.t) : Q :=
  let isSelected :=
    bool_decide (selectedState ≠ "all")
    && bool_decide (selectedState = StateStat.state entry) in
  if bool_decide (selectedState = "all") || isSelected then 1%Q else (3 # 10)%Q.

Definition dateOpacity (selectedDate : string) (entry : DateStat.t) : Q :=
  let isSelected :=
    bool_decide (selectedDate ≠ "all")
    && bool_decide (selectedDate = DateStat.date entry) in
  if bool_decide (selectedDate = "all") || isSelected then 1%Q else (4 # 10)%Q.

(** [Math.min(stats.overallPercentage, 100)], the width of the progress bar. *)
Definition progressWidth (overallPercentage : Z) : Z := Z.min overallPercentage 100.

(** The third card: the locked winner if there is one, else the top unit. *)
Definition cardUnit (currentSessionWinner : option WinnerLock.t)
    (topState : option StateStat.t) : string :=
  match currentSessionWinner with
  | Some winner => WinnerLock.state winner
  | None =>
      match topState with
      | Some top => StateStat.state top
      | None => "-"
      end
  end.

Definition cardPercentage (currentSessionWinner : option WinnerLock.t)
    (topState : option StateStat.t) : Z :=
  match currentSessionWinner with
  | Some winner => WinnerLock.percentage winner
  | None =>
      match topState with
      | Some top => StateStat.percentage top
      | None => 0
      end
  end.

End Render.

(** The roster query of [src/App.tsx] and the start of the component. *)
Module Startup.

(** What [await supabase.from('senarai_peserta_penuh').select(..)] does. *)
Inductive RosterOutcome :=
| Rejects
| Resolves (data : option (list MasterRecord.t)) (error : option Fetch.JsError).

(** [fetchMasterList]: [masterData] afterwards.  Without a client it
    returns at once; an error is logged only; a rejection is not caught
    and sets nothing. *)
Definition fetchMasterList (supabase : option RosterOutcome)
    (masterData : list MasterRecord.t) : list MasterRecord.t :=
  match supabase with
  | None => masterData
  | Some Rejects => masterData
  | Some (Resolves data error) =>
      match error with
      | Some _ => masterData
      | None =>
          match data with
          | Some data => data
          | None => masterData
          end
      end
  end.

(** The initial [sessionWinners]: the item of local storage if there is
    one, else the empty object.  The item is held as the map that
    [JSON.parse] returns for it. *)
Definition initialSessionWinners (saved : option (gmap string WinnerLock.t))
  : gmap string WinnerLock.t :=
  match saved with
  | Some winners => winners
  | None => ∅
  end.

Definition mount (saved : option (gmap string WinnerLock.t)) : App.LockState :=
  App.mkLock (initialSessionWinners saved) saved.

(** A call of [fetchAttendanceData] runs in two steps, and other calls may
    run in between: up to the [await] of the query, and from the answer of
    the query to the end.  (Without a client the call throws before it
    awaits anything and the two steps are never apart.) *)
Definition fetchStarts (st : Fetch.State) : Fetch.State :=
  Fetch.setError None (Fetch.setLoading true st).

Definition fetchSettles (supabase : option Fetch.QueryOutcome) (now : Z)
    (st : Fetch.State) : Fetch.State :=
  let '(thrown, st) := Fetch.tryBlock supabase now st in
  let st :=
    match thrown with
    | Some err =>
        Fetch.setError
          (Some (default "Gagal mendapatkan data." (Js.truthy (Fetch.message err)))) st
    | None => st
    end in
  Fetch.setLoading false st.

(** What happens to the refresh state: a call starts (the mount, a tick of
    [setInterval(fetchAttendanceData, 30000)], the button), or the query of
    a call that has started is answered at some time. *)
Inductive Event :=
| Starts
| Settles (supabase : option Fetch.QueryOutcome) (now : Z).

Definition step (st : Fetch.State) (e : Event) : Fetch.State :=
  match e with
  | Starts => fetchStarts st
  | Settles supabase now => fetchSettles supabase now st
  end.

Definition run (events : list Event) (st : Fetch.State) : Fetch.State :=
  fold_left step events st.

(** The events of polls that do not overlap: every call is answered before
    the next one starts. *)
Definition in_turn (polls : list (option Fetch.QueryOutcome * Z)) : list Event :=
  flat_map (λ p, [Starts; Settles p.1 p.2]) polls.

Definition poll (polls : list (option Fetch.QueryOutcome * Z)) (st : Fetch.State)
  : Fetch.State :=
  run (in_turn polls) st.

End Startup.

(** ** Vocabulary of the specification *)

(** On the elements of [l] the comparator is the difference of the
    numeric key [k]. *)
Definition compares_by_key {A : Type} (comparefn : A → A → option Z) (k : A → Z)
    (l : list A) : Prop :=
  ∀ x y, x ∈ l → y ∈ l → comparefn x y = Some (k x - k y).

(** [first_max f l s]: [s] is the first entry of [l] on which [f] is
    maximal. *)
Definition first_max {A : Type} (f : A → Z) (l : list A) (s : A) : Prop :=
  ∃ l1 l2, l = l1 ++ s :: l2
           ∧ Forall (λ e, f e < f s) l1 ∧ Forall (λ e, f e ≤ f s) l2.

(** [p = round(count / target * 100)], that is
    [p - 1/2 ≤ 100 * count / target < p + 1/2], cleared of denominators. *)
Definition round_percent (count target p : Z) : Prop :=
  2 * target * p - target ≤ 200 * count < 2 * target * p + target.

Definition percentage_spec (count target p : Z) : Prop :=
  (0 < target → round_percent count target p) ∧ (target = 0 → p = 0).

(** The number of distinct employee identifiers among some records. *)
Definition distinct_ids (records : list AttendanceRecord.t) : Z :=
  Z.of_nat (length (remove_dups (map AttendanceRecord.no_pekerja records))).

(** A name as the preset table holds them: not empty, without surrounding
    white space, and not the name of a member of [Object.prototype]. *)
Definition plain_name (trim : string → string) (s : string) : Prop :=
  s ≠ EmptyString ∧ trim s = s ∧ Js.inherited s = false.

(** The unit field of a record is missing or such a name. *)
Definition plain_unit (trim : string → string) (r : AttendanceRecord.t) : Prop :=
  ∀ u, Js.truthy (AttendanceRecord.wing_negeri r) = Some u →
       trim u = u ∧ Js.inherited u = false.

(** The records of a unit: those whose unit field is the name of the unit. *)
Definition records_of_unit (unit : string) (records : list AttendanceRecord.t)
  : list AttendanceRecord.t :=
  List.filter (λ r, bool_decide (AttendanceRecord.wing_negeri r = Some unit)) records.

(** The records that the aggregation files under a unit. *)
Definition of_unit (trim : string → string) (unit : string)
    (records : list AttendanceRecord.t) : list AttendanceRecord.t :=
  List.filter (λ r, bool_decide (Aggregation.stateKey trim r = unit)) records.

(** The records that the aggregation files under a date. *)
Definition of_date (trim : string → string) (date : string)
    (records : list AttendanceRecord.t) : list AttendanceRecord.t :=
  List.filter (λ r, bool_decide (Aggregation.dateKey trim r = date)) records.

(** A roster member has a matching attendance record. *)
Definition has_record (records : list AttendanceRecord.t) (staff : MasterRecord.t) : Prop :=
  MasterRecord.no_pekerja staff ∈ map AttendanceRecord.no_pekerja records.

#[global] Instance has_record_dec records staff : Decision (has_record records staff).
Proof. unfold has_record. apply _. Defined.

(** The roster minus the employee identifiers of the attendance records. *)
Definition roster_minus_attendance (masterData : list MasterRecord.t)
    (records : list AttendanceRecord.t) : list MasterRecord.t :=
  List.filter (λ staff, bool_decide (¬ has_record records staff)) masterData.

(** The roster members that a unit selection keeps. *)
Definition in_selected_unit (selectedState : string) (staff : MasterRecord.t) : Prop :=
  selectedState = "all" ∨ MasterRecord.wing_negeri staff = Some selectedState.

(** Successive runs of the winner-lock effect, each with the time, the
    session selected and the distribution of its render. *)
Definition recompute (runs : list (string * string * list StateStat.t))
    (st : App.LockState) : App.LockState :=
  fold_left (λ st run, App.lockWinner run.1.1 run.1.2 run.2 st) runs st.

(** A message is on display: [error] holds a truthy string. *)
Definition shows_message (st : Fetch.State) : Prop :=
  ∃ msg, Fetch.error st = Some msg ∧ msg ≠ EmptyString.

(** The refresh fails: no client, a rejected request, or a query error. *)
Definition refresh_failed (supabase : option Fetch.QueryOutcome) : Prop :=
  match supabase with
  | None => True
  | Some (Fetch.Rejects _) => True
  | Some (Fetch.Resolves _ (Some _)) => True
  | Some (Fetch.Resolves _ None) => False
  end.

#[global] Instance in_selected_unit_dec selectedState staff :
  Decision (in_selected_unit selectedState staff).
Proof. unfold in_selected_unit. apply _. Defined.

(** The unit list: the preset-target table in the order of its
    configuration, or the one unit that is selected. *)
Definition unit_list (PRESET_TARGETS : list (string * Z)) (selectedState : string)
  : list string :=
  if decide (selectedState = "all") then map fst PRESET_TARGETS else [selectedState].

(** [topState] is the first unit of maximal percentage: it heads the
    distribution, no entry has a greater percentage, and every unit that
    precedes it in the unit list has a smaller one. *)
Definition top_unit_spec (units : list string) (stateDistribution : list StateStat.t)
    (topState : option StateStat.t) : Prop :=
  (stateDistribution ≠ [] →
   ∃ top, topState = Some top
     ∧ head stateDistribution = Some top
     ∧ (∀ e, e ∈ stateDistribution → StateStat.percentage e ≤ StateStat.percentage top)
     ∧ ∃ before after,
         units = before ++ StateStat.state top :: after
         ∧ ∀ e, e ∈ stateDistribution → StateStat.state e ∈ before →
             StateStat.percentage e < StateStat.percentage top)
  ∧ (topState = None → stateDistribution = []).

(** [topDay] is the first date of maximal count in date-ascending order:
    an entry of maximal count, no later than any other entry of that
    count. *)
Definition earliest_top_day (getTime : string → option Z)
    (dateDistribution : list DateStat.t) (topDay : option DateStat.t) : Prop :=
  ∃ d, topDay = Some d
    ∧ d ∈ dateDistribution
    ∧ (∀ e, e ∈ dateDistribution → DateStat.count e ≤ DateStat.count d)
    ∧ ∀ e, e ∈ dateDistribution → DateStat.count e = DateStat.count d →
        ∃ td te, getTime (DateStat.date d) = Some td
                 ∧ getTime (DateStat.date e) = Some te ∧ td ≤ te.

(** ** Concrete inputs *)

Module Examples.

Definition attended (no_pekerja : string) (tarikh_kehadiran wing_negeri sesi : option string)
  : AttendanceRecord.t :=
  AttendanceRecord.mk no_pekerja None None tarikh_kehadiran wing_negeri sesi.

(** One employee checks in at both sessions of a day. *)
Definition two_sessions : list AttendanceRecord.t :=
  [ attended "1001" (Some "2025-01-01") (Some "FAMA PERLIS") (Some "Sesi 1");
    attended "1001" (Some "2025-01-01") (Some "FAMA PERLIS") (Some "Sesi 2") ].

(** A record without a date arrives between two dated ones. *)
Definition undated_between : list AttendanceRecord.t :=
  [ attended "1001" (Some "2025-01-02") (Some "FAMA PERLIS") (Some "Sesi 1");
    attended "1002" None (Some "FAMA PERLIS") (Some "Sesi 1");
    attended "1003" (Some "2025-01-01") (Some "FAMA PERLIS") (Some "Sesi 1") ].

(** The same with the empty string for the missing date. *)
Definition blank_between : list AttendanceRecord.t :=
  [ attended "1001" (Some "2025-01-02") (Some "FAMA PERLIS") (Some "Sesi 1");
    attended "1002" (Some EmptyString) (Some "FAMA PERLIS") (Some "Sesi 1");
    attended "1003" (Some "2025-01-01") (Some "FAMA PERLIS") (Some "Sesi 1") ].

(** Six employees of a unit whose target is 6, one record of another unit
    without a date, one record without a unit. *)
Definition perlis_full : list AttendanceRecord.t :=
  [ attended "1001" (Some "2025-01-01") (Some "FAMA PERLIS") (Some "Sesi 1");
    attended "1002" (Some "2025-01-01") (Some "FAMA PERLIS") (Some "Sesi 1");
    attended "1003" (Some "2025-01-01") (Some "FAMA PERLIS") (Some "Sesi 1");
    attended "1004" (Some "2025-01-01") (Some "FAMA PERLIS") (Some "Sesi 1");
    attended "1005" (Some "2025-01-02") (Some "FAMA PERLIS") (Some "Sesi 1");
    attended "1006" (Some "2025-01-02") (Some "FAMA PERLIS") (Some "Sesi 1");
    attended "1007" None (Some "FAMA JOHOR") (Some "Sesi 1");
    attended "1008" (Some "2025-01-02") None (Some "Sesi 1") ].

(** A record without a date arrives before a dated one. *)
Definition undated_first : list AttendanceRecord.t :=
  [ attended "1002" None (Some "FAMA PERLIS") (Some "Sesi 1");
    attended "1003" (Some "2025-01-01") (Some "FAMA PERLIS") (Some "Sesi 1") ].

(** The example of the specification: targets A 10 and B 5; two attendees
    of A and six of B at the first poll, a third attendee of A at the
    second. *)
Definition targets_AB : list (string * Z) := [("A", 10); ("B", 5)].

Definition attendees (unit : string) (ids : list string) : list AttendanceRecord.t :=
  map (λ id, attended id (Some "2025-01-01") (Some unit) (Some "Sesi 1")) ids.

Definition first_poll : list AttendanceRecord.t :=
  attendees "A" ["a1"; "a2"] ++ attendees "B" ["b1"; "b2"; "b3"; "b4"; "b5"; "b6"].

Definition second_poll : list AttendanceRecord.t := first_poll ++ attendees "A" ["a3"].

Definition distribution_AB (records : list AttendanceRecord.t) : list StateStat.t :=
  Aggregation.stateDistribution targets_AB "all"
    (App.countOf (App.stateUniqueMap Runtime.trim records)).

Definition roster_johor : list MasterRecord.t :=
  [ MasterRecord.mk "2001" (Some "Aminah") (Some "FAMA JOHOR") None ].

Definition roster_mixed : list MasterRecord.t :=
  [ MasterRecord.mk "1001" (Some "Badrul") (Some "FAMA PERLIS") None;
    MasterRecord.mk "2001" (Some "Aminah") (Some "FAMA JOHOR") None ].

Definition johor_lock : WinnerLock.t :=
  WinnerLock.mk "FAMA JOHOR" 100 "2025-01-01T09:00:00.000Z".

Definition locked_for_session_1 : App.LockState :=
  App.mkLock {[ "Sesi 1" := johor_lock ]} (Some {[ "Sesi 1" := johor_lock ]}).

Definition unlocked : App.LockState := App.mkLock ∅ None.

(** The six employees of FAMA PERLIS (target 6) attend a session that the
    store names [toString]. *)
Definition session_toString : list AttendanceRecord.t :=
  map (λ id, attended id (Some "2025-01-01") (Some "FAMA PERLIS") (Some "toString"))
    ["1001"; "1002"; "1003"; "1004"; "1005"; "1006"].

Definition loaded : Fetch.State := Fetch.mkState false None 0 two_sessions.

End Examples.

(** ** Vocabulary of the further properties *)

(** The order of code units on strings. *)
Definition code_units_le (a b : string) : Prop := String.compare a b ≠ Gt.

(** The rows of the last answer that carried rows, [init] if none did. *)
Definition rows_of_last_success (events : list Startup.Event)
    (init : list AttendanceRecord.t) : list AttendanceRecord.t :=
  fold_left
    (λ rows e,
       match e with
       | Startup.Settles (Some (Fetch.Resolves (Some data) None)) _ => data
       | _ => rows
       end)
    events init.

(** A call has failed and no call has started since. *)
Definition failure_not_cleared (events : list Startup.Event) : Prop :=
  ∃ before supabase now after,
    events = before ++ Startup.Settles supabase now :: after
    ∧ refresh_failed supabase
    ∧ Startup.Starts ∉ after.

(** No date key of the records names a member of [Object.prototype]. *)
Definition ordinary_dates (trim : string → string) (records : list AttendanceRecord.t)
  : Prop :=
  ∀ r, r ∈ records → Js.inherited (Aggregation.dateKey trim r) = false.

(** The sum of the counts of the per-date entries. *)
Definition sum_counts (entries : list DateStat.t) : Z :=
  foldr (λ d total, DateStat.count d + total) 0 entries.

(** Every recorded winner had reached 100 percent. *)
Definition winners_reached_100 (winners : gmap string WinnerLock.t) : Prop :=
  map_Forall (λ _ w, 100 ≤ WinnerLock.percentage w) winners.

(** A record has no date, a roster query returned no rows. *)
Definition undated (r : AttendanceRecord.t) : Prop :=
  Js.truthy (AttendanceRecord.tarikh_kehadiran r) = None.

Definition roster_not_loaded (supabase : option Startup.RosterOutcome) : Prop :=
  match supabase with
  | Some (Startup.Resolves (Some _) None) => False
  | _ => True
  end.

(** Further concrete inputs *)

Module Samples.

Definition whitespace_free (s : string) : Prop := Runtime.trim s = s.

Definition kelantan_and_guests : list AttendanceRecord.t :=
  [ Examples.attended "3001" (Some "2025-01-02") (Some "Tetamu") (Some "Sesi 2");
    Examples.attended "3002" (Some "2025-01-01") (Some "FAMA KELANTAN") (Some "Sesi 1");
    Examples.attended "3003" None (Some "Tetamu") None ].

(** Two dates with one record each, the later date first. *)
Definition later_date_first : list AttendanceRecord.t :=
  [ Examples.attended "3001" (Some "2025-01-02") (Some "FAMA KEDAH") (Some "Sesi 1");
    Examples.attended "3002" (Some "2025-01-01") (Some "FAMA KEDAH") (Some "Sesi 1") ].

Definition stored_locks : gmap string WinnerLock.t :=
  {[ "Sesi 1" := Examples.johor_lock ]}.

(** Two employees whose unit was typed with a space at its end. *)
Definition perlis_with_space : list AttendanceRecord.t :=
  [ Examples.attended "4001" (Some "2025-01-01") (Some "FAMA PERLIS ") (Some "Sesi 1");
    Examples.attended "4002" (Some "2025-01-01") (Some "FAMA PERLIS ") (Some "Sesi 1") ].

End Samples.

(** * Properties *)

(** ** The runtime model *)

Section ArraySortFacts.
Context {A : Type} (comparefn : A → A → option Z).

Lemma sort_insert_perm (x : A) (l : list A) :
  Js.sort_insert comparefn x l ≡ₚ x :: l.
Proof.
  induction l as [|y l IH]; simpl; [done|].
  destruct (Js.SortCompare comparefn x y <=? 0); [done|].
  rewrite IH. apply perm_swap.
Qed.

Lemma Array_sort_perm (l : list A) : Js.Array_sort comparefn l ≡ₚ l.
Proof.
  induction l as [|x l IH]; simpl; [done|].
  by rewrite sort_insert_perm, IH.
Qed.

Lemma elem_of_Array_sort (x : A) (l : list A) :
  x ∈ Js.Array_sort comparefn l ↔ x ∈ l.
Proof. by rewrite Array_sort_perm. Qed.

Lemma Array_sort_nil_iff (l : list A) : Js.Array_sort comparefn l = [] ↔ l = [].
Proof.
  split; [|by intros ->].
  intros H. apply Permutation_nil. by rewrite <- H, Array_sort_perm.
Qed.

(** With a comparator that is the difference of a numeric key, on the
    elements at hand, the result is in ascending key order. *)
Section Ascending.
Variable k : A → Z.

Lemma sort_insert_sorted (x : A) (l : list A) :
  compares_by_key comparefn k (x :: l) →
  StronglySorted (λ a b, k a ≤ k b) l →
  StronglySorted (λ a b, k a ≤ k b) (Js.sort_insert comparefn x l).
Proof.
  intros Hk Hs. induction Hs as [|y l Hs IH Hy]; simpl.
  - repeat constructor.
  - unfold Js.SortCompare. rewrite (Hk x y) by (rewrite !elem_of_cons; tauto). simpl.
    destruct (Z.leb_spec (k x - k y) 0) as [Hle|Hgt].
    + constructor; [by constructor|].
      constructor; [lia|].
      eapply Forall_impl; [exact Hy|]. simpl. intros; lia.
    + constructor.
      * apply IH. intros a b Ha Hb. apply Hk; rewrite !elem_of_cons in *; tauto.
      * rewrite sort_insert_perm. constructor; [lia|done].
Qed.

Lemma Array_sort_sorted (l : list A) :
  compares_by_key comparefn k l →
  StronglySorted (λ a b, k a ≤ k b) (Js.Array_sort comparefn l).
Proof.
  induction l as [|x l IH]; intros Hk; simpl; [constructor|].
  apply sort_insert_sorted.
  - intros a b Ha Hb. apply Hk.
    + rewrite elem_of_cons in Ha |- *. rewrite elem_of_Array_sort in Ha. done.
    + rewrite elem_of_cons in Hb |- *. rewrite elem_of_Array_sort in Hb. done.
  - apply IH. intros a b Ha Hb. apply Hk; rewrite elem_of_cons; tauto.
Qed.
End Ascending.
End ArraySortFacts.

Section FirstMaxFacts.
Context {A : Type} (f : A → Z).

Lemma first_max_elem (l : list A) (s : A) : first_max f l s → s ∈ l.
Proof. intros (l1 & l2 & -> & _). set_solver. Qed.

Lemma first_max_ge (l : list A) (s e : A) :
  first_max f l s → e ∈ l → f e ≤ f s.
Proof.
  intros (l1 & l2 & -> & H1 & H2) He.
  rewrite elem_of_app, elem_of_cons in He.
  rewrite Forall_forall in H1, H2.
  destruct He as [He|[->|He]]; [apply H1 in He; lia|lia|by apply H2].
Qed.

Lemma first_max_unique (l : list A) (s s' : A) :
  first_max f l s → first_max f l s' → s = s'.
Proof.
  intros (l1 & l2 & -> & H1 & H2) (l1' & l2' & E & H1' & H2').
  revert l1' E H1'. induction l1 as [|x l1 IH]; intros l1' E H1'.
  - destruct l1' as [|y l1']; simplify_eq/=; [done|].
    apply Forall_cons_1 in H1' as [Hy _].
    assert (f s' ≤ f y); [|lia].
    rewrite Forall_forall in H2. apply H2. set_solver.
  - apply Forall_cons_1 in H1 as [Hx H1].
    destruct l1' as [|y l1']; simplify_eq/=.
    + assert (f s ≤ f s'); [|lia].
      rewrite Forall_forall in H2'. apply H2'. set_solver.
    + apply Forall_cons_1 in H1' as [_ H1']. by eapply IH.
Qed.

(** The [forEach] loop: what it leaves in [(top, max)]. *)
Lemma fold_max_step (l : list A) (top : option A) (m : Z) :
  (Forall (λ e, f e ≤ m) l ∧ fold_left (Js.max_step f) l (top, m) = (top, m))
  ∨ (∃ s, first_max f l s ∧ m < f s
          ∧ fold_left (Js.max_step f) l (top, m) = (Some s, f s)).
Proof.
  revert top m. induction l as [|x l IH]; intros top m; simpl.
  - left. split; [constructor|done].
  - change (Js.max_step f (top, m) x)
      with (if m <? f x then (Some x, f x) else (top, m)).
    destruct (Z.ltb_spec m (f x)) as [Hlt|Hge].
    + right. destruct (IH (Some x) (f x)) as [[Hall ->]|(s & Hs & Hm & ->)].
      * exists x. split; [|done]. exists [], l. done.
      * exists s. split; [|split; [lia|done]].
        destruct Hs as (l1 & l2 & -> & H1 & H2).
        exists (x :: l1), l2. split; [done|]. split; [|done].
        constructor; [lia|done].
    + destruct (IH top m) as [[Hall ->]|(s & Hs & Hm & ->)].
      * left. split; [|done]. constructor; [lia|done].
      * right. exists s. split; [|done].
        destruct Hs as (l1 & l2 & -> & H1 & H2).
        exists (x :: l1), l2. split; [done|]. split; [|done].
        constructor; [lia|done].
Qed.

Lemma forEach_max_nil : Js.forEach_max f [] = None.
Proof. done. Qed.

Lemma forEach_max_first_max (l : list A) :
  Forall (λ e, 0 ≤ f e) l → l ≠ [] →
  ∃ s, Js.forEach_max f l = Some s ∧ first_max f l s.
Proof.
  intros Hpos Hne. unfold Js.forEach_max.
  destruct (fold_max_step l None (-1)) as [[Hall _]|(s & Hs & _ & ->)].
  - destruct l as [|x l]; [done|].
    apply Forall_cons_1 in Hpos as [? _]. apply Forall_cons_1 in Hall as [? _]. lia.
  - by exists s.
Qed.

Lemma forEach_max_None (l : list A) :
  Forall (λ e, 0 ≤ f e) l → Js.forEach_max f l = None → l = [].
Proof.
  intros Hpos Hnone. destruct l as [|x l]; [done|].
  destruct (forEach_max_first_max (x :: l)) as (s & Hs & _); [done..|congruence].
Qed.
End FirstMaxFacts.

(** A sort on a descending numeric key puts the first maximal entry of
    its input in front: the sort is stable. *)
Section DescendingHead.
Context {A : Type} (f : A → Z) (comparefn : A → A → option Z).
Hypothesis comparefn_desc : ∀ x y, comparefn x y = Some (f y - f x).

Lemma Array_sort_desc_head (l : list A) (s : A) :
  first_max f l s → ∃ rest, Js.Array_sort comparefn l = s :: rest.
Proof.
  revert s. induction l as [|x l IH]; intros s (l1 & l2 & E & H1 & H2).
  - by destruct l1.
  - destruct l1 as [|y l1]; simplify_eq/=.
    + destruct (Js.Array_sort comparefn l2) as [|y ys] eqn:Hs; [by eexists|].
      simpl. unfold Js.SortCompare. rewrite comparefn_desc. simpl.
      assert (f y ≤ f s) as Hy.
      { rewrite Forall_forall in H2. apply H2.
        rewrite <- (elem_of_Array_sort comparefn), Hs. by left. }
      destruct (Z.leb_spec (f y - f s) 0); [by eexists|lia].
    + apply Forall_cons_1 in H1 as [Hy H1].
      destruct (IH s) as [rest ->]; [by exists l1, l2|].
      simpl. unfold Js.SortCompare. rewrite comparefn_desc. simpl.
      destruct (Z.leb_spec (f s - f y) 0); [lia|by eexists].
Qed.

Lemma Array_sort_desc_first_max (l : list A) (s : A) :
  first_max f l s → first_max f (Js.Array_sort comparefn l) s.
Proof.
  intros Hs. destruct (Array_sort_desc_head l s Hs) as [rest E].
  exists [], rest. split; [done|]. split; [constructor|].
  apply Forall_forall. intros e He. apply (first_max_ge f l); [done|].
  rewrite <- (elem_of_Array_sort comparefn), E. by right.
Qed.

Lemma Array_sort_desc_sorted (l : list A) :
  StronglySorted (λ a b, f b ≤ f a) (Js.Array_sort comparefn l).
Proof.
  eapply Sorted.StronglySorted_ind
    with (P := λ l', StronglySorted (λ a b, f b ≤ f a) l');
    [constructor| |apply (Array_sort_sorted comparefn (λ a, - f a) l)].
  - intros a l' _ IH Ha. constructor; [done|].
    eapply Forall_impl; [exact Ha|]. simpl. intros; lia.
  - intros x y _ _. rewrite comparefn_desc. f_equal. lia.
Qed.
End DescendingHead.

(** Rounding *)

Lemma percentageOf_pos (count target : Z) :
  0 < target →
  Aggregation.percentageOf count target = (200 * count + target) / (2 * target).
Proof.
  intros Ht. unfold Aggregation.percentageOf.
  destruct (Z.ltb_spec 0 target); [|lia].
  destruct target as [|p|p]; try lia.
  transitivity ((count * 1 * 100 * 2 + Z.pos (p * 1)) / Z.pos (p * 1 * 2)); [reflexivity|].
  rewrite !Pos.mul_1_r, Pos2Z.inj_mul. f_equal; lia.
Qed.

Lemma percentageOf_nonpos (count target : Z) :
  target ≤ 0 → Aggregation.percentageOf count target = 0.
Proof.
  intros Ht. unfold Aggregation.percentageOf. by destruct (Z.ltb_spec 0 target); [lia|].
Qed.

Lemma percentageOf_spec (count target : Z) :
  percentage_spec count target (Aggregation.percentageOf count target).
Proof.
  split.
  - intros Ht. rewrite percentageOf_pos by done. unfold round_percent.
    pose proof (Z.div_mod (200 * count + target) (2 * target)).
    pose proof (Z.mod_pos_bound (200 * count + target) (2 * target)).
    lia.
  - intros ->. by apply percentageOf_nonpos.
Qed.

Lemma percentageOf_nonneg (count target : Z) :
  0 ≤ count → 0 ≤ Aggregation.percentageOf count target.
Proof.
  intros Hc. destruct (Z.lt_ge_cases 0 target).
  - rewrite percentageOf_pos by done. apply Z.div_pos; lia.
  - rewrite percentageOf_nonpos; lia.
Qed.

(** Dictionaries *)

Lemma get_increment (o : list (string * Z)) (k k' : string) :
  Js.get (Js.increment o k') k
  = if decide (k = k') then Some (default 0 (Js.get o k) + 1) else Js.get o k.
Proof.
  induction o as [|[k0 v] o IH]; simpl.
  - repeat case_decide; simplify_eq; done.
  - repeat (case_decide; simplify_eq/=); done.
Qed.

Lemma get_Some_elem {V : Type} (o : list (string * V)) (k : string) (v : V) :
  Js.get o k = Some v → (k, v) ∈ o.
Proof.
  induction o as [|[k0 v0] o IH]; simpl; [done|].
  case_decide; intros; simplify_eq; [by left|right; auto].
Qed.

Lemma keys_increment (o : list (string * Z)) (k : string) :
  NoDup (map fst o) → NoDup (map fst (Js.increment o k)).
Proof.
  induction o as [|[k0 v] o IH]; simpl; intros Hnd.
  - repeat constructor. by intros ?%elem_of_nil.
  - apply NoDup_cons in Hnd as [Hk0 Hnd]. case_decide; simpl.
    + apply NoDup_cons. done.
    + apply NoDup_cons. split; [|auto].
      intros Hin. apply Hk0. apply list_elem_of_fmap in Hin as [[k1 v1] [-> Hin]].
      apply list_elem_of_fmap. simpl.
      assert (Js.get (Js.increment o k) k1 ≠ None) as Hget.
      { clear -Hin. induction (Js.increment o k) as [|[k2 v2] o' IH'];
          [by apply elem_of_nil in Hin|].
        simpl. case_decide; [done|]. apply IH'.
        apply elem_of_cons in Hin as [?|?]; [simplify_eq|done]. }
      rewrite get_increment in Hget. case_decide; [simplify_eq|].
      destruct (Js.get o k1) as [v'|] eqn:E; [|done].
      exists (k1, v'). split; [done|]. by apply get_Some_elem.
Qed.

Lemma elem_get {V : Type} (o : list (string * V)) (k : string) (v : V) :
  NoDup (map fst o) → (k, v) ∈ o → Js.get o k = Some v.
Proof.
  induction o as [|[k0 v0] o IH]; simpl; intros Hnd Hin; [by apply elem_of_nil in Hin|].
  apply NoDup_cons in Hnd as [Hk0 Hnd].
  apply elem_of_cons in Hin as [?|Hin]; simplify_eq.
  - by rewrite decide_True.
  - rewrite decide_False; [auto|]. intros ->. apply Hk0.
    apply list_elem_of_fmap. by exists (k0, v).
Qed.

Lemma Object_entries_perm {V : Type} (o : list (string * V)) :
  Js.Object_entries o ≡ₚ o.
Proof.
  unfold Js.Object_entries. rewrite Array_sort_perm.
  induction o as [|e o IH]; simpl; [done|].
  destruct (Js.is_index e.1); simpl.
  - by rewrite IH.
  - by rewrite <- Permutation_middle, IH.
Qed.

Lemma size_list_to_set_distinct (l : list string) :
  size (list_to_set (C := gset string) l) = length (remove_dups l).
Proof.
  rewrite <- (size_list_to_set (C := gset string) (remove_dups l))
    by apply NoDup_remove_dups.
  f_equal. apply set_eq. intros x.
  by rewrite !elem_of_list_to_set, elem_of_remove_dups.
Qed.

Lemma elem_of_filter_bool {A : Type} (p : A → bool) (l : list A) (x : A) :
  x ∈ List.filter p l ↔ x ∈ l ∧ p x = true.
Proof. rewrite !list_elem_of_In. apply filter_In. Qed.

Lemma filter_bool_nil {A : Type} (p : A → bool) (l : list A) :
  List.filter p l = [] ↔ ∀ x, x ∈ l → p x = false.
Proof.
  induction l as [|y l IH]; simpl.
  - split; [by intros _ x ?%elem_of_nil|done].
  - destruct (p y) eqn:E.
    + split; [done|]. intros H. specialize (H y). rewrite E in H.
      discriminate H. by left.
    + rewrite IH. split.
      * intros H x [->|?]%elem_of_cons; auto.
      * intros H x ?. apply H. by right.
Qed.

(** ** The aggregation steps *)

(** Tallies: [m[key(r)] = (m[key(r)] || 0) + 1] over a list of records. *)
Section Tally.
Context {R : Type} (key : R → string).

Lemma get_tally (l : list R) (o : list (string * Z)) (k : string) :
  Js.get (fold_left (λ m r, Js.increment m (key r)) l o) k
  = if decide (List.filter (λ r, bool_decide (key r = k)) l = [])
    then Js.get o k
    else Some (default 0 (Js.get o k)
               + Z.of_nat (length (List.filter (λ r, bool_decide (key r = k)) l))).
Proof.
  revert o. induction l as [|r l IH]; intros o; simpl; [done|].
  rewrite IH, get_increment.
  destruct (decide (k = key r)) as [->|Hne].
  - rewrite bool_decide_eq_true_2 by done.
    rewrite (decide_False (P := _ :: _ = [])) by done.
    case_decide as E.
    + rewrite E. simpl. f_equal.
    + simpl. f_equal. lia.
  - rewrite bool_decide_eq_false_2 by done. done.
Qed.

Lemma keys_tally (l : list R) (o : list (string * Z)) :
  NoDup (map fst o) → NoDup (map fst (fold_left (λ m r, Js.increment m (key r)) l o)).
Proof.
  revert o. induction l as [|r l IH]; intros o Ho; simpl; [done|].
  apply IH. by apply keys_increment.
Qed.

Lemma elem_of_tally (l : list R) (k : string) (v : Z) :
  (k, v) ∈ fold_left (λ m r, Js.increment m (key r)) l []
  ↔ v = Z.of_nat (length (List.filter (λ r, bool_decide (key r = k)) l)) ∧ 0 < v.
Proof.
  split.
  - intros Hin. apply elem_get in Hin; [|apply keys_tally; constructor].
    rewrite get_tally in Hin. case_decide as E; simplify_eq/=.
    split; [lia|]. destruct (List.filter _ l); [done|simpl; lia].
  - intros [-> Hpos]. apply get_Some_elem. rewrite get_tally.
    case_decide as E; [rewrite E in Hpos; simpl in Hpos; lia|].
    simpl. f_equal.
Qed.
End Tally.

Section AggregationFacts.
Variable trim : string → string.
Variable getTime : string → option Z.
Variable PRESET_TARGETS : list (string * Z).
Variables selectedDate selectedSession selectedState : string.

Local Abbreviation filtered :=
  (Aggregation.filtered selectedDate selectedSession selectedState).
Local Abbreviation matchFilters :=
  (Aggregation.matchFilters selectedDate selectedSession selectedState).

Lemma elem_of_filtered (rawData : list AttendanceRecord.t) (r : AttendanceRecord.t) :
  r ∈ filtered rawData ↔ r ∈ rawData ∧ matchFilters r = true.
Proof. apply elem_of_filter_bool. Qed.

(** The entries of [dateDistribution] are the keys of [dateMap], each
    with the number of records filed under it. *)
Lemma elem_of_dateDistribution (records : list AttendanceRecord.t) (d : DateStat.t) :
  d ∈ Aggregation.dateDistribution trim getTime records
  ↔ DateStat.count d = Z.of_nat (length (of_date trim (DateStat.date d) records))
    ∧ 0 < DateStat.count d.
Proof.
  unfold Aggregation.dateDistribution, Aggregation.dateMap, of_date.
  rewrite elem_of_Array_sort, list_elem_of_fmap.
  setoid_rewrite Object_entries_perm.
  split.
  - intros ([k v] & -> & Hin). simpl. by apply elem_of_tally in Hin.
  - intros H. exists (DateStat.date d, DateStat.count d).
    split; [by destruct d|]. by apply elem_of_tally.
Qed.

Lemma dateDistribution_nil (records : list AttendanceRecord.t) :
  Aggregation.dateDistribution trim getTime records = [] ↔ records = [].
Proof.
  split; [|by intros ->].
  intros Hnil. destruct records as [|r records]; [done|]. exfalso.
  assert (DateStat.mk (Aggregation.dateKey trim r)
            (Z.of_nat (length (of_date trim (Aggregation.dateKey trim r) (r :: records))))
          ∈ Aggregation.dateDistribution trim getTime (r :: records)) as Hin.
  { apply elem_of_dateDistribution. simpl. split; [done|].
    rewrite bool_decide_eq_true_2 by done. simpl. lia. }
  rewrite Hnil in Hin. by apply elem_of_nil in Hin.
Qed.

Lemma dateDistribution_counts_nonneg (records : list AttendanceRecord.t) :
  Forall (λ d, 0 ≤ DateStat.count d) (Aggregation.dateDistribution trim getTime records).
Proof.
  apply Forall_forall. intros d Hd. apply elem_of_dateDistribution in Hd. lia.
Qed.

(** The entries of [stateDistribution] are the entries of the unit
    list, one per key. *)
Lemma elem_of_stateDistribution (countOf : string → Z) (e : StateStat.t) :
  e ∈ Aggregation.stateDistribution PRESET_TARGETS selectedState countOf
  ↔ ∃ key, key ∈ Aggregation.stateKeys PRESET_TARGETS selectedState
           ∧ e = Aggregation.stateStat PRESET_TARGETS countOf key.
Proof.
  unfold Aggregation.stateDistribution.
  rewrite elem_of_Array_sort, list_elem_of_fmap.
split; intros (key & ? & ?); exists key; done.
Qed.

Lemma stateDistribution_percentages_nonneg (countOf : string → Z) :
  (∀ key, 0 ≤ countOf key) →
  Forall (λ e, 0 ≤ StateStat.percentage e)
    (Aggregation.stateDistribution PRESET_TARGETS selectedState countOf).
Proof.
  intros Hc. apply Forall_forall. intros e (key & _ & ->)%elem_of_stateDistribution.
  simpl. by apply percentageOf_nonneg.
Qed.

Lemma stateDistribution_sorted (countOf : string → Z) :
  StronglySorted (λ a b, StateStat.percentage b ≤ StateStat.percentage a)
    (Aggregation.stateDistribution PRESET_TARGETS selectedState countOf).
Proof. by apply Array_sort_desc_sorted. Qed.
End AggregationFacts.

(** ** [src/App.tsx]: the per-unit sets of employee identifiers *)

Section AppFacts.
Variable trim : string → string.

Lemma lookup_addToState (m : gmap string (gset string)) (r : AttendanceRecord.t)
    (k : string) :
  App.addToState trim m r !! k
  = if decide (Aggregation.stateKey trim r = k)
    then Some (default ∅ (m !! k) ∪ {[AttendanceRecord.no_pekerja r]})
    else m !! k.
Proof.
  unfold App.addToState.
  destruct (m !! Aggregation.stateKey trim r) as [ids|] eqn:E.
  - rewrite lookup_insert. case_decide; [|done]. simplify_eq. by rewrite E.
  - rewrite lookup_insert. case_decide.
    + simplify_eq. by rewrite lookup_insert_eq, E.
    + by rewrite lookup_insert_ne.
Qed.

Lemma lookup_fold_addToState (l : list AttendanceRecord.t)
    (m : gmap string (gset string)) (k : string) :
  fold_left (App.addToState trim) l m !! k
  = if decide (of_unit trim k l = []) then m !! k
    else Some (default ∅ (m !! k)
               ∪ list_to_set (map AttendanceRecord.no_pekerja (of_unit trim k l))).
Proof.
  revert m. induction l as [|r l IH]; intros m; simpl; [done|].
  rewrite IH, lookup_addToState.
  destruct (decide (Aggregation.stateKey trim r = k)) as [Hk|Hk].
  - rewrite bool_decide_eq_true_2 by done.
    rewrite (decide_False (P := _ :: _ = [])) by done.
    case_decide as E.
    + rewrite E. simpl. f_equal. set_solver.
    + simpl. f_equal. set_solver.
  - by rewrite bool_decide_eq_false_2 by done.
Qed.

Lemma countOf_stateUniqueMap (l : list AttendanceRecord.t) (k : string) :
  App.countOf (App.stateUniqueMap trim l) k = distinct_ids (of_unit trim k l).
Proof.
  unfold App.countOf, App.stateUniqueMap, distinct_ids.
  rewrite lookup_fold_addToState, lookup_empty. case_decide as E.
  - by rewrite E.
  - simpl. rewrite (left_id_L ∅ (∪)). by rewrite size_list_to_set_distinct.
Qed.

Lemma countOf_nonneg (m : gmap string (gset string)) (k : string) :
  0 ≤ App.countOf m k.
Proof. unfold App.countOf. destruct (m !! k); lia. Qed.

Lemma totalHeadcount_distinct (l : list AttendanceRecord.t) :
  Z.of_nat (size (App.uniqueParticipants l)) = distinct_ids l.
Proof. unfold App.uniqueParticipants, distinct_ids. by rewrite size_list_to_set_distinct. Qed.

(** In [src/App.tsx] the totals are deduplicated by employee identifier. *)
Lemma App_totals_deduplicated (getTime : string → option Z)
    (selectedDate selectedSession selectedState : string)
    (rawData : list AttendanceRecord.t) (masterData : list MasterRecord.t) :
  let s := App.stats trim getTime selectedDate selectedSession selectedState
             rawData masterData in
  App.totalParticipants s = distinct_ids (App.filteredData s)
  ∧ ∀ e, e ∈ App.stateDistribution s →
      StateStat.count e = distinct_ids (of_unit trim (StateStat.state e) (App.filteredData s)).
Proof.
  simpl. split; [apply totalHeadcount_distinct|].
  intros e (key & _ & ->)%elem_of_stateDistribution. simpl.
  apply countOf_stateUniqueMap.
Qed.
End AppFacts.

(** ** The earlier variant: the per-unit tallies *)

Section Part001Facts.
Variable trim : string → string.

Lemma countOf_stateMap (l : list AttendanceRecord.t) (k : string) :
  Part001.countOf (Part001.stateMap trim l) k = Z.of_nat (length (of_unit trim k l)).
Proof.
  unfold Part001.countOf, Part001.stateMap, of_unit.
  rewrite (get_tally (Aggregation.stateKey trim)). case_decide as E.
  - by rewrite E.
  - simpl. lia.
Qed.
End Part001Facts.

(** The earlier variant on all inputs: every total is a number of records. *)
Lemma Part001_totals_count_records (trim : string → string) (getTime : string → option Z)
    (selectedDate selectedSession selectedState : string)
    (rawData : list AttendanceRecord.t) :
  let filtered := Aggregation.filtered selectedDate selectedSession selectedState rawData in
  let s := Part001.stats trim getTime selectedDate selectedSession selectedState rawData in
  Part001.totalParticipants s = Z.of_nat (length filtered)
  ∧ ∀ e, e ∈ Part001.stateDistribution s →
      StateStat.count e = Z.of_nat (length (of_unit trim (StateStat.state e) filtered)).
Proof.
  simpl. split; [done|].
  intros e (key & _ & ->)%elem_of_stateDistribution. simpl.
  apply countOf_stateMap.
Qed.

(** ** Plain unit names *)

Lemma filter_bool_ext_in {A : Type} (p q : A → bool) (l : list A) :
  (∀ x, x ∈ l → p x = q x) → List.filter p l = List.filter q l.
Proof.
  induction l as [|x l IH]; intros H; simpl; [done|].
  rewrite (H x) by by left. rewrite IH; [done|]. intros y Hy. apply H. by right.
Qed.

Lemma filter_bool_all_in {A : Type} (p : A → bool) (l : list A) :
  (∀ x, x ∈ l → p x = true) → List.filter p l = l.
Proof.
  induction l as [|x l IH]; intros H; simpl; [done|].
  rewrite (H x) by by left. f_equal. apply IH. intros y Hy. apply H. by right.
Qed.

Lemma matchFilters_true (selectedDate selectedSession selectedState : string)
    (r : AttendanceRecord.t) :
  Aggregation.matchFilters selectedDate selectedSession selectedState r = true
  ↔ (selectedDate = "all" ∨ AttendanceRecord.tarikh_kehadiran r = Some selectedDate)
    ∧ (selectedSession = "all" ∨ AttendanceRecord.sesi r = Some selectedSession)
    ∧ (selectedState = "all" ∨ AttendanceRecord.wing_negeri r = Some selectedState).
Proof.
  unfold Aggregation.matchFilters.
  rewrite !andb_true_iff, !orb_true_iff, !bool_decide_eq_true. tauto.
Qed.

Lemma truthy_Some (o : option string) (s : string) :
  Js.truthy o = Some s ↔ o = Some s ∧ s ≠ EmptyString.
Proof.
  destruct o as [t|]; simpl; [|naive_solver].
  case_decide; naive_solver.
Qed.

(** With a unit selected, every filtered record carries the name of that
    unit, and is filed under it when the name is a plain one. *)
Lemma stateKey_of_selected (trim : string → string)
    (selectedDate selectedSession selectedState : string)
    (rawData : list AttendanceRecord.t) (r : AttendanceRecord.t) :
  selectedState ≠ "all" →
  selectedState ≠ EmptyString →
  trim selectedState = selectedState →
  r ∈ Aggregation.filtered selectedDate selectedSession selectedState rawData →
  AttendanceRecord.wing_negeri r = Some selectedState
  ∧ Aggregation.stateKey trim r = selectedState.
Proof.
  intros Hsel Hne Htrim [_ Hr]%elem_of_filtered.
  apply matchFilters_true in Hr as (_ & _ & [?|Hunit]); [done|].
  split; [done|]. unfold Aggregation.stateKey. rewrite Hunit. simpl.
  by rewrite decide_False.
Qed.

Lemma preset_keys_plain :
  Forall (λ k, k ≠ EmptyString ∧ k ≠ "Lain-lain")
    (Js.Object_keys App.PRESET_TARGETS ++ Js.Object_keys Part001.PRESET_TARGETS).
Proof. apply (bool_decide_unpack _). by vm_compute. Qed.

(** On plain names the records that the aggregation files under a unit of
    the chart are the records of that unit. *)
Lemma of_unit_records_of_unit (trim : string → string)
    (PRESET_TARGETS : list (string * Z))
    (selectedDate selectedSession selectedState : string)
    (rawData : list AttendanceRecord.t) (key : string) :
  let filtered := Aggregation.filtered selectedDate selectedSession selectedState rawData in
  Forall (λ k, k ≠ EmptyString ∧ k ≠ "Lain-lain") (Js.Object_keys PRESET_TARGETS) →
  selectedState = "all" ∨ plain_name trim selectedState →
  Forall (plain_unit trim) filtered →
  key ∈ Aggregation.stateKeys PRESET_TARGETS selectedState →
  of_unit trim key filtered = records_of_unit key filtered.
Proof.
  intros filtered Hpreset Hsel Hplain Hkey.
  apply filter_bool_ext_in. intros r Hr. apply bool_decide_ext.
  rewrite Forall_forall in Hplain. specialize (Hplain r Hr).
  assert (key ≠ EmptyString
          ∧ (Js.truthy (AttendanceRecord.wing_negeri r) = None → key ≠ "Lain-lain"))
    as [Hne Hmissing].
  { unfold Aggregation.stateKeys in Hkey. case_decide as Hall.
    - apply list_elem_of_singleton in Hkey as ->.
      destruct Hsel as [?|(Hne & Htrim & _)]; [done|]. split; [done|].
      destruct (stateKey_of_selected trim _ _ _ _ r Hall Hne Htrim Hr) as [Hunit _].
      rewrite Hunit. simpl. by rewrite decide_False.
    - rewrite Forall_forall in Hpreset. destruct (Hpreset key Hkey). done. }
  unfold Aggregation.stateKey.
  destruct (Js.truthy (AttendanceRecord.wing_negeri r)) as [u|] eqn:Hu.
  - destruct (Hplain u Hu) as [Htrim _]. rewrite Htrim.
    apply truthy_Some in Hu as [Hu _]. rewrite Hu. naive_solver.
  - split; [intros <-; by destruct Hmissing|].
    intros Hunit. rewrite Hunit in Hu. simpl in Hu. by rewrite decide_False in Hu.
Qed.

(** * The claims *)

(** C1, as stated, fails on the earlier variant of the component, whose
    totals are numbers of attendance records: for one employee who checks
    in at two sessions it reports two participants, and two for the unit,
    where there is one distinct employee identifier. *)
Lemma earlier_variant_counts_each_record :
  let records := Examples.two_sessions in
  let filtered := Aggregation.filtered "all" "all" "all" records in
  let s := Part001.stats Runtime.trim Runtime.getTime "all" "all" "all" records in
  let perlis := StateStat.mk "FAMA PERLIS" 2 6 33 in
  distinct_ids filtered = 1
  ∧ Part001.totalParticipants s = 2
  ∧ Part001.totalParticipants s ≠ distinct_ids filtered
  ∧ perlis ∈ Part001.stateDistribution s
  ∧ distinct_ids (records_of_unit (StateStat.state perlis) filtered) = 1
  ∧ StateStat.count perlis
    ≠ distinct_ids (records_of_unit (StateStat.state perlis) filtered).
Proof.
  simpl. split; [reflexivity|]. split; [reflexivity|]. split; [by vm_compute|].
  split; [apply list_elem_of_In; vm_compute; tauto|].
  split; [reflexivity|by vm_compute].
Qed.

(** C1, amended.  The unit names are plain: the unit of every filtered
    record is missing or a name without surrounding white space that
    [Object.prototype] does not define, and the selected unit is ['all']
    or such a name.  Then in [src/App.tsx] the totals are deduplicated by
    employee identifier: [totalParticipants] is the number of distinct
    [no_pekerja] in the filtered set, and the count of every entry of
    [stateDistribution] is the number of distinct [no_pekerja] among the
    filtered records of that unit, so a person with several matching
    records counts once in each.  In the earlier variant the same totals
    are the numbers of filtered records. *)
Theorem totals_deduplicated_in_roster_variant (trim : string → string)
    (getTime : string → option Z) (selectedDate selectedSession selectedState : string)
    (rawData : list AttendanceRecord.t) (masterData : list MasterRecord.t) :
  let filtered := Aggregation.filtered selectedDate selectedSession selectedState rawData in
  let a := App.stats trim getTime selectedDate selectedSession selectedState
             rawData masterData in
  let b := Part001.stats trim getTime selectedDate selectedSession selectedState rawData in
  selectedState = "all" ∨ plain_name trim selectedState →
  Forall (plain_unit trim) filtered →
  (App.filteredData a = filtered
   ∧ App.totalParticipants a = distinct_ids filtered
   ∧ ∀ e, e ∈ App.stateDistribution a →
       StateStat.count e = distinct_ids (records_of_unit (StateStat.state e) filtered))
  ∧ (Part001.totalParticipants b = Z.of_nat (length filtered)
     ∧ ∀ e, e ∈ Part001.stateDistribution b →
         StateStat.count e = Z.of_nat (length (records_of_unit (StateStat.state e) filtered))).
Proof.
  intros filtered a b Hsel Hplain.
  pose proof preset_keys_plain as [HA HB]%Forall_app.
  split.
  - split; [done|]. split; [apply totalHeadcount_distinct|].
    intros e (key & Hkey & ->)%elem_of_stateDistribution. simpl.
    rewrite countOf_stateUniqueMap.
    by rewrite (of_unit_records_of_unit trim App.PRESET_TARGETS).
  - split; [done|].
    intros e (key & Hkey & ->)%elem_of_stateDistribution. simpl.
    rewrite countOf_stateMap.
    by rewrite (of_unit_records_of_unit trim Part001.PRESET_TARGETS).
Qed.

Lemma totals_deduplicated_in_roster_variant_witness :
  let records := Examples.two_sessions in
  let filtered := Aggregation.filtered "all" "all" "all" records in
  let a := App.stats Runtime.trim Runtime.getTime "all" "all" "all" records [] in
  let perlis := StateStat.mk "FAMA PERLIS" 1 6 17 in
  perlis ∈ App.stateDistribution a
  ∧ StateStat.count perlis
    = distinct_ids (records_of_unit (StateStat.state perlis) filtered).
Proof.
  intros records filtered a perlis.
  assert (perlis ∈ App.stateDistribution a) as Hin
    by (apply list_elem_of_In; vm_compute; tauto).
  assert (Forall (plain_unit Runtime.trim) filtered) as Hplain.
  { apply Forall_forall. intros r Hr%list_elem_of_In. vm_compute in Hr.
    destruct Hr as [<-|[<-|[]]]; intros u [= <-]; split; reflexivity. }
  split; [exact Hin|].
  exact (proj2 (proj2 (proj1 (totals_deduplicated_in_roster_variant
                                Runtime.trim Runtime.getTime "all" "all" "all"
                                records [] (or_introl eq_refl) Hplain))) perlis Hin).
Defined.

(** Targets of the preset tables *)

Lemma App_target_nonneg (key : string) : 0 ≤ default 0 (Js.get App.PRESET_TARGETS key).
Proof. unfold App.PRESET_TARGETS. simpl. repeat case_decide; simpl; lia. Qed.

Lemma Part001_target_nonneg (key : string) :
  0 ≤ default 0 (Js.get Part001.PRESET_TARGETS key).
Proof. unfold Part001.PRESET_TARGETS. simpl. repeat case_decide; simpl; lia. Qed.

Lemma App_totalTarget_nonneg (selectedState : string) :
  0 ≤ Aggregation.totalTarget App.PRESET_TARGETS selectedState.
Proof.
  unfold Aggregation.totalTarget. case_decide; [by vm_compute|apply App_target_nonneg].
Qed.

Lemma Part001_totalTarget_nonneg (selectedState : string) :
  0 ≤ Aggregation.totalTarget Part001.PRESET_TARGETS selectedState.
Proof.
  unfold Aggregation.totalTarget. case_decide; [by vm_compute|apply Part001_target_nonneg].
Qed.

(** C2.  In both variants, for every entry of [stateDistribution] and for
    the overall figure, the target is never negative, the percentage is
    [round(count / target * 100)] when the target is positive and 0 when
    the target is 0. *)
Theorem percentage_is_rounded_share_of_target (trim : string → string)
    (getTime : string → option Z) (selectedDate selectedSession selectedState : string)
    (rawData : list AttendanceRecord.t) (masterData : list MasterRecord.t) :
  let a := App.stats trim getTime selectedDate selectedSession selectedState
             rawData masterData in
  let b := Part001.stats trim getTime selectedDate selectedSession selectedState rawData in
  (∀ e, e ∈ App.stateDistribution a →
     0 ≤ StateStat.target e
     ∧ percentage_spec (StateStat.count e) (StateStat.target e) (StateStat.percentage e))
  ∧ (0 ≤ App.totalTarget a
     ∧ percentage_spec (App.totalParticipants a) (App.totalTarget a) (App.overallPercentage a))
  ∧ (∀ e, e ∈ Part001.stateDistribution b →
     0 ≤ StateStat.target e
     ∧ percentage_spec (StateStat.count e) (StateStat.target e) (StateStat.percentage e))
  ∧ (0 ≤ Part001.totalTarget b
     ∧ percentage_spec (Part001.totalParticipants b) (Part001.totalTarget b)
         (Part001.overallPercentage b)).
Proof.
  simpl. split; [|split; [|split]].
  - intros e (key & _ & ->)%elem_of_stateDistribution.
    split; [apply App_target_nonneg|apply percentageOf_spec].
  - split; [apply App_totalTarget_nonneg|apply percentageOf_spec].
  - intros e (key & _ & ->)%elem_of_stateDistribution.
    split; [apply Part001_target_nonneg|apply percentageOf_spec].
  - split; [apply Part001_totalTarget_nonneg|apply percentageOf_spec].
Qed.

Lemma percentage_is_rounded_share_of_target_witness :
  0 ≤ 6 ∧ percentage_spec 1 6 17.
Proof.
  apply (proj1 (percentage_is_rounded_share_of_target Runtime.trim Runtime.getTime
                  "all" "all" "all" Examples.two_sessions [])
           (StateStat.mk "FAMA PERLIS" 1 6 17)).
  apply list_elem_of_In. vm_compute. left. reflexivity.
Defined.

(** ** The winner lock *)

Lemma lockWinner_lookup (now selectedSession : string)
    (stateDistribution : list StateStat.t) (st : App.LockState) (k : string) :
  App.sessionWinners (App.lockWinner now selectedSession stateDistribution st) !! k
  = App.sessionWinners st !! k
  ∨ (k = selectedSession ∧ App.sessionWinners st !! k = None).
Proof.
  unfold App.lockWinner.
  destruct (App.sessionWinners st !! selectedSession) eqn:E; [by left|].
  destruct (Js.inherited selectedSession); [by left|].
  destruct (find _ stateDistribution); [|by left]. simpl.
  destruct (decide (selectedSession = k)) as [->|Hne]; [by right|].
  left. by apply lookup_insert_ne.
Qed.

Lemma lockWinner_keeps (now selectedSession : string)
    (stateDistribution : list StateStat.t) (st : App.LockState)
    (key : string) (w : WinnerLock.t) :
  App.sessionWinners st !! key = Some w →
  App.sessionWinners (App.lockWinner now selectedSession stateDistribution st) !! key
  = Some w.
Proof.
  intros Hw.
  destruct (lockWinner_lookup now selectedSession stateDistribution st key)
    as [->|[_ Hnone]]; congruence.
Qed.

(** C3.  An entry of [sessionWinners] survives every later run of the
    winner-lock effect, whatever session is selected and whatever
    distribution the aggregation produces; and a run changes the entry of
    a key only when that key is the selected session and has no entry. *)
Theorem winner_lock_is_written_once (st : App.LockState) (key : string)
    (w : WinnerLock.t) (runs : list (string * string * list StateStat.t)) :
  App.sessionWinners st !! key = Some w →
  App.sessionWinners (recompute runs st) !! key = Some w
  ∧ ∀ (st' : App.LockState) (now selectedSession k : string)
      (stateDistribution : list StateStat.t),
      App.sessionWinners (App.lockWinner now selectedSession stateDistribution st') !! k
      ≠ App.sessionWinners st' !! k →
      k = selectedSession ∧ App.sessionWinners st' !! k = None.
Proof.
  intros Hw. split.
  - unfold recompute. revert st Hw.
    induction runs as [|[[now sel] sd] runs IH]; intros st Hw; simpl; [done|].
    apply IH. by apply lockWinner_keeps.
  - intros st' now sel k sd Hchanged.
    by destruct (lockWinner_lookup now sel sd st' k).
Qed.

Lemma winner_lock_is_written_once_witness :
  App.sessionWinners
    (recompute
       [ ("2025-01-02T10:00:00.000Z", "Sesi 1", [StateStat.mk "FAMA PERLIS" 6 6 100]);
         ("2025-01-02T11:00:00.000Z", "all", [StateStat.mk "FAMA PERLIS" 7 6 117]) ]
       Examples.locked_for_session_1) !! "Sesi 1"
  = Some Examples.johor_lock.
Proof.
  apply (winner_lock_is_written_once Examples.locked_for_session_1 "Sesi 1"
           Examples.johor_lock).
  reflexivity.
Defined.

Lemma find_Exists {A : Type} (p : A → bool) (l : list A) :
  Exists (λ x, p x = true) l →
  ∃ x l1 l2, List.find p l = Some x ∧ l = l1 ++ x :: l2 ∧ p x = true
             ∧ Forall (λ y, p y = false) l1.
Proof.
  induction 1 as [x l Hx|x l _ IH]; simpl.
  - rewrite Hx. by exists x, [], l.
  - destruct (p x) eqn:E; [by exists x, [], l|].
    destruct IH as (y & l1 & l2 & -> & -> & Hy & Hl1).
    exists y, (x :: l1), l2. repeat split; auto.
Qed.

Lemma find_Forall_false {A : Type} (p : A → bool) (l : list A) :
  Forall (λ x, p x = false) l → List.find p l = None.
Proof. induction 1 as [|x l Hx _ IH]; simpl; [done|by rewrite Hx]. Qed.

(** C4 fails for a session whose name [Object.prototype] defines.  The
    store names a session [toString]; its six records bring FAMA PERLIS to
    its target of 6, so with that session selected the unit stands at 100
    percent, and no winner is recorded for the session.  The guard of the
    effect reads [sessionWinners['toString']], finds the function that
    every object inherits, and returns: the effect records nothing, on
    this run and on every later one. *)
Theorem winner_lock_not_taken_for_session_named_toString :
  let a := App.stats Runtime.trim Runtime.getTime "all" "toString" "all"
             Examples.session_toString [] in
  let st := Examples.unlocked in
  let st' := App.lockWinner "2025-01-01T09:00:00.000Z" "toString"
               (App.stateDistribution a) st in
  App.sessionWinners st !! "toString" = None
  ∧ head (App.stateDistribution a) = Some (StateStat.mk "FAMA PERLIS" 6 6 100)
  ∧ Exists (λ s, 100 ≤ StateStat.percentage s) (App.stateDistribution a)
  ∧ st' = st
  ∧ App.sessionWinners st' !! "toString" = None
  ∧ ∀ runs, recompute (map (λ now, (now, "toString", App.stateDistribution a)) runs) st = st.
Proof.
  split; [reflexivity|]. split; [reflexivity|]. split; [|split; [reflexivity|split]].
  - apply Exists_cons_hd. by vm_compute.
  - reflexivity.
  - intros runs. induction runs as [|now runs IH]; [reflexivity|exact IH].
Qed.

(** The example of the specification: B reaches 120 percent and is locked;
    after a third attendee of A the distribution changes and the lock does
    not. *)
Example lock_of_B_survives_the_next_poll :
  let first := App.lockWinner "2025-01-01T09:00:00.000Z" "all"
                 (Examples.distribution_AB Examples.first_poll) Examples.unlocked in
  let second := App.lockWinner "2025-01-01T09:00:30.000Z" "all"
                  (Examples.distribution_AB Examples.second_poll) first in
  Examples.distribution_AB Examples.first_poll
  = [StateStat.mk "B" 6 5 120; StateStat.mk "A" 2 10 20]
  ∧ App.currentSessionWinner "all" first
    = Some (WinnerLock.mk "B" 120 "2025-01-01T09:00:00.000Z")
  ∧ Examples.distribution_AB Examples.second_poll
    = [StateStat.mk "B" 6 5 120; StateStat.mk "A" 3 10 30]
  ∧ second = first.
Proof. repeat split; reflexivity. Qed.

(** ** The roster complement *)

Lemma filter_bool_ext {A : Type} (p q : A → bool) (l : list A) :
  (∀ x, p x = q x) → List.filter p l = List.filter q l.
Proof. intros H. induction l as [|x l IH]; simpl; [done|]. by rewrite H, IH. Qed.

Lemma filter_bool_all {A : Type} (p : A → bool) (l : list A) :
  (∀ x, p x = true) → List.filter p l = l.
Proof. intros H. induction l as [|x l IH]; simpl; [done|]. by rewrite H, IH. Qed.

Lemma elem_of_uniqueParticipants (records : list AttendanceRecord.t)
    (staff : MasterRecord.t) :
  MasterRecord.no_pekerja staff ∈ App.uniqueParticipants records ↔ has_record records staff.
Proof. unfold App.uniqueParticipants, has_record. by rewrite elem_of_list_to_set. Qed.

Lemma notRegistered_all (masterData : list MasterRecord.t)
    (records : list AttendanceRecord.t) :
  List.filter
    (λ staff, negb (bool_decide (MasterRecord.no_pekerja staff
                                 ∈ App.uniqueParticipants records)))
    masterData
  = roster_minus_attendance masterData records.
Proof.
  apply filter_bool_ext. intros staff.
  destruct (decide (has_record records staff)) as [H|H].
  - rewrite bool_decide_eq_true_2 by by apply elem_of_uniqueParticipants.
    by rewrite bool_decide_eq_false_2 by tauto.
  - rewrite bool_decide_eq_false_2 by by rewrite elem_of_uniqueParticipants.
    by rewrite bool_decide_eq_true_2.
Qed.

(** C5, as stated, fails: with a unit selected, a roster member of another
    unit who has no attendance record is not listed, and the list can be
    empty although a roster member has no matching record. *)
Lemma roster_complement_ignoring_unit_filter_fails :
  let masterData := Examples.roster_johor in
  let s := App.stats Runtime.trim Runtime.getTime "all" "all" "FAMA PERLIS" [] masterData in
  App.notRegisteredData s = []
  ∧ roster_minus_attendance masterData (App.filteredData s) = masterData
  ∧ App.notRegisteredData s ≠ roster_minus_attendance masterData (App.filteredData s)
  ∧ ¬ (App.notRegisteredData s = []
       ↔ ∀ staff, staff ∈ masterData → has_record (App.filteredData s) staff).
Proof.
  simpl. split; [reflexivity|]. split; [reflexivity|]. split; [discriminate|].
  intros [H _]. specialize (H eq_refl _ (list_elem_of_here _ _)).
  unfold has_record in H. simpl in H. by apply elem_of_nil in H.
Qed.

(** C5, amended.  [notRegisteredData] is the roster minus the employee
    identifiers of the filtered attendance records, restricted, when a
    unit is selected, to the roster members of that unit; it is empty
    exactly when every roster member that the unit selection keeps has a
    matching filtered record.  With the unit selector on ['all'] it is the
    whole complement. *)
Theorem roster_complement_within_selected_unit (trim : string → string)
    (getTime : string → option Z) (selectedDate selectedSession selectedState : string)
    (rawData : list AttendanceRecord.t) (masterData : list MasterRecord.t) :
  let s := App.stats trim getTime selectedDate selectedSession selectedState
             rawData masterData in
  App.notRegisteredData s
  = List.filter (λ staff, bool_decide (in_selected_unit selectedState staff))
      (roster_minus_attendance masterData (App.filteredData s))
  ∧ (App.notRegisteredData s = []
     ↔ ∀ staff, staff ∈ masterData → in_selected_unit selectedState staff →
         has_record (App.filteredData s) staff)
  ∧ (selectedState = "all" →
     App.notRegisteredData s = roster_minus_attendance masterData (App.filteredData s)).
Proof.
  simpl.
  set (records := Aggregation.filtered selectedDate selectedSession selectedState rawData).
  assert (App.notRegistered selectedState masterData (App.uniqueParticipants records)
          = List.filter (λ staff, bool_decide (in_selected_unit selectedState staff))
              (roster_minus_attendance masterData records)) as E.
  { unfold App.notRegistered. rewrite notRegistered_all. case_decide as Hsel.
    - apply filter_bool_ext. intros staff. apply bool_decide_ext.
      unfold in_selected_unit. tauto.
    - symmetry. apply filter_bool_all. intros staff. apply bool_decide_eq_true_2.
      left. by destruct (decide (selectedState = "all")). }
  split; [exact E|]. split.
  - rewrite E, filter_bool_nil. unfold roster_minus_attendance. split.
    + intros H staff Hin Hsel.
      destruct (decide (has_record records staff)) as [|Hno]; [done|].
      assert (bool_decide (in_selected_unit selectedState staff) = false) as Hf.
      { apply H, elem_of_filter_bool. split; [done|]. by apply bool_decide_eq_true_2. }
      by apply bool_decide_eq_false_1 in Hf.
    + intros H staff [Hin Hno]%elem_of_filter_bool.
      apply bool_decide_eq_true_1 in Hno. apply bool_decide_eq_false_2. auto.
  - intros ->. rewrite E. apply filter_bool_all. intros staff.
    apply bool_decide_eq_true_2. by left.
Qed.

Lemma roster_complement_within_selected_unit_witness :
  let masterData := Examples.roster_mixed in
  let s := App.stats Runtime.trim Runtime.getTime "all" "all" "all"
             Examples.two_sessions masterData in
  App.notRegisteredData s = roster_minus_attendance masterData (App.filteredData s).
Proof.
  intros masterData s.
  apply (roster_complement_within_selected_unit Runtime.trim Runtime.getTime
           "all" "all" "all" Examples.two_sessions masterData).
  reflexivity.
Defined.

(** ** The top unit *)

Section TopState.
Variable PRESET_TARGETS : list (string * Z).
Variable selectedState : string.
Variable countOf : string → Z.
Hypothesis countOf_nonneg : ∀ key, 0 ≤ countOf key.
Hypothesis keys_in_order : Js.Object_keys PRESET_TARGETS = map fst PRESET_TARGETS.

Lemma stateKeys_unit_list :
  Aggregation.stateKeys PRESET_TARGETS selectedState = unit_list PRESET_TARGETS selectedState.
Proof.
  unfold Aggregation.stateKeys, unit_list. rewrite keys_in_order.
  repeat case_decide; tauto.
Qed.

Lemma topState_spec :
  top_unit_spec (unit_list PRESET_TARGETS selectedState)
    (Aggregation.stateDistribution PRESET_TARGETS selectedState countOf)
    (Aggregation.topState
       (Aggregation.stateDistribution PRESET_TARGETS selectedState countOf)).
Proof.
  pose proof (stateDistribution_percentages_nonneg PRESET_TARGETS selectedState
                countOf countOf_nonneg) as Hpos.
  split; [|by apply forEach_max_None].
  intros Hne.
  set (units := map (Aggregation.stateStat PRESET_TARGETS countOf)
                  (Aggregation.stateKeys PRESET_TARGETS selectedState)).
  assert (units ≠ []) as Hunits.
  { intros E. apply Hne. unfold Aggregation.stateDistribution. fold units. by rewrite E. }
  destruct (forEach_max_first_max StateStat.percentage units) as (s & _ & Hs);
    [|done|].
  { apply Forall_forall. intros e He. rewrite Forall_forall in Hpos. apply Hpos.
    by apply elem_of_Array_sort. }
  pose proof (Array_sort_desc_first_max StateStat.percentage
                Aggregation.byPercentageDesc (λ _ _, eq_refl) units s Hs) as Hsorted.
  destruct (Array_sort_desc_head StateStat.percentage
              Aggregation.byPercentageDesc (λ _ _, eq_refl) units s Hs) as [rest Hhead].
  destruct (forEach_max_first_max StateStat.percentage
              (Aggregation.stateDistribution PRESET_TARGETS selectedState countOf))
    as (top & Htop & Hfm); [done..|].
  assert (top = s) as -> by (eapply first_max_unique; [exact Hfm|exact Hsorted]).
  exists s. split; [exact Htop|]. split.
  { unfold Aggregation.stateDistribution. fold units. by rewrite Hhead. }
  split; [intros e He; by eapply first_max_ge|].
  destruct Hs as (l1 & l2 & Hsplit & Hl1 & _).
  exists (map StateStat.state l1), (map StateStat.state l2). split.
  - rewrite <- stateKeys_unit_list.
    transitivity (map StateStat.state units).
    + unfold units. rewrite map_map. simpl. by rewrite map_id.
    + by rewrite Hsplit, map_app.
  - intros e (key & _ & ->)%elem_of_stateDistribution Hin. simpl in Hin.
    apply list_elem_of_fmap in Hin as (e1 & Hkey & He1).
    assert (e1 ∈ units) as Hu by (rewrite Hsplit, elem_of_app; by left).
    apply list_elem_of_fmap in Hu as (key1 & -> & _). simpl in Hkey. subst key1.
    rewrite Forall_forall in Hl1. by apply Hl1.
Qed.

Lemma stateDistribution_nonempty :
  Aggregation.stateDistribution PRESET_TARGETS selectedState countOf = []
  → unit_list PRESET_TARGETS selectedState = [].
Proof.
  unfold Aggregation.stateDistribution. rewrite Array_sort_nil_iff, stateKeys_unit_list.
  by intros ?%map_eq_nil.
Qed.
End TopState.

Lemma Part001_countOf_nonneg (trim : string → string) (l : list AttendanceRecord.t)
    (key : string) :
  0 ≤ Part001.countOf (Part001.stateMap trim l) key.
Proof. rewrite countOf_stateMap. lia. Qed.

(** C6.  In both variants [stateDistribution] is never empty, [topState]
    is the first unit of maximal percentage, ties going to the unit that
    comes first in the unit list (the preset-target table in configuration
    order), and [topState] is null only if [stateDistribution] is empty. *)
Theorem topState_is_first_unit_of_maximal_percentage (trim : string → string)
    (getTime : string → option Z) (selectedDate selectedSession selectedState : string)
    (rawData : list AttendanceRecord.t) (masterData : list MasterRecord.t) :
  let a := App.stats trim getTime selectedDate selectedSession selectedState
             rawData masterData in
  let b := Part001.stats trim getTime selectedDate selectedSession selectedState rawData in
  (App.stateDistribution a ≠ []
   ∧ top_unit_spec (unit_list App.PRESET_TARGETS selectedState)
       (App.stateDistribution a) (App.topState a))
  ∧ (Part001.stateDistribution b ≠ []
     ∧ top_unit_spec (unit_list Part001.PRESET_TARGETS selectedState)
         (Part001.stateDistribution b) (Part001.topState b)).
Proof.
  simpl. split; split.
  - intros E%stateDistribution_nonempty; [|done].
    unfold unit_list in E. by case_decide.
  - apply topState_spec; [apply countOf_nonneg|done].
  - intros E%stateDistribution_nonempty; [|done].
    unfold unit_list in E. by case_decide.
  - apply topState_spec; [apply Part001_countOf_nonneg|done].
Qed.

Lemma topState_is_first_unit_of_maximal_percentage_witness :
  let a := App.stats Runtime.trim Runtime.getTime "all" "all" "all"
             Examples.perlis_full [] in
  ∃ top, App.topState a = Some top
    ∧ head (App.stateDistribution a) = Some top
    ∧ (∀ e, e ∈ App.stateDistribution a →
         StateStat.percentage e ≤ StateStat.percentage top)
    ∧ ∃ before after,
        unit_list App.PRESET_TARGETS "all" = before ++ StateStat.state top :: after
        ∧ ∀ e, e ∈ App.stateDistribution a → StateStat.state e ∈ before →
            StateStat.percentage e < StateStat.percentage top.
Proof.
  intros a.
  destruct (topState_is_first_unit_of_maximal_percentage Runtime.trim Runtime.getTime
              "all" "all" "all" Examples.perlis_full []) as [[Hne [Htop _]] _].
  exact (Htop Hne).
Defined.

(** ** The top day *)

Section TopDay.
Variable trim : string → string.
Variable getTime : string → option Z.

Lemma topDay_first_max (records : list AttendanceRecord.t) :
  records ≠ [] →
  ∃ d, Aggregation.topDay (Aggregation.dateDistribution trim getTime records) = Some d
       ∧ first_max DateStat.count (Aggregation.dateDistribution trim getTime records) d.
Proof.
  intros Hne. apply forEach_max_first_max.
  - apply dateDistribution_counts_nonneg.
  - by rewrite dateDistribution_nil.
Qed.

Lemma topDay_None (records : list AttendanceRecord.t) :
  Aggregation.topDay (Aggregation.dateDistribution trim getTime records) = None
  ↔ records = [].
Proof.
  split; [|by intros ->].
  intros Hnone. destruct records as [|r records]; [done|].
  destruct (topDay_first_max (r :: records)) as (d & Hd & _); [done|congruence].
Qed.

Lemma dateDistribution_date (records : list AttendanceRecord.t) (d : DateStat.t) :
  d ∈ Aggregation.dateDistribution trim getTime records →
  ∃ r, r ∈ records ∧ Aggregation.dateKey trim r = DateStat.date d.
Proof.
  intros [Hc Hpos]%elem_of_dateDistribution. rewrite Hc in Hpos. unfold of_date in Hpos.
  destruct (List.filter _ records) as [|r l] eqn:E; [simpl in Hpos; lia|].
  assert (r ∈ List.filter
            (λ r, bool_decide (Aggregation.dateKey trim r = DateStat.date d)) records)
    as [Hin Hr%bool_decide_eq_true_1]%elem_of_filter_bool by (rewrite E; by left).
  by exists r.
Qed.

(** When the date of every record parses, the entries are in ascending
    date order and [topDay] is the earliest date of maximal count. *)
Lemma topDay_earliest_when_dates_parse (records : list AttendanceRecord.t) :
  (∀ r, r ∈ records → is_Some (getTime (Aggregation.dateKey trim r))) →
  records ≠ [] →
  StronglySorted
    (λ a b, default 0 (getTime (DateStat.date a)) ≤ default 0 (getTime (DateStat.date b)))
    (Aggregation.dateDistribution trim getTime records)
  ∧ earliest_top_day getTime (Aggregation.dateDistribution trim getTime records)
      (Aggregation.topDay (Aggregation.dateDistribution trim getTime records)).
Proof.
  intros Hvalid Hne.
  assert (∀ d, d ∈ Aggregation.dateDistribution trim getTime records →
               is_Some (getTime (DateStat.date d))) as Hd.
  { intros d (r & Hr & <-)%dateDistribution_date. by apply Hvalid. }
  assert (StronglySorted
            (λ a b, default 0 (getTime (DateStat.date a))
                    ≤ default 0 (getTime (DateStat.date b)))
            (Aggregation.dateDistribution trim getTime records)) as Hsorted.
  { apply Array_sort_sorted. intros x y Hx Hy.
    destruct (Hd x) as [tx Hx']; [by apply elem_of_Array_sort|].
    destruct (Hd y) as [ty Hy']; [by apply elem_of_Array_sort|].
    unfold Aggregation.byDate. by rewrite Hx', Hy'. }
  split; [exact Hsorted|].
  destruct (topDay_first_max records Hne) as (d & Htop & Hfm).
  exists d. split; [exact Htop|]. split; [by eapply first_max_elem|].
  split; [intros e He; by eapply first_max_ge|].
  intros e He Hcount.
  destruct (Hd d) as [td Htd]; [by eapply first_max_elem|].
  destruct (Hd e) as [te Hte]; [done|].
  exists td, te. split; [done|]. split; [done|].
  destruct Hfm as (l1 & l2 & Hsplit & Hl1 & _).
  rewrite Hsplit in He, Hsorted.
  apply elem_of_app in He as [He|He].
  - rewrite Forall_forall in Hl1. apply Hl1 in He. lia.
  - apply elem_of_cons in He as [->|He]; [simplify_eq; lia|].
    apply StronglySorted_app_1_r, StronglySorted_cons in Hsorted as [Hall _].
    rewrite Forall_forall in Hall. apply Hall in He.
    by rewrite Htd, Hte in He.
Qed.
End TopDay.

(** C7.  [topDay] is to be the earliest date of maximal count.  It is the
    first entry of maximal count of [dateDistribution] on every input
    ([topDay_first_max]), null exactly when the filtered set is empty
    ([topDay_None]), and the earliest such date when every date parses
    ([topDay_earliest_when_dates_parse]).  But the key ['N/A'] of a record
    without a date makes the comparator of the date sort return NaN, and
    the dates around it stay in the order of arrival: with one record each
    for 2025-01-02, no date, 2025-01-01, [topDay] is 2025-01-02 although
    2025-01-01 has the same count and is earlier.  Both variants, null as
    well as the empty string for the missing date.  With only an undated
    record followed by a dated one, where every comparison is NaN, the tie
    goes to ['N/A']. *)
Theorem topDay_not_earliest_next_to_undated_record :
  let expected :=
    [DateStat.mk "2025-01-02" 1; DateStat.mk "N/A" 1; DateStat.mk "2025-01-01" 1] in
  let a := App.stats Runtime.trim Runtime.getTime "all" "all" "all"
             Examples.undated_between [] in
  let a' := App.stats Runtime.trim Runtime.getTime "all" "all" "all"
              Examples.blank_between [] in
  let b := Part001.stats Runtime.trim Runtime.getTime "all" "all" "all"
             Examples.undated_between in
  let c := App.stats Runtime.trim Runtime.getTime "all" "all" "all"
             Examples.undated_first [] in
  (App.dateDistribution a = expected
   ∧ App.topDay a = Some (DateStat.mk "2025-01-02" 1)
   ∧ ¬ earliest_top_day Runtime.getTime (App.dateDistribution a) (App.topDay a))
  ∧ (App.dateDistribution a' = expected
     ∧ App.topDay a' = Some (DateStat.mk "2025-01-02" 1)
     ∧ ¬ earliest_top_day Runtime.getTime (App.dateDistribution a') (App.topDay a'))
  ∧ (Part001.dateDistribution b = expected
     ∧ Part001.topDay b = Some (DateStat.mk "2025-01-02" 1)
     ∧ ¬ earliest_top_day Runtime.getTime (Part001.dateDistribution b) (Part001.topDay b))
  ∧ (App.dateDistribution c = [DateStat.mk "N/A" 1; DateStat.mk "2025-01-01" 1]
     ∧ App.topDay c = Some (DateStat.mk "N/A" 1)).
Proof.
  assert (¬ earliest_top_day Runtime.getTime
            [DateStat.mk "2025-01-02" 1; DateStat.mk "N/A" 1; DateStat.mk "2025-01-01" 1]
            (Some (DateStat.mk "2025-01-02" 1))) as Hno.
  { intros (d & Hd & _ & _ & Hties). simplify_eq.
    destruct (Hties (DateStat.mk "2025-01-01" 1)) as (td & te & Htd & Hte & Hle);
      [by repeat constructor|done|].
    vm_compute in Htd, Hte. simplify_eq. lia. }
  repeat split; try reflexivity; exact Hno.
Qed.

(** ** Data refresh *)

Section FetchFacts.
Variable fallback : string.
Hypothesis fallback_shown : fallback ≠ EmptyString.

Lemma fetchWith_failed (supabase : option Fetch.QueryOutcome) (now : Z)
    (st : Fetch.State) :
  refresh_failed supabase →
  shows_message (Fetch.fetchWith fallback supabase now st)
  ∧ Fetch.rawData (Fetch.fetchWith fallback supabase now st) = Fetch.rawData st
  ∧ Fetch.lastUpdated (Fetch.fetchWith fallback supabase now st) = Fetch.lastUpdated st
  ∧ Fetch.loading (Fetch.fetchWith fallback supabase now st) = false.
Proof.
  assert (∀ err, default fallback (Js.truthy (Fetch.message err)) ≠ EmptyString) as Hmsg.
  { intros [[s|]]; simpl; [|done]. by case_decide. }
  unfold refresh_failed, Fetch.fetchWith.
  destruct supabase as [[err|data [err|]]|]; simpl; try done; intros _.
  - split; [eexists; split; [done|apply Hmsg]|done].
  - split; [eexists; split; [done|apply Hmsg]|done].
  - split; [eexists; split; [done|]|done]. done.
Qed.

Lemma fetchWith_rows (data : list AttendanceRecord.t) (now : Z) (st : Fetch.State) :
  Fetch.fetchWith fallback (Some (Fetch.Resolves (Some data) None)) now st
  = Fetch.mkState false None now data.
Proof. done. Qed.

Lemma fetchWith_changes_rawData (supabase : option Fetch.QueryOutcome) (now : Z)
    (st : Fetch.State) :
  Fetch.rawData (Fetch.fetchWith fallback supabase now st) ≠ Fetch.rawData st →
  ∃ data, supabase = Some (Fetch.Resolves (Some data) None).
Proof.
  destruct supabase as [[err|[data|] [err|]]|]; simpl; try done.
  intros _. by exists data.
Qed.
End FetchFacts.

(** C8.  In both variants: when the refresh fails (no client, a rejected
    request or a query error) a non-empty message is recorded and the
    record set is the one loaded before; when the query returns rows they
    replace the record set and no message is shown; the record set changes
    only when rows were returned. *)
Theorem refresh_replaces_records_only_on_success
    (supabase : option Fetch.QueryOutcome) (now : Z) (st : Fetch.State) :
  let a := App.fetchAttendanceData supabase now st in
  let b := Part001.fetchAttendanceData supabase now st in
  (refresh_failed supabase →
   shows_message a ∧ Fetch.rawData a = Fetch.rawData st
   ∧ shows_message b ∧ Fetch.rawData b = Fetch.rawData st)
  ∧ (∀ data, supabase = Some (Fetch.Resolves (Some data) None) →
     Fetch.rawData a = data ∧ Fetch.error a = None
     ∧ Fetch.rawData b = data ∧ Fetch.error b = None)
  ∧ (Fetch.rawData a ≠ Fetch.rawData st ∨ Fetch.rawData b ≠ Fetch.rawData st →
     ∃ data, supabase = Some (Fetch.Resolves (Some data) None)).
Proof.
  simpl. split; [|split].
  - intros Hfail.
    destruct (fetchWith_failed "Gagal mendapatkan data." ltac:(done) supabase now st Hfail)
      as (Ha & Ha' & _).
    destruct (fetchWith_failed "Gagal mendapatkan data dari pangkalan data." ltac:(done)
                supabase now st Hfail) as (Hb & Hb' & _).
    done.
  - intros data ->. unfold App.fetchAttendanceData, Part001.fetchAttendanceData.
    by rewrite !fetchWith_rows.
  - intros [H|H]; by eapply fetchWith_changes_rawData.
Qed.

Lemma refresh_replaces_records_only_on_success_witness :
  let st := Examples.loaded in
  let supabase := Some (Fetch.Resolves None (Some (Fetch.mkError (Some "timeout")))) in
  let a := App.fetchAttendanceData supabase 5 st in
  let b := Part001.fetchAttendanceData supabase 5 st in
  refresh_failed supabase
  ∧ shows_message a ∧ Fetch.rawData a = Fetch.rawData st
  ∧ shows_message b ∧ Fetch.rawData b = Fetch.rawData st.
Proof.
  intros st supabase a b.
  assert (refresh_failed supabase) as Hfail by exact I.
  split; [exact Hfail|].
  exact (proj1 (refresh_replaces_records_only_on_success supabase 5 st) Hfail).
Defined.

(** ** Records without a unit or a date *)

Lemma dateKey_missing (trim : string → string) (r : AttendanceRecord.t) :
  Js.truthy (AttendanceRecord.tarikh_kehadiran r) = None →
  Aggregation.dateKey trim r = "N/A".
Proof. unfold Aggregation.dateKey. by intros ->. Qed.

Lemma stateKey_missing (trim : string → string) (r : AttendanceRecord.t) :
  Js.truthy (AttendanceRecord.wing_negeri r) = None →
  Aggregation.stateKey trim r = "Lain-lain".
Proof. unfold Aggregation.stateKey. by intros ->. Qed.

Lemma length_filter_pos {A : Type} (p : A → bool) (l : list A) (x : A) :
  x ∈ List.filter p l → 1 ≤ Z.of_nat (length (List.filter p l)).
Proof. destruct (List.filter p l); [by intros ?%elem_of_nil|simpl; lia]. Qed.

Lemma size_pos_of_elem (X : gset string) (x : string) : x ∈ X → 1 ≤ Z.of_nat (size X).
Proof.
  intros Hx. destruct (size X) eqn:E; [|lia].
  apply size_empty_inv in E. set_solver.
Qed.

(** C9.  A record that the filters match is kept whatever its unit and date
    fields hold, and counts towards the totals of both variants.  If its
    date is missing (null or empty) it is filed under ['N/A'], and the
    per-date counts have an ['N/A'] entry that counts it; if its unit is
    missing it is filed under ['Lain-lain'], where the per-unit map of
    [src/App.tsx] holds its employee identifier and the per-unit tally of
    the earlier variant counts it. *)
Theorem records_with_missing_fields_are_counted (trim : string → string)
    (getTime : string → option Z) (selectedDate selectedSession selectedState : string)
    (rawData : list AttendanceRecord.t) (masterData : list MasterRecord.t)
    (r : AttendanceRecord.t) :
  r ∈ rawData →
  Aggregation.matchFilters selectedDate selectedSession selectedState r = true →
  let a := App.stats trim getTime selectedDate selectedSession selectedState
             rawData masterData in
  let b := Part001.stats trim getTime selectedDate selectedSession selectedState rawData in
  let filtered := Aggregation.filtered selectedDate selectedSession selectedState rawData in
  (r ∈ App.filteredData a
   ∧ AttendanceRecord.no_pekerja r ∈ App.uniqueParticipants filtered
   ∧ 1 ≤ App.totalParticipants a
   ∧ 1 ≤ Part001.totalParticipants b)
  ∧ (Js.truthy (AttendanceRecord.tarikh_kehadiran r) = None →
     let count := Z.of_nat (length (of_date trim "N/A" filtered)) in
     r ∈ of_date trim "N/A" filtered
     ∧ 1 ≤ count
     ∧ DateStat.mk "N/A" count ∈ App.dateDistribution a
     ∧ DateStat.mk "N/A" count ∈ Part001.dateDistribution b)
  ∧ (Js.truthy (AttendanceRecord.wing_negeri r) = None →
     r ∈ of_unit trim "Lain-lain" filtered
     ∧ (∃ ids, App.stateUniqueMap trim filtered !! "Lain-lain" = Some ids
               ∧ AttendanceRecord.no_pekerja r ∈ ids)
     ∧ App.countOf (App.stateUniqueMap trim filtered) "Lain-lain"
       = distinct_ids (of_unit trim "Lain-lain" filtered)
     ∧ Part001.countOf (Part001.stateMap trim filtered) "Lain-lain"
       = Z.of_nat (length (of_unit trim "Lain-lain" filtered))
     ∧ 1 ≤ Part001.countOf (Part001.stateMap trim filtered) "Lain-lain").
Proof.
  intros Hin Hmatch. simpl.
  set (filtered := Aggregation.filtered selectedDate selectedSession selectedState rawData).
  assert (r ∈ filtered) as Hr by by apply elem_of_filtered.
  assert (AttendanceRecord.no_pekerja r ∈ App.uniqueParticipants filtered) as Hno.
  { unfold App.uniqueParticipants. apply elem_of_list_to_set, list_elem_of_fmap. eauto. }
  split; [|split].
  - split; [done|]. split; [done|]. split; [by eapply size_pos_of_elem|].
    destruct filtered; [by apply elem_of_nil in Hr|simpl; lia].
  - intros Hdate%(dateKey_missing trim).
    assert (r ∈ of_date trim "N/A" filtered) as Hof.
    { apply elem_of_filter_bool. split; [done|]. by apply bool_decide_eq_true_2. }
    pose proof (length_filter_pos _ _ _ Hof) as Hpos.
    split; [done|]. split; [exact Hpos|].
    split; apply elem_of_dateDistribution; simpl; split; (done || unfold of_date; lia).
  - intros Hunit%(stateKey_missing trim).
    assert (r ∈ of_unit trim "Lain-lain" filtered) as Hof.
    { apply elem_of_filter_bool. split; [done|]. by apply bool_decide_eq_true_2. }
    split; [done|]. split; [|split; [|split]].
    + unfold App.stateUniqueMap. rewrite lookup_fold_addToState.
      rewrite decide_False by (intros E; rewrite E in Hof; by apply elem_of_nil in Hof).
      eexists. split; [done|]. apply elem_of_union_r, elem_of_list_to_set.
      apply list_elem_of_fmap. eauto.
    + apply countOf_stateUniqueMap.
    + apply countOf_stateMap.
    + rewrite countOf_stateMap. by eapply length_filter_pos.
Qed.

Lemma records_with_missing_fields_are_counted_witness :
  let rawData := Examples.perlis_full in
  let a := App.stats Runtime.trim Runtime.getTime "all" "all" "all" rawData [] in
  let b := Part001.stats Runtime.trim Runtime.getTime "all" "all" "all" rawData in
  DateStat.mk "N/A" 1 ∈ App.dateDistribution a
  ∧ DateStat.mk "N/A" 1 ∈ Part001.dateDistribution b
  ∧ 1 ≤ Part001.countOf
          (Part001.stateMap Runtime.trim (Aggregation.filtered "all" "all" "all" rawData))
          "Lain-lain".
Proof.
  intros rawData a b.
  pose (undated := Examples.attended "1007" None (Some "FAMA JOHOR") (Some "Sesi 1")).
  pose (unassigned := Examples.attended "1008" (Some "2025-01-02") None (Some "Sesi 1")).
  assert (undated ∈ rawData) as Hd by (apply list_elem_of_In; vm_compute; tauto).
  assert (unassigned ∈ rawData) as Hu by (apply list_elem_of_In; vm_compute; tauto).
  destruct (records_with_missing_fields_are_counted Runtime.trim Runtime.getTime
              "all" "all" "all" rawData [] undated Hd eq_refl) as (_ & Hdate & _).
  destruct (records_with_missing_fields_are_counted Runtime.trim Runtime.getTime
              "all" "all" "all" rawData [] unassigned Hu eq_refl) as (_ & _ & Hunit).
  destruct (Hdate eq_refl) as (_ & _ & Ha & Hb).
  destruct (Hunit eq_refl) as (_ & _ & _ & _ & Hc).
  split; [exact Ha|]. split; [exact Hb|exact Hc].
Defined.

(** ** The distribution is sorted, so the champion is a maximum *)

Lemma find_sorted_head (l : list StateStat.t) (champion : StateStat.t) :
  StronglySorted (λ a b, StateStat.percentage b ≤ StateStat.percentage a) l →
  List.find (λ s, 100 <=? StateStat.percentage s) l = Some champion →
  head l = Some champion
  ∧ 100 ≤ StateStat.percentage champion
  ∧ ∀ e, e ∈ l → StateStat.percentage e ≤ StateStat.percentage champion.
Proof.
  intros Hsorted Hfind. destruct l as [|x l]; [done|].
  apply StronglySorted_cons in Hsorted as [Hall _]. rewrite Forall_forall in Hall.
  simpl in Hfind. destruct (Z.leb_spec 100 (StateStat.percentage x)) as [Hx|Hx].
  - simplify_eq. split; [done|]. split; [done|].
    intros e [->|He]%elem_of_cons; [lia|by apply Hall].
  - apply find_some in Hfind as [Hin Hc]. apply Z.leb_le in Hc.
    apply list_elem_of_In, Hall in Hin. lia.
Qed.

(** C10.  In both variants [stateDistribution] is in non-increasing order
    of percentage; so when the winner-lock effect records a winner for the
    selected session, the unit it records heads the distribution and no
    unit has a greater percentage at that moment. *)
Theorem stateDistribution_sorted_and_champion_maximal (trim : string → string)
    (getTime : string → option Z) (selectedDate selectedSession selectedState : string)
    (rawData : list AttendanceRecord.t) (masterData : list MasterRecord.t) :
  let a := App.stats trim getTime selectedDate selectedSession selectedState
             rawData masterData in
  let b := Part001.stats trim getTime selectedDate selectedSession selectedState rawData in
  StronglySorted (λ x y, StateStat.percentage y ≤ StateStat.percentage x)
    (App.stateDistribution a)
  ∧ StronglySorted (λ x y, StateStat.percentage y ≤ StateStat.percentage x)
      (Part001.stateDistribution b)
  ∧ ∀ (now : string) (st : App.LockState) (w : WinnerLock.t),
      App.sessionWinners st !! selectedSession = None →
      App.sessionWinners (App.lockWinner now selectedSession (App.stateDistribution a) st)
        !! selectedSession = Some w →
      ∃ champion,
        head (App.stateDistribution a) = Some champion
        ∧ w = WinnerLock.mk (StateStat.state champion) (StateStat.percentage champion) now
        ∧ 100 ≤ StateStat.percentage champion
        ∧ ∀ e, e ∈ App.stateDistribution a →
            StateStat.percentage e ≤ StateStat.percentage champion.
Proof.
  simpl. split; [apply stateDistribution_sorted|]. split; [apply stateDistribution_sorted|].
  intros now st w Hnone. unfold App.lockWinner. rewrite Hnone.
  destruct (Js.inherited selectedSession); [by rewrite Hnone|].
  destruct (find _ _) as [champion|] eqn:Hfind; simpl.
  - rewrite lookup_insert_eq. intros [= <-].
    apply find_sorted_head in Hfind as (Hhead & Hc & Hmax);
      [|apply stateDistribution_sorted].
    by exists champion.
  - by rewrite Hnone.
Qed.

Lemma stateDistribution_sorted_and_champion_maximal_witness :
  let a := App.stats Runtime.trim Runtime.getTime "all" "all" "all"
             Examples.perlis_full [] in
  let st' := App.lockWinner "2025-01-02T10:00:00.000Z" "all" (App.stateDistribution a)
               Examples.locked_for_session_1 in
  ∃ champion,
    head (App.stateDistribution a) = Some champion
    ∧ WinnerLock.mk "FAMA PERLIS" 100 "2025-01-02T10:00:00.000Z"
      = WinnerLock.mk (StateStat.state champion) (StateStat.percentage champion)
          "2025-01-02T10:00:00.000Z"
    ∧ 100 ≤ StateStat.percentage champion
    ∧ ∀ e, e ∈ App.stateDistribution a →
        StateStat.percentage e ≤ StateStat.percentage champion.
Proof.
  intros a st'.
  apply (proj2 (proj2 (stateDistribution_sorted_and_champion_maximal
                         Runtime.trim Runtime.getTime "all" "all" "all"
                         Examples.perlis_full []))
           "2025-01-02T10:00:00.000Z" Examples.locked_for_session_1).
  - reflexivity.
  - vm_compute. reflexivity.
Defined.

(** * Further properties of the component *)

(** ** Sets, default order and sorting with a total preorder *)

Lemma elem_of_Set_add_all (seen xs : list string) (x : string) :
  x ∈ Builtins.Set_add_all seen xs ↔ x ∈ seen ∨ x ∈ xs.
Proof.
  revert seen. induction xs as [|y xs IH]; intros seen; simpl.
  - rewrite elem_of_nil. tauto.
  - case_decide as Hy; rewrite IH, ?elem_of_app, !elem_of_cons, ?elem_of_nil.
    + split; [tauto|]. intros [?|[->|?]]; tauto.
    + tauto.
Qed.

Lemma NoDup_Set_add_all (seen xs : list string) :
  NoDup seen → NoDup (Builtins.Set_add_all seen xs).
Proof.
  revert seen. induction xs as [|y xs IH]; intros seen Hnd; simpl; [done|].
  case_decide as Hy; apply IH; [done|].
  apply NoDup_app. split; [done|]. split; [|apply NoDup_singleton].
  intros z Hz ->%list_elem_of_singleton. done.
Qed.

Lemma elem_of_Set_from (xs : list string) (x : string) :
  x ∈ Builtins.Set_from xs ↔ x ∈ xs.
Proof. unfold Builtins.Set_from. rewrite elem_of_Set_add_all, elem_of_nil. tauto. Qed.

Lemma NoDup_Set_from (xs : list string) : NoDup (Builtins.Set_from xs).
Proof. apply NoDup_Set_add_all, NoDup_nil_2. Qed.

Lemma elem_of_filter_Boolean (xs : list (option string)) (x : string) :
  x ∈ Builtins.filter_Boolean xs ↔ ∃ o, o ∈ xs ∧ Js.truthy o = Some x.
Proof. unfold Builtins.filter_Boolean. apply list_elem_of_omap. Qed.

Section TotalPreorderSort.
Context {A : Type} (comparefn : A → A → option Z).

Let le (x y : A) : Prop := Js.SortCompare comparefn x y ≤ 0.

Hypothesis le_total : ∀ x y, ¬ le x y → le y x.
Hypothesis le_trans : ∀ x y z, le x y → le y z → le x z.

Lemma sort_insert_preorder (x : A) (l : list A) :
  StronglySorted le l → StronglySorted le (Js.sort_insert comparefn x l).
Proof.
  induction 1 as [|y l Hs IH Hy]; simpl; [repeat constructor|].
  destruct (Z.leb_spec (Js.SortCompare comparefn x y) 0) as [Hle|Hgt].
  - constructor; [by constructor|]. constructor; [done|].
    eapply Forall_impl; [exact Hy|]. intros z Hz. by eapply le_trans.
  - constructor; [done|]. rewrite sort_insert_perm. constructor; [|done].
    apply le_total. unfold le. lia.
Qed.

Lemma Array_sort_preorder (l : list A) : StronglySorted le (Js.Array_sort comparefn l).
Proof. induction l; simpl; [constructor|by apply sort_insert_preorder]. Qed.
End TotalPreorderSort.

Lemma code_units_le_trans (a b c : string) :
  code_units_le a b → code_units_le b c → code_units_le a c.
Proof.
  unfold code_units_le. revert b c.
  induction a as [|x a IH]; intros [|y b] [|z c]; simpl; try done.
  unfold Ascii.compare.
  destruct (N.compare_spec (N_of_ascii x) (N_of_ascii y)) as [Exy|Hxy|Hxy];
    destruct (N.compare_spec (N_of_ascii y) (N_of_ascii z)) as [Eyz|Hyz|Hyz];
    destruct (N.compare_spec (N_of_ascii x) (N_of_ascii z)) as [Exz|Hxz|Hxz];
    try done; try lia.
  apply IH.
Qed.

Lemma code_units_le_total (a b : string) : ¬ code_units_le a b → code_units_le b a.
Proof.
  unfold code_units_le. rewrite (String.compare_antisym a b).
  destruct (String.compare b a); simpl; try done. intros H. by destruct H.
Qed.

Lemma defaultCompare_le (a b : string) :
  Js.SortCompare Builtins.defaultCompare a b ≤ 0 ↔ code_units_le a b.
Proof.
  unfold Js.SortCompare, Builtins.defaultCompare, code_units_le. simpl.
  destruct (String.compare a b); split; (done || lia).
Qed.

Lemma default_sort_sorted (l : list string) :
  StronglySorted code_units_le (Js.Array_sort Builtins.defaultCompare l).
Proof.
  eapply Sorted.StronglySorted_ind
    with (P := λ l', StronglySorted code_units_le l');
    [constructor| |apply (Array_sort_preorder Builtins.defaultCompare)].
  - intros a l' _ IH Ha. constructor; [done|].
    eapply Forall_impl; [exact Ha|]. simpl. intros b. apply defaultCompare_le.
  - intros x y H. apply defaultCompare_le, code_units_le_total.
    by rewrite <- defaultCompare_le.
  - intros x y z. rewrite !defaultCompare_le. apply code_units_le_trans.
Qed.

Lemma default_sort_of_set (xs : list string) :
  let l := Js.Array_sort Builtins.defaultCompare (Builtins.Set_from xs) in
  NoDup l ∧ StronglySorted code_units_le l ∧ ∀ x, x ∈ l ↔ x ∈ xs.
Proof.
  simpl. split; [|split].
  - rewrite Array_sort_perm. apply NoDup_Set_from.
  - apply default_sort_sorted.
  - intros x. by rewrite elem_of_Array_sort, elem_of_Set_from.
Qed.

(** ** The selector lists *)

(** X1.  The date selector offers each non-empty date of the records
    exactly once, in ascending order of code units, and nothing else. *)
Theorem availableDates_distinct_sorted_complete (rawData : list AttendanceRecord.t) :
  NoDup (Lists.availableDates rawData)
  ∧ StronglySorted code_units_le (Lists.availableDates rawData)
  ∧ ∀ d, d ∈ Lists.availableDates rawData
         ↔ ∃ r, r ∈ rawData ∧ Js.truthy (AttendanceRecord.tarikh_kehadiran r) = Some d.
Proof.
  destruct (default_sort_of_set
              (Builtins.filter_Boolean (map AttendanceRecord.tarikh_kehadiran rawData)))
    as (Hnd & Hs & Hin).
  split; [exact Hnd|]. split; [exact Hs|].
  intros d. unfold Lists.availableDates. rewrite Hin, elem_of_filter_Boolean. split.
  - intros (o & (r & -> & Hr)%list_elem_of_fmap & Ho). eauto.
  - intros (r & Hr & Ho). eexists. split; [|exact Ho]. apply list_elem_of_fmap. eauto.
Qed.

(** X2.  The session selector offers each non-empty session label of the
    records of the selected date (of all records when no date is selected)
    exactly once, in ascending order of code units, and nothing else. *)
Theorem availableSessions_follow_selected_date (selectedDate : string)
    (rawData : list AttendanceRecord.t) :
  NoDup (Lists.availableSessions selectedDate rawData)
  ∧ StronglySorted code_units_le (Lists.availableSessions selectedDate rawData)
  ∧ ∀ s, s ∈ Lists.availableSessions selectedDate rawData
         ↔ ∃ r, r ∈ rawData
                ∧ (selectedDate = "all"
                   ∨ AttendanceRecord.tarikh_kehadiran r = Some selectedDate)
                ∧ Js.truthy (AttendanceRecord.sesi r) = Some s.
Proof.
  unfold Lists.availableSessions.
  set (sourceData := if decide (selectedDate ≠ "all") then _ else rawData).
  destruct (default_sort_of_set
              (Builtins.filter_Boolean (map AttendanceRecord.sesi sourceData)))
    as (Hnd & Hs & Hin).
  split; [exact Hnd|]. split; [exact Hs|].
  assert (∀ r, r ∈ sourceData
               ↔ r ∈ rawData
                 ∧ (selectedDate = "all"
                    ∨ AttendanceRecord.tarikh_kehadiran r = Some selectedDate)) as Hsrc.
  { intros r. unfold sourceData. case_decide as Hsel.
    - rewrite elem_of_filter_bool, bool_decide_eq_true. tauto.
    - destruct (decide (selectedDate = "all")); tauto. }
  intros s. rewrite Hin, elem_of_filter_Boolean. split.
  - intros (o & (r & -> & Hr)%list_elem_of_fmap & Ho). apply Hsrc in Hr. exists r. tauto.
  - intros (r & Hr & Hd & Ho). eexists. split; [|exact Ho].
    apply list_elem_of_fmap. exists r. split; [done|]. apply Hsrc. tauto.
Qed.

Lemma Object_keys_elem {V : Type} (o : list (string * V)) (k : string) :
  k ∈ Js.Object_keys o ↔ k ∈ map fst o.
Proof. unfold Js.Object_keys. by rewrite Object_entries_perm. Qed.

(** X3.  In the earlier variant the unit selector offers every unit of the
    preset table and every non-empty unit of the records, each exactly
    once, in ascending order of code units, and nothing else. *)
Theorem availableStates_part001_distinct_sorted_complete
    (rawData : list AttendanceRecord.t) :
  NoDup (Lists.availableStates_part001 rawData)
  ∧ StronglySorted code_units_le (Lists.availableStates_part001 rawData)
  ∧ ∀ u, u ∈ Lists.availableStates_part001 rawData
         ↔ u ∈ map fst Part001.PRESET_TARGETS
           ∨ ∃ r, r ∈ rawData ∧ Js.truthy (AttendanceRecord.wing_negeri r) = Some u.
Proof.
  unfold Lists.availableStates_part001.
  match goal with |- context [Builtins.Set_from ?xs] =>
    destruct (default_sort_of_set xs) as (Hnd & Hs & Hin) end.
  split; [exact Hnd|]. split; [exact Hs|].
  intros u. rewrite Hin, elem_of_app, Object_keys_elem, elem_of_filter_Boolean.
  apply or_iff_compat_l. split.
  - intros (o & (r & -> & Hr)%list_elem_of_fmap & Ho). eauto.
  - intros (r & Hr & Ho). eexists. split; [|exact Ho]. apply list_elem_of_fmap. eauto.
Qed.

(** [indexOf] *)

Lemma indexOf_from_spec (i : Z) (xs : list string) (x : string) :
  ((x ∉ xs) ∧ Builtins.indexOf_from i xs x = -1)
  ∨ (∃ n : nat, xs !! n = Some x ∧ Builtins.indexOf_from i xs x = i + Z.of_nat n).
Proof.
  revert i. induction xs as [|y xs IH]; intros i; simpl.
  - left. split; [by intros ?%elem_of_nil|done].
  - case_decide as Hy.
    + right. exists 0%nat. subst. split; [done|lia].
    + destruct (IH (i + 1)) as [[Hx ->]|(n & Hn & ->)].
      * left. split; [|done]. rewrite elem_of_cons. naive_solver.
      * right. exists (S n). split; [done|lia].
Qed.

Lemma indexOf_absent (xs : list string) (x : string) :
  Builtins.indexOf xs x = -1 ↔ x ∉ xs.
Proof.
  unfold Builtins.indexOf.
  destruct (indexOf_from_spec 0 xs x) as [[Hx ->]|(n & Hn & ->)]; [done|].
  split; [lia|]. intros Hx. destruct Hx. by eapply list_elem_of_lookup_2.
Qed.

Lemma indexOf_inj (xs : list string) (x y : string) :
  x ∈ xs → Builtins.indexOf xs x = Builtins.indexOf xs y → x = y.
Proof.
  intros Hx. unfold Builtins.indexOf.
  destruct (indexOf_from_spec 0 xs x) as [[Hnx _]|(n & Hn & Ex)]; [done|].
  destruct (indexOf_from_spec 0 xs y) as [[_ Ey]|(m & Hm & Ey)]; rewrite Ex, Ey.
  - intros E. exfalso. lia.
  - intros E. assert (n = m) as -> by lia. congruence.
Qed.

(** ** The unit selector of [src/App.tsx] *)

Section SortOrder.
Variable localeCompare : string → string → Z.

Local Abbreviation cmp := (Lists.bySortOrder localeCompare).
Local Abbreviation known := (λ u : string, u ∈ Lists.SORT_ORDER).
Local Abbreviation idx := (Builtins.indexOf Lists.SORT_ORDER).

Lemma bySortOrder_known (a b : string) :
  known a → known b → cmp a b = Some (idx a - idx b).
Proof.
  intros Ha Hb. unfold Lists.bySortOrder.
  rewrite !bool_decide_eq_true_2; [done|by rewrite indexOf_absent; tauto..].
Qed.

Lemma bySortOrder_known_other (a b : string) :
  known a → ¬ known b → cmp a b = Some (-1).
Proof.
  intros Ha Hb%indexOf_absent. unfold Lists.bySortOrder. rewrite Hb.
  rewrite bool_decide_eq_true_2 by (rewrite indexOf_absent; tauto).
  by rewrite (bool_decide_eq_false_2 (-1 ≠ -1)) by tauto.
Qed.

Lemma bySortOrder_other_known (a b : string) :
  ¬ known a → known b → cmp a b = Some 1.
Proof.
  intros Ha%indexOf_absent Hb. unfold Lists.bySortOrder. rewrite Ha.
  rewrite (bool_decide_eq_false_2 (-1 ≠ -1)) by tauto. simpl.
  by rewrite bool_decide_eq_true_2 by (rewrite indexOf_absent; tauto).
Qed.

Lemma sort_insert_known (x : string) (ks os : list string) :
  known x → Forall (λ u, ¬ known u) os →
  Js.sort_insert cmp x (ks ++ os) = Js.sort_insert cmp x ks ++ os.
Proof.
  intros Hx Hos. induction ks as [|y ks IH]; simpl.
  - destruct os as [|z os]; [done|]. simpl.
    apply Forall_cons_1 in Hos as [Hz _].
    unfold Js.SortCompare. by rewrite bySortOrder_known_other.
  - destruct (Js.SortCompare cmp x y <=? 0); [done|]. by rewrite IH.
Qed.

Lemma sort_insert_other (x : string) (ks os : list string) :
  ¬ known x → Forall known ks →
  Js.sort_insert cmp x (ks ++ os) = ks ++ Js.sort_insert cmp x os.
Proof.
  intros Hx Hks. induction Hks as [|y ks Hy _ IH]; simpl; [done|].
  unfold Js.SortCompare at 1. rewrite bySortOrder_other_known by done. simpl.
  by rewrite IH.
Qed.

Lemma Array_sort_known_first (l : list string) :
  Js.Array_sort cmp l
  = Js.Array_sort cmp (filter known l) ++ Js.Array_sort cmp (filter (λ u, ¬ known u) l).
Proof.
  induction l as [|x l IH]; simpl; [done|]. rewrite IH.
  assert (Forall known (Js.Array_sort cmp (filter known l))) as Hks.
  { apply Forall_forall. intros u Hu. rewrite elem_of_Array_sort in Hu.
    by apply list_elem_of_filter in Hu as [? _]. }
  assert (Forall (λ u, ¬ known u) (Js.Array_sort cmp (filter (λ u, ¬ known u) l))) as Hos.
  { apply Forall_forall. intros u Hu. rewrite elem_of_Array_sort in Hu.
    by apply list_elem_of_filter in Hu as [? _]. }
  destruct (decide (known x)) as [Hx|Hx].
  - rewrite (filter_cons_True known) by done.
    rewrite (filter_cons_False (λ u, ¬ known u)) by tauto.
    simpl. by apply sort_insert_known.
  - rewrite (filter_cons_False known) by done.
    rewrite (filter_cons_True (λ u, ¬ known u)) by done.
    simpl. by apply sort_insert_other.
Qed.

Lemma fmap_inj_on {A B : Type} (f : A → B) (l1 l2 : list A) :
  (∀ x y, x ∈ l1 → f x = f y → x = y) → f <$> l1 = f <$> l2 → l1 = l2.
Proof.
  revert l2. induction l1 as [|x l1 IH]; intros [|y l2] Hinj E; simplify_eq/=; [done|].
  f_equal.
  - apply Hinj; [by left|done].
  - apply IH; [|done]. intros a b Ha. apply Hinj. by right.
Qed.

Lemma StronglySorted_fmap_key {A : Type} (f : A → Z) (l : list A) :
  StronglySorted (λ a b, f a ≤ f b) l → StronglySorted Z.le (f <$> l).
Proof.
  induction 1 as [|a l' _ IH Ha]; csimpl; constructor; [done|].
  apply Forall_fmap. exact Ha.
Qed.

Lemma SORT_ORDER_indices :
  idx <$> Lists.SORT_ORDER = [0; 1; 2; 3; 4; 5; 6; 7; 8; 9; 10; 11; 12; 13; 14; 15; 16].
Proof. reflexivity. Qed.

Lemma Array_sort_known (l : list string) :
  NoDup l → (∀ u, u ∈ l ↔ known u) → Js.Array_sort cmp l = Lists.SORT_ORDER.
Proof.
  intros Hnd Hl.
  assert (NoDup Lists.SORT_ORDER) as HndS.
  { apply NoDup_fmap_1 with (f := idx). rewrite SORT_ORDER_indices.
    apply (bool_decide_unpack _). by vm_compute. }
  assert (Js.Array_sort cmp l ≡ₚ Lists.SORT_ORDER) as Hperm.
  { rewrite Array_sort_perm. by apply NoDup_Permutation. }
  apply (fmap_inj_on idx).
  { intros x y Hx. apply indexOf_inj. apply Hl. by rewrite <- (elem_of_Array_sort cmp). }
  apply (StronglySorted_unique Z.le).
  - assert (StronglySorted (λ a b, idx a ≤ idx b) (Js.Array_sort cmp l)) as Hs.
    { apply Array_sort_sorted. intros x y Hx Hy. apply bySortOrder_known; by apply Hl. }
    by apply StronglySorted_fmap_key.
  - rewrite SORT_ORDER_indices. repeat (constructor; [|repeat constructor; lia]).
    constructor.
  - by rewrite Hperm.
Qed.

(** X4.  The unit selector of [src/App.tsx] always begins with the
    seventeen units of [SORT_ORDER], in that order, whatever the records,
    the roster and the collation of the runtime; after them come the other
    non-empty units found in the records or in the roster, each once. *)
Theorem availableStates_known_units_first (rawData : list AttendanceRecord.t)
    (masterData : list MasterRecord.t) :
  ∃ others,
    Lists.availableStates localeCompare rawData masterData = Lists.SORT_ORDER ++ others
    ∧ NoDup others
    ∧ ∀ u, u ∈ others
           ↔ (u ∉ Lists.SORT_ORDER)
             ∧ ((∃ r, r ∈ rawData ∧ Js.truthy (AttendanceRecord.wing_negeri r) = Some u)
                ∨ (∃ m, m ∈ masterData ∧ Js.truthy (MasterRecord.wing_negeri m) = Some u)).
Proof.
  unfold Lists.availableStates.
  match goal with |- context [Builtins.Set_from ?xs] => set (states := Builtins.Set_from xs) end.
  assert (∀ u, u ∈ states
               ↔ known u
                 ∨ (∃ r, r ∈ rawData ∧ Js.truthy (AttendanceRecord.wing_negeri r) = Some u)
                 ∨ (∃ m, m ∈ masterData ∧ Js.truthy (MasterRecord.wing_negeri m) = Some u))
    as Hstates.
  { intros u. unfold states.
    rewrite elem_of_Set_from, !elem_of_app, !elem_of_filter_Boolean.
    assert (u ∈ Js.Object_keys App.PRESET_TARGETS ↔ known u) as ->.
    { change (Js.Object_keys App.PRESET_TARGETS) with (map fst App.PRESET_TARGETS).
      rewrite !list_elem_of_In. simpl. tauto. }
    assert ((∃ o, o ∈ map AttendanceRecord.wing_negeri rawData ∧ Js.truthy o = Some u)
            ↔ ∃ r, r ∈ rawData ∧ Js.truthy (AttendanceRecord.wing_negeri r) = Some u)
      as ->.
    { split.
      + intros (o & (r & -> & Hr)%list_elem_of_fmap & Ho). eauto.
      + intros (r & Hr & Ho). eexists. split; [|exact Ho]. apply list_elem_of_fmap. eauto. }
    assert ((∃ o, o ∈ map MasterRecord.wing_negeri masterData ∧ Js.truthy o = Some u)
            ↔ ∃ m, m ∈ masterData ∧ Js.truthy (MasterRecord.wing_negeri m) = Some u)
      as ->.
    { split.
      + intros (o & (m & -> & Hm)%list_elem_of_fmap & Ho). eauto.
      + intros (m & Hm & Ho). eexists. split; [|exact Ho]. apply list_elem_of_fmap. eauto. }
    done. }
  exists (Js.Array_sort cmp (filter (λ u, ¬ known u) states)).
  split; [|split].
  - rewrite Array_sort_known_first. f_equal. apply Array_sort_known.
    + apply NoDup_filter, NoDup_Set_from.
    + intros u. rewrite list_elem_of_filter, Hstates. tauto.
  - rewrite Array_sort_perm. apply NoDup_filter, NoDup_Set_from.
  - intros u. rewrite elem_of_Array_sort, list_elem_of_filter, Hstates. tauto.
Qed.
End SortOrder.

(** ** Selections *)

(** X5.  Choosing another date than the current one, in the date
    selector, sets the session selector back to ['all'] and keeps the unit
    selector; the records on display are then the records of that date
    (within the selected unit), and when the date was offered by
    [availableDates] and no unit is selected there is at least one. *)
Theorem choosing_a_date_resets_the_session (rawData : list AttendanceRecord.t)
    (st : Filters.State) (d : string) :
  d ≠ Filters.selectedDate st → d ≠ "all" →
  let st' := Filters.setSelectedDate d st in
  st' = Filters.mk d "all" (Filters.selectedState st)
  ∧ (∀ r, r ∈ Filters.filtered st' rawData
          ↔ r ∈ rawData
            ∧ AttendanceRecord.tarikh_kehadiran r = Some d
            ∧ (Filters.selectedState st = "all"
               ∨ AttendanceRecord.wing_negeri r = Some (Filters.selectedState st)))
  ∧ (d ∈ Lists.availableDates rawData → Filters.selectedState st = "all" →
     Filters.filtered st' rawData ≠ []).
Proof.
  intros Hnew Hd. simpl.
  assert (Filters.setSelectedDate d st = Filters.mk d "all" (Filters.selectedState st))
    as ->.
  { unfold Filters.setSelectedDate, Filters.resetSession. simpl.
    by rewrite decide_False by done. }
  assert (∀ r, r ∈ Filters.filtered (Filters.mk d "all" (Filters.selectedState st)) rawData
               ↔ r ∈ rawData
                 ∧ AttendanceRecord.tarikh_kehadiran r = Some d
                 ∧ (Filters.selectedState st = "all"
                    ∨ AttendanceRecord.wing_negeri r = Some (Filters.selectedState st)))
    as Hiff.
  { intros r. unfold Filters.filtered. simpl.
    rewrite elem_of_filtered, matchFilters_true. naive_solver. }
  split; [done|]. split; [exact Hiff|].
  intros Hin Hall E.
  apply availableDates_distinct_sorted_complete in Hin as (r & Hr & [Ht _]%truthy_Some).
  assert (r ∈ Filters.filtered (Filters.mk d "all" (Filters.selectedState st)) rawData)
    as Hshown by (apply Hiff; tauto).
  rewrite E in Hshown. by apply elem_of_nil in Hshown.
Qed.

Lemma choosing_a_date_resets_the_session_witness :
  let rawData := Samples.kelantan_and_guests in
  let st := Filters.mk "2025-01-02" "Sesi 2" "all" in
  let st' := Filters.setSelectedDate "2025-01-01" st in
  st' = Filters.mk "2025-01-01" "all" "all" ∧ Filters.filtered st' rawData ≠ [].
Proof.
  intros rawData st st'.
  destruct (choosing_a_date_resets_the_session rawData st "2025-01-01")
    as (E & _ & Hne); [done..|].
  split; [exact E|]. apply Hne; [|reflexivity].
  apply list_elem_of_In. vm_compute. tauto.
Defined.

(** X6.  Every session that the session selector offers for the selected
    date matches at least one record: with no unit selected, choosing it
    never leaves the display empty. *)
Theorem choosing_an_offered_session_shows_records (rawData : list AttendanceRecord.t)
    (st : Filters.State) (s : string) :
  s ∈ Lists.availableSessions (Filters.selectedDate st) rawData →
  Filters.selectedState st = "all" →
  Filters.filtered (Filters.setSelectedSession s st) rawData ≠ [].
Proof.
  intros Hin Hall E.
  apply availableSessions_follow_selected_date in Hin
    as (r & Hr & Hd & [Hs _]%truthy_Some).
  assert (r ∈ Filters.filtered (Filters.setSelectedSession s st) rawData) as Hshown.
  { unfold Filters.filtered. simpl. rewrite elem_of_filtered, matchFilters_true. tauto. }
  rewrite E in Hshown. by apply elem_of_nil in Hshown.
Qed.

Lemma choosing_an_offered_session_shows_records_witness :
  Filters.filtered
    (Filters.setSelectedSession "Sesi 1" (Filters.mk "2025-01-01" "all" "all"))
    Samples.kelantan_and_guests ≠ [].
Proof.
  apply (choosing_an_offered_session_shows_records Samples.kelantan_and_guests
           (Filters.mk "2025-01-01" "all" "all") "Sesi 1").
  - apply list_elem_of_In. vm_compute. tauto.
  - reflexivity.
Defined.

Lemma App_preset_keys :
  Js.Object_keys App.PRESET_TARGETS = map fst App.PRESET_TARGETS.
Proof. reflexivity. Qed.

(** X7.  A click on a bar of the unit chart while no unit is selected
    selects the unit of that bar and nothing else; the chart then has the
    bar of that unit only, and a click on it brings the selection back to
    where it was. *)
Theorem clicking_a_unit_bar_twice_restores_the_selection (trim : string → string)
    (getTime : string → option Z) (rawData : list AttendanceRecord.t)
    (masterData : list MasterRecord.t) (st : Filters.State) (bar : StateStat.t) :
  let stats st :=
    App.stats trim getTime (Filters.selectedDate st) (Filters.selectedSession st)
      (Filters.selectedState st) rawData masterData in
  Filters.selectedState st = "all" →
  bar ∈ App.stateDistribution (stats st) →
  let st' := Filters.handleStateClick (Some (Filters.mkEvent (Some [bar]))) st in
  st' = Filters.mk (Filters.selectedDate st) (Filters.selectedSession st)
          (StateStat.state bar)
  ∧ ∀ bar', bar' ∈ App.stateDistribution (stats st') →
      StateStat.state bar' = StateStat.state bar
      ∧ Filters.handleStateClick (Some (Filters.mkEvent (Some [bar']))) st' = st.
Proof.
  intros stats Hall Hbar. simpl.
  apply elem_of_stateDistribution in Hbar as (key & Hkey & ->). simpl.
  assert (key ≠ "all") as Hne.
  { rewrite Hall in Hkey. unfold Aggregation.stateKeys in Hkey. simpl in Hkey.
    rewrite App_preset_keys in Hkey. apply list_elem_of_In in Hkey. simpl in Hkey.
    intros ->. repeat destruct Hkey as [Hkey|Hkey]; done. }
  unfold Filters.handleStateClick. simpl. rewrite Hall.
  rewrite decide_False by done. split; [done|].
  intros bar' (key' & Hkey' & ->)%elem_of_stateDistribution. simpl in *.
  unfold Aggregation.stateKeys in Hkey'. rewrite decide_True in Hkey' by done.
  apply list_elem_of_singleton in Hkey' as ->. split; [done|].
  rewrite decide_True by done. destruct st. simpl in *. by subst.
Qed.

Lemma clicking_a_unit_bar_twice_restores_the_selection_witness :
  let st := Filters.initial in
  let bar := StateStat.mk "FAMA PERLIS" 1 6 17 in
  Filters.handleStateClick (Some (Filters.mkEvent (Some [bar]))) st
  = Filters.mk "all" "all" "FAMA PERLIS".
Proof.
  intros st bar.
  apply (clicking_a_unit_bar_twice_restores_the_selection Runtime.trim Runtime.getTime
           Examples.two_sessions [] st bar); [reflexivity|].
  apply list_elem_of_In. vm_compute. tauto.
Defined.

Lemma filtered_all (rawData : list AttendanceRecord.t) :
  Aggregation.filtered "all" "all" "all" rawData = rawData.
Proof. apply filter_bool_all. done. Qed.

(** X8.  The bar ['N/A'] of the date chart counts the records without a
    date, but the date filter compares the date field itself: when no
    record carries the text ['N/A'] as its date, a click on that bar
    selects ['N/A'] and leaves no record on display. *)
Theorem clicking_the_undated_bar_shows_nothing (trim : string → string)
    (getTime : string → option Z) (rawData : list AttendanceRecord.t)
    (masterData : list MasterRecord.t) :
  (∃ r, r ∈ rawData ∧ undated r) →
  (∀ r, r ∈ rawData → AttendanceRecord.tarikh_kehadiran r ≠ Some "N/A") →
  let s := App.stats trim getTime "all" "all" "all" rawData masterData in
  ∃ bar, bar ∈ App.dateDistribution s
    ∧ DateStat.date bar = "N/A"
    ∧ 1 ≤ DateStat.count bar
    ∧ let st' :=
        Filters.handleDateClick (Some (Filters.mkEvent (Some [bar]))) Filters.initial in
      st' = Filters.mk "N/A" "all" "all" ∧ Filters.filtered st' rawData = [].
Proof.
  intros (r & Hr & Hund) Hno. simpl. rewrite filtered_all.
  assert (r ∈ of_date trim "N/A" rawData) as Hof.
  { apply elem_of_filter_bool. split; [done|].
    apply bool_decide_eq_true_2. by apply dateKey_missing. }
  exists (DateStat.mk "N/A" (Z.of_nat (length (of_date trim "N/A" rawData)))).
  split; [|split; [done|split]].
  - apply elem_of_dateDistribution. simpl. split; [done|].
    pose proof (length_filter_pos _ _ _ Hof). unfold of_date. lia.
  - simpl. by eapply length_filter_pos.
  - split; [done|]. apply filter_bool_nil. intros x Hx.
    apply not_true_is_false. rewrite matchFilters_true. simpl.
    intros [[?|?] _]; [done|by eapply Hno].
Qed.

Lemma clicking_the_undated_bar_shows_nothing_witness :
  ∃ bar, bar ∈ App.dateDistribution
                 (App.stats Runtime.trim Runtime.getTime "all" "all" "all"
                    Examples.undated_between [])
    ∧ DateStat.date bar = "N/A"
    ∧ 1 ≤ DateStat.count bar
    ∧ let st' :=
        Filters.handleDateClick (Some (Filters.mkEvent (Some [bar]))) Filters.initial in
      st' = Filters.mk "N/A" "all" "all"
      ∧ Filters.filtered st' Examples.undated_between = [].
Proof.
  apply (clicking_the_undated_bar_shows_nothing Runtime.trim Runtime.getTime
           Examples.undated_between []).
  - exists (Examples.attended "1002" None (Some "FAMA PERLIS") (Some "Sesi 1")).
    split; [|reflexivity]. apply list_elem_of_In. vm_compute. tauto.
  - intros r Hr%list_elem_of_In. vm_compute in Hr.
    destruct Hr as [<-|[<-|[<-|[]]]]; discriminate.
Defined.

(** ** More on the per-unit entries *)

Lemma unit_list_NoDup_App (selectedState : string) :
  NoDup (unit_list App.PRESET_TARGETS selectedState).
Proof.
  unfold unit_list. case_decide; [|apply NoDup_singleton].
  apply (bool_decide_unpack _). by vm_compute.
Qed.

Lemma unit_list_NoDup_Part001 (selectedState : string) :
  NoDup (unit_list Part001.PRESET_TARGETS selectedState).
Proof.
  unfold unit_list. case_decide; [|apply NoDup_singleton].
  apply (bool_decide_unpack _). by vm_compute.
Qed.

Lemma states_of_stateDistribution (PRESET_TARGETS : list (string * Z))
    (selectedState : string) (countOf : string → Z) :
  Js.Object_keys PRESET_TARGETS = map fst PRESET_TARGETS →
  map StateStat.state (Aggregation.stateDistribution PRESET_TARGETS selectedState countOf)
  ≡ₚ unit_list PRESET_TARGETS selectedState.
Proof.
  intros Hkeys. unfold Aggregation.stateDistribution.
  rewrite Array_sort_perm, map_map. simpl. rewrite map_id.
  by rewrite stateKeys_unit_list.
Qed.

(** X9.  In both variants the unit chart has exactly one bar for each
    unit of the unit list: all seventeen units of the preset table when no
    unit is selected, whether or not anybody of the unit attended, and the
    selected unit alone otherwise. *)
Theorem every_unit_has_exactly_one_bar (trim : string → string)
    (getTime : string → option Z) (selectedDate selectedSession selectedState : string)
    (rawData : list AttendanceRecord.t) (masterData : list MasterRecord.t) :
  let a := App.stats trim getTime selectedDate selectedSession selectedState
             rawData masterData in
  let b := Part001.stats trim getTime selectedDate selectedSession selectedState rawData in
  (map StateStat.state (App.stateDistribution a)
   ≡ₚ unit_list App.PRESET_TARGETS selectedState
   ∧ NoDup (map StateStat.state (App.stateDistribution a))
   ∧ length (App.stateDistribution a) = if decide (selectedState = "all") then 17%nat else 1%nat)
  ∧ (map StateStat.state (Part001.stateDistribution b)
     ≡ₚ unit_list Part001.PRESET_TARGETS selectedState
     ∧ NoDup (map StateStat.state (Part001.stateDistribution b))
     ∧ length (Part001.stateDistribution b)
       = if decide (selectedState = "all") then 17%nat else 1%nat).
Proof.
  simpl. split.
  - pose proof (states_of_stateDistribution App.PRESET_TARGETS selectedState
                  (App.countOf (App.stateUniqueMap trim
                     (Aggregation.filtered selectedDate selectedSession selectedState
                        rawData))) eq_refl) as Hp.
    split; [exact Hp|]. split; [rewrite Hp; apply unit_list_NoDup_App|].
    rewrite <- (length_map StateStat.state), Hp. unfold unit_list. by case_decide.
  - pose proof (states_of_stateDistribution Part001.PRESET_TARGETS selectedState
                  (Part001.countOf (Part001.stateMap trim
                     (Aggregation.filtered selectedDate selectedSession selectedState
                        rawData))) eq_refl) as Hp.
    split; [exact Hp|]. split; [rewrite Hp; apply unit_list_NoDup_Part001|].
    rewrite <- (length_map StateStat.state), Hp. unfold unit_list. by case_decide.
Qed.

Lemma percentageOf_zero (target : Z) : Aggregation.percentageOf 0 target = 0.
Proof.
  destruct (Z.lt_ge_cases 0 target).
  - rewrite percentageOf_pos by done. apply Z.div_small. lia.
  - by apply percentageOf_nonpos.
Qed.

(** X10.  When the selected unit is a plain name that is not in the preset
    table, the chart of [src/App.tsx] has that unit alone, with the number
    of distinct employees on display as its count, with target 0 and 0
    percent, however many of its employees attended; the overall target
    and percentage are 0; it is the top unit, and the winner-lock effect
    records nothing. *)
Theorem unit_outside_the_presets_has_no_target (trim : string → string)
    (getTime : string → option Z) (selectedDate selectedSession selectedState : string)
    (rawData : list AttendanceRecord.t) (masterData : list MasterRecord.t) :
  selectedState ≠ "all" →
  plain_name trim selectedState →
  Js.get App.PRESET_TARGETS selectedState = None →
  let a := App.stats trim getTime selectedDate selectedSession selectedState
             rawData masterData in
  let entry := StateStat.mk selectedState (distinct_ids (App.filteredData a)) 0 0 in
  App.stateDistribution a = [entry]
  ∧ StateStat.count entry = App.totalParticipants a
  ∧ App.topState a = Some entry
  ∧ App.totalTarget a = 0
  ∧ App.overallPercentage a = 0
  ∧ ∀ now st, App.lockWinner now selectedSession (App.stateDistribution a) st = st.
Proof.
  intros Hsel (Hne & Htrim & _) Hget. simpl.
  set (filtered := Aggregation.filtered selectedDate selectedSession selectedState rawData).
  assert (of_unit trim selectedState filtered = filtered) as Hall.
  { apply filter_bool_all_in. intros r Hr. apply bool_decide_eq_true_2.
    by destruct (stateKey_of_selected trim _ _ _ _ r Hsel Hne Htrim Hr). }
  assert (Aggregation.stateDistribution App.PRESET_TARGETS selectedState
            (App.countOf (App.stateUniqueMap trim filtered))
          = [StateStat.mk selectedState (distinct_ids filtered) 0 0]) as ->.
  { unfold Aggregation.stateDistribution, Aggregation.stateKeys.
    rewrite decide_True by done. simpl. unfold Aggregation.stateStat.
    rewrite Hget, countOf_stateUniqueMap, Hall. simpl.
    by rewrite percentageOf_nonpos by done. }
  split; [done|]. split; [by rewrite totalHeadcount_distinct|]. split; [done|].
  unfold Aggregation.overallPercentage, Aggregation.totalTarget.
  rewrite decide_False by done. rewrite Hget. simpl.
  split; [done|]. split; [by apply percentageOf_nonpos|].
  intros now st. unfold App.lockWinner. simpl.
  destruct (_ !! _); [done|]. by destruct (Js.inherited _).
Qed.

Lemma unit_outside_the_presets_has_no_target_witness :
  let a := App.stats Runtime.trim Runtime.getTime "all" "all" "Tetamu"
             Samples.kelantan_and_guests [] in
  App.stateDistribution a = [StateStat.mk "Tetamu" 2 0 0]
  ∧ App.totalParticipants a = 2
  ∧ ∀ now st, App.lockWinner now "all" (App.stateDistribution a) st = st.
Proof.
  intros a.
  assert (plain_name Runtime.trim "Tetamu") as Hplain by (by split).
  destruct (unit_outside_the_presets_has_no_target Runtime.trim Runtime.getTime
              "all" "all" "Tetamu" Samples.kelantan_and_guests []
              ltac:(discriminate) Hplain eq_refl)
    as (_ & _ & _ & _ & _ & Hlock).
  split; [by vm_compute|]. split; [by vm_compute|]. exact Hlock.
Defined.

(** X30.  The unit selector offers the unit names as the records carry
    them, but the aggregation files a record under its trimmed name: when
    the selected name has surrounding white space (and neither it nor its
    trimmed form is a name that [Object.prototype] defines), the chart of
    [src/App.tsx] shows that unit with count 0 and 0 percent, whatever the
    number of its records on display, and the winner-lock effect records
    nothing. *)
Theorem unit_selected_with_surrounding_space_counts_nobody (trim : string → string)
    (getTime : string → option Z) (selectedDate selectedSession selectedState : string)
    (rawData : list AttendanceRecord.t) (masterData : list MasterRecord.t) :
  selectedState ≠ "all" →
  selectedState ≠ EmptyString →
  trim selectedState ≠ selectedState →
  Js.inherited selectedState = false →
  Js.inherited (trim selectedState) = false →
  let a := App.stats trim getTime selectedDate selectedSession selectedState
             rawData masterData in
  (∀ r, r ∈ App.filteredData a →
     AttendanceRecord.wing_negeri r = Some selectedState
     ∧ Aggregation.stateKey trim r = trim selectedState)
  ∧ App.totalParticipants a = distinct_ids (App.filteredData a)
  ∧ (∃ target, App.stateDistribution a = [StateStat.mk selectedState 0 target 0])
  ∧ ∀ now st, App.lockWinner now selectedSession (App.stateDistribution a) st = st.
Proof.
  intros Hsel Hne Htrim _ _. simpl.
  set (filtered := Aggregation.filtered selectedDate selectedSession selectedState rawData).
  assert (∀ r, r ∈ filtered →
               AttendanceRecord.wing_negeri r = Some selectedState
               ∧ Aggregation.stateKey trim r = trim selectedState) as Hkeys.
  { intros r [_ Hr]%elem_of_filtered.
    apply matchFilters_true in Hr as (_ & _ & [?|Hunit]); [done|].
    split; [done|]. unfold Aggregation.stateKey. rewrite Hunit. simpl.
    by rewrite decide_False. }
  assert (of_unit trim selectedState filtered = []) as Hnone.
  { apply filter_bool_nil. intros r Hr. apply bool_decide_eq_false_2.
    destruct (Hkeys r Hr) as [_ ->]. done. }
  assert (Aggregation.stateDistribution App.PRESET_TARGETS selectedState
            (App.countOf (App.stateUniqueMap trim filtered))
          = [StateStat.mk selectedState 0
               (default 0 (Js.get App.PRESET_TARGETS selectedState)) 0]) as ->.
  { unfold Aggregation.stateDistribution, Aggregation.stateKeys.
    rewrite decide_True by done. simpl. unfold Aggregation.stateStat.
    rewrite countOf_stateUniqueMap, Hnone.
    change (distinct_ids []) with 0. by rewrite percentageOf_zero. }
  split; [exact Hkeys|]. split; [apply totalHeadcount_distinct|]. split; [by eexists|].
  intros now st. unfold App.lockWinner. simpl.
  destruct (_ !! _); [done|]. by destruct (Js.inherited _).
Qed.

Lemma unit_selected_with_surrounding_space_counts_nobody_witness :
  let a := App.stats Runtime.trim Runtime.getTime "all" "all" "FAMA PERLIS "
             Samples.perlis_with_space [] in
  length (App.filteredData a) = 2%nat
  ∧ App.totalParticipants a = 2
  ∧ App.stateDistribution a = [StateStat.mk "FAMA PERLIS " 0 0 0]
  ∧ ∀ now st, App.lockWinner now "all" (App.stateDistribution a) st = st.
Proof.
  intros a.
  assert (Runtime.trim "FAMA PERLIS " ≠ "FAMA PERLIS ") as Htrim by (by vm_compute).
  destruct (unit_selected_with_surrounding_space_counts_nobody Runtime.trim
              Runtime.getTime "all" "all" "FAMA PERLIS " Samples.perlis_with_space []
              ltac:(discriminate) ltac:(discriminate) Htrim eq_refl eq_refl)
    as (_ & _ & _ & Hlock).
  split; [by vm_compute|]. split; [by vm_compute|]. split; [by vm_compute|]. exact Hlock.
Defined.

Lemma App_target_small (key : string) : default 0 (Js.get App.PRESET_TARGETS key) < 200.
Proof. unfold App.PRESET_TARGETS. simpl. repeat case_decide; simpl; lia. Qed.

Lemma Part001_target_small (key : string) :
  default 0 (Js.get Part001.PRESET_TARGETS key) < 200.
Proof. unfold Part001.PRESET_TARGETS. simpl. repeat case_decide; simpl; lia. Qed.

Lemma percentageOf_100 (count target : Z) :
  target < 200 →
  100 ≤ Aggregation.percentageOf count target ↔ 0 < target ∧ target ≤ count.
Proof.
  intros Hsmall. destruct (Z.lt_ge_cases 0 target) as [Hpos|Hnonpos].
  - rewrite percentageOf_pos by done. split.
    + intros H. split; [done|].
      destruct (Z.lt_ge_cases count target) as [Hlt|]; [|lia].
      assert ((200 * count + target) / (2 * target) < 100); [|lia].
      apply Z.div_lt_upper_bound; lia.
    + intros [_ H]. apply Z.div_le_lower_bound; lia.
  - rewrite percentageOf_nonpos by lia. lia.
Qed.

(** X11.  In both variants a unit shows 100 percent or more exactly when
    its count has reached its positive target: rounding never lifts a unit
    that is short of its target to 100.  So the unit that the winner-lock
    effect records for a session had reached its target in the
    distribution the effect ran on. *)
Theorem hundred_percent_means_target_reached (trim : string → string)
    (getTime : string → option Z) (selectedDate selectedSession selectedState : string)
    (rawData : list AttendanceRecord.t) (masterData : list MasterRecord.t) :
  let a := App.stats trim getTime selectedDate selectedSession selectedState
             rawData masterData in
  let b := Part001.stats trim getTime selectedDate selectedSession selectedState rawData in
  (∀ e, e ∈ App.stateDistribution a →
     100 ≤ StateStat.percentage e ↔ 0 < StateStat.target e ∧ StateStat.target e ≤ StateStat.count e)
  ∧ (∀ e, e ∈ Part001.stateDistribution b →
       100 ≤ StateStat.percentage e
       ↔ 0 < StateStat.target e ∧ StateStat.target e ≤ StateStat.count e)
  ∧ ∀ (now : string) (st : App.LockState) (w : WinnerLock.t),
      App.sessionWinners st !! selectedSession = None →
      App.sessionWinners (App.lockWinner now selectedSession (App.stateDistribution a) st)
        !! selectedSession = Some w →
      ∃ e, e ∈ App.stateDistribution a
        ∧ WinnerLock.state w = StateStat.state e
        ∧ WinnerLock.percentage w = StateStat.percentage e
        ∧ 0 < StateStat.target e ∧ StateStat.target e ≤ StateStat.count e.
Proof.
  simpl.
  assert (∀ e, e ∈ Aggregation.stateDistribution App.PRESET_TARGETS selectedState
                     (App.countOf (App.stateUniqueMap trim
                        (Aggregation.filtered selectedDate selectedSession selectedState
                           rawData))) →
               100 ≤ StateStat.percentage e
               ↔ 0 < StateStat.target e ∧ StateStat.target e ≤ StateStat.count e) as HA.
  { intros e (key & _ & ->)%elem_of_stateDistribution. simpl.
    apply percentageOf_100, App_target_small. }
  split; [exact HA|]. split.
  - intros e (key & _ & ->)%elem_of_stateDistribution. simpl.
    apply percentageOf_100, Part001_target_small.
  - intros now st w Hnone. unfold App.lockWinner. rewrite Hnone.
    destruct (Js.inherited selectedSession); [by rewrite Hnone|].
    destruct (find _ _) as [champion|] eqn:Hfind; simpl.
    + rewrite lookup_insert_eq. intros [= <-]. simpl.
      apply find_some in Hfind as [Hin Hc]. apply list_elem_of_In in Hin.
      exists champion. split; [done|]. split; [done|]. split; [done|].
      apply HA; [done|]. by apply Z.leb_le.
    + by rewrite Hnone.
Qed.

Lemma hundred_percent_means_target_reached_witness :
  let entry := StateStat.mk "FAMA PERLIS" 6 6 100 in
  100 ≤ StateStat.percentage entry
  ↔ 0 < StateStat.target entry ∧ StateStat.target entry ≤ StateStat.count entry.
Proof.
  intros entry.
  apply (proj1 (hundred_percent_means_target_reached Runtime.trim Runtime.getTime
                  "all" "all" "all" Examples.perlis_full []) entry).
  apply list_elem_of_In. vm_compute. tauto.
Defined.

(** ** More on the per-date entries *)

Lemma sum_counts_perm (l1 l2 : list DateStat.t) :
  l1 ≡ₚ l2 → sum_counts l1 = sum_counts l2.
Proof. unfold sum_counts. induction 1; simpl; lia. Qed.

Lemma sum_increment (o : list (string * Z)) (k : string) :
  foldr (λ e total, e.2 + total) 0 (Js.increment o k)
  = foldr (λ e total, e.2 + total) 0 o + 1.
Proof.
  induction o as [|[k' v] o IH]; simpl; [done|].
  case_decide; simpl; lia.
Qed.

Lemma sum_tally {R : Type} (key : R → string) (l : list R) (o : list (string * Z)) :
  foldr (λ e total, e.2 + total) 0 (fold_left (λ m r, Js.increment m (key r)) l o)
  = foldr (λ e total, e.2 + total) 0 o + Z.of_nat (length l).
Proof.
  revert o. induction l as [|r l IH]; intros o; simpl; [lia|].
  rewrite IH, sum_increment. lia.
Qed.

Lemma dateDistribution_perm (trim : string → string) (getTime : string → option Z)
    (records : list AttendanceRecord.t) :
  Aggregation.dateDistribution trim getTime records
  ≡ₚ map (λ e : string * Z, DateStat.mk e.1 e.2) (Aggregation.dateMap trim records).
Proof.
  unfold Aggregation.dateDistribution.
  by rewrite Array_sort_perm, Object_entries_perm.
Qed.

Lemma distinct_ids_le_length (records : list AttendanceRecord.t) :
  distinct_ids records ≤ Z.of_nat (length records).
Proof.
  unfold distinct_ids. rewrite <- (length_map AttendanceRecord.no_pekerja records).
  induction (map AttendanceRecord.no_pekerja records) as [|x l IH]; simpl; [done|].
  case_decide; simpl; lia.
Qed.

(** X12.  When no date key of the filtered records names a member of
    [Object.prototype], in both variants every filtered record is counted
    under exactly one date: the dates of the per-date entries are
    distinct, and their counts add up to the number of filtered records,
    which is [totalParticipants] in the earlier variant and at least
    [totalParticipants] in [src/App.tsx]. *)
Theorem date_counts_add_up_to_the_records (trim : string → string)
    (getTime : string → option Z) (selectedDate selectedSession selectedState : string)
    (rawData : list AttendanceRecord.t) (masterData : list MasterRecord.t) :
  let a := App.stats trim getTime selectedDate selectedSession selectedState
             rawData masterData in
  let b := Part001.stats trim getTime selectedDate selectedSession selectedState rawData in
  ordinary_dates trim (App.filteredData a) →
  NoDup (map DateStat.date (App.dateDistribution a))
  ∧ sum_counts (App.dateDistribution a) = Z.of_nat (length (App.filteredData a))
  ∧ App.totalParticipants a ≤ sum_counts (App.dateDistribution a)
  ∧ sum_counts (Part001.dateDistribution b) = Part001.totalParticipants b.
Proof.
  simpl. intros _.
  set (records := Aggregation.filtered selectedDate selectedSession selectedState rawData).
  pose proof (dateDistribution_perm trim getTime records) as Hp.
  assert (sum_counts (Aggregation.dateDistribution trim getTime records)
          = Z.of_nat (length records)) as Hsum.
  { rewrite (sum_counts_perm _ _ Hp). unfold sum_counts, Aggregation.dateMap.
    rewrite foldr_fmap. simpl.
    by rewrite (sum_tally (Aggregation.dateKey trim)). }
  split; [|split; [done|split; [|done]]].
  - rewrite Hp, map_map. simpl.
    apply (keys_tally (Aggregation.dateKey trim)). constructor.
  - rewrite Hsum, totalHeadcount_distinct. apply distinct_ids_le_length.
Qed.

Lemma date_counts_add_up_to_the_records_witness :
  let a := App.stats Runtime.trim Runtime.getTime "all" "all" "all"
             Examples.perlis_full [] in
  ordinary_dates Runtime.trim (App.filteredData a)
  ∧ sum_counts (App.dateDistribution a) = Z.of_nat (length (App.filteredData a)).
Proof.
  intros a.
  assert (ordinary_dates Runtime.trim (App.filteredData a)) as Hdates.
  { intros r Hr%list_elem_of_In. vm_compute in Hr.
    repeat (destruct Hr as [<-|Hr]; [reflexivity|]). destruct Hr. }
  split; [exact Hdates|].
  exact (proj1 (proj2 (date_counts_add_up_to_the_records Runtime.trim Runtime.getTime
                         "all" "all" "all" Examples.perlis_full [] Hdates))).
Defined.

(** X13.  When no date key of the filtered records names a member of
    [Object.prototype], in both variants [topDay] is null exactly when no
    record passes the filters; otherwise it is an entry of the per-date
    counts whose count no other entry exceeds, and the first such entry of
    [dateDistribution]. *)
Theorem topDay_is_first_entry_of_maximal_count (trim : string → string)
    (getTime : string → option Z) (selectedDate selectedSession selectedState : string)
    (rawData : list AttendanceRecord.t) (masterData : list MasterRecord.t) :
  let a := App.stats trim getTime selectedDate selectedSession selectedState
             rawData masterData in
  let b := Part001.stats trim getTime selectedDate selectedSession selectedState rawData in
  ordinary_dates trim (App.filteredData a) →
  (App.topDay a = None ↔ App.filteredData a = [])
  ∧ (∀ d, App.topDay a = Some d →
       first_max DateStat.count (App.dateDistribution a) d
       ∧ DateStat.count d = Z.of_nat (length (of_date trim (DateStat.date d) (App.filteredData a)))
       ∧ 1 ≤ DateStat.count d)
  ∧ Part001.topDay b = App.topDay a.
Proof.
  simpl. intros _. split; [apply topDay_None|]. split; [|done].
  intros d Hd.
  destruct (decide (Aggregation.filtered selectedDate selectedSession selectedState rawData
                    = [])) as [E|Hne].
  - pose proof (proj2 (topDay_None trim getTime _) E). congruence.
  - destruct (topDay_first_max trim getTime _ Hne) as (d' & Hd' & Hfm).
    assert (d' = d) as -> by congruence. split; [done|].
    apply first_max_elem, elem_of_dateDistribution in Hfm. lia.
Qed.

Lemma topDay_is_first_entry_of_maximal_count_witness :
  let a := App.stats Runtime.trim Runtime.getTime "all" "all" "all"
             Examples.perlis_full [] in
  first_max DateStat.count (App.dateDistribution a) (DateStat.mk "2025-01-01" 4)
  ∧ 4 = Z.of_nat (length (of_date Runtime.trim "2025-01-01" (App.filteredData a)))
  ∧ 1 ≤ 4.
Proof.
  intros a.
  assert (ordinary_dates Runtime.trim (App.filteredData a)) as Hdates.
  { intros r Hr%list_elem_of_In. vm_compute in Hr.
    repeat (destruct Hr as [<-|Hr]; [reflexivity|]). destruct Hr. }
  exact (proj1 (proj2 (topDay_is_first_entry_of_maximal_count Runtime.trim Runtime.getTime
                         "all" "all" "all" Examples.perlis_full [] Hdates))
           (DateStat.mk "2025-01-01" 4) eq_refl).
Defined.

(** X14.  When the date of every filtered record parses, [dateDistribution]
    is in ascending date order and [topDay] is the earliest date among
    those of maximal count. *)
Theorem topDay_is_earliest_when_all_dates_parse (trim : string → string)
    (getTime : string → option Z) (selectedDate selectedSession selectedState : string)
    (rawData : list AttendanceRecord.t) (masterData : list MasterRecord.t) :
  let a := App.stats trim getTime selectedDate selectedSession selectedState
             rawData masterData in
  let b := Part001.stats trim getTime selectedDate selectedSession selectedState rawData in
  (∀ r, r ∈ App.filteredData a → is_Some (getTime (Aggregation.dateKey trim r))) →
  App.filteredData a ≠ [] →
  StronglySorted
    (λ x y, default 0 (getTime (DateStat.date x)) ≤ default 0 (getTime (DateStat.date y)))
    (App.dateDistribution a)
  ∧ earliest_top_day getTime (App.dateDistribution a) (App.topDay a)
  ∧ earliest_top_day getTime (Part001.dateDistribution b) (Part001.topDay b).
Proof.
  simpl. intros Hparse Hne.
  destruct (topDay_earliest_when_dates_parse trim getTime _ Hparse Hne) as [Hs Htop].
  done.
Qed.

Lemma topDay_is_earliest_when_all_dates_parse_witness :
  let a := App.stats Runtime.trim Runtime.getTime "all" "all" "all"
             Samples.later_date_first [] in
  App.topDay a = Some (DateStat.mk "2025-01-01" 1)
  ∧ earliest_top_day Runtime.getTime (App.dateDistribution a) (App.topDay a).
Proof.
  intros a. split; [reflexivity|].
  apply (topDay_is_earliest_when_all_dates_parse Runtime.trim Runtime.getTime
           "all" "all" "all" Samples.later_date_first []).
  - intros r Hr%list_elem_of_In. vm_compute in Hr.
    destruct Hr as [<-|[<-|[]]]; vm_compute; eauto.
  - discriminate.
Defined.

(** ** Nothing to count *)

Lemma notRegistered_within_unit (selectedState : string)
    (masterData : list MasterRecord.t) (records : list AttendanceRecord.t) :
  App.notRegistered selectedState masterData (App.uniqueParticipants records)
  = List.filter (λ staff, bool_decide (in_selected_unit selectedState staff))
      (roster_minus_attendance masterData records).
Proof.
  unfold App.notRegistered. rewrite notRegistered_all. case_decide as Hsel.
  - apply filter_bool_ext. intros staff. apply bool_decide_ext.
    unfold in_selected_unit. tauto.
  - symmetry. apply filter_bool_all. intros staff. apply bool_decide_eq_true_2.
    left. by destruct (decide (selectedState = "all")).
Qed.

(** X15.  When no record passes the filters, as before the first answer of
    the store, and the selected unit is not a name that [Object.prototype]
    defines, [src/App.tsx] reports 0 participants and 0 percent overall,
    no per-date entry and no top day, every unit with count 0 and 0
    percent, the first unit of the unit list as the top unit, and every
    roster member of the selected unit as absent; and the winner-lock
    effect records nothing. *)
Theorem statistics_of_an_empty_selection (trim : string → string)
    (getTime : string → option Z) (selectedDate selectedSession selectedState : string)
    (rawData : list AttendanceRecord.t) (masterData : list MasterRecord.t) :
  Aggregation.filtered selectedDate selectedSession selectedState rawData = [] →
  Js.inherited selectedState = false →
  let a := App.stats trim getTime selectedDate selectedSession selectedState
             rawData masterData in
  App.totalParticipants a = 0
  ∧ App.overallPercentage a = 0
  ∧ App.dateDistribution a = []
  ∧ App.topDay a = None
  ∧ (∀ e, e ∈ App.stateDistribution a → StateStat.count e = 0 ∧ StateStat.percentage e = 0)
  ∧ (∃ top, App.topState a = Some top
            ∧ head (unit_list App.PRESET_TARGETS selectedState) = Some (StateStat.state top))
  ∧ App.notRegisteredData a
    = List.filter (λ staff, bool_decide (in_selected_unit selectedState staff)) masterData
  ∧ ∀ now st, App.lockWinner now selectedSession (App.stateDistribution a) st = st.
Proof.
  intros Hempty _. simpl. rewrite Hempty.
  assert (∀ e, e ∈ Aggregation.stateDistribution App.PRESET_TARGETS selectedState
                     (App.countOf (App.stateUniqueMap trim [])) →
               StateStat.count e = 0 ∧ StateStat.percentage e = 0) as Hzero.
  { intros e (key & _ & ->)%elem_of_stateDistribution. simpl.
    rewrite countOf_stateUniqueMap.
    change (distinct_ids (of_unit trim key [])) with 0.
    split; [done|apply percentageOf_zero]. }
  split; [done|]. split; [apply percentageOf_zero|]. split; [done|]. split; [done|].
  split; [exact Hzero|]. split; [|split].
  - destruct (topState_spec App.PRESET_TARGETS selectedState
                (App.countOf (App.stateUniqueMap trim [])) (countOf_nonneg _) eq_refl)
      as [Htop _].
    destruct Htop as (top & Htop & _ & _ & before & after & Hunits & Hbefore).
    { intros E%stateDistribution_nonempty; [|done].
      unfold unit_list in E. by case_decide. }
    exists top. split; [exact Htop|].
    destruct before as [|k before]; [by rewrite Hunits|]. exfalso.
    assert (k ∈ Aggregation.stateKeys App.PRESET_TARGETS selectedState) as Hk.
    { rewrite stateKeys_unit_list by done. rewrite Hunits. by left. }
    pose (e := Aggregation.stateStat App.PRESET_TARGETS
                 (App.countOf (App.stateUniqueMap trim [])) k).
    assert (e ∈ Aggregation.stateDistribution App.PRESET_TARGETS selectedState
                  (App.countOf (App.stateUniqueMap trim []))) as He
      by (apply elem_of_stateDistribution; eauto).
    assert (StateStat.percentage e < StateStat.percentage top) as Hlt
      by (apply Hbefore; [done|by left]).
    destruct (Hzero e He) as [_ He0].
    assert (top ∈ Aggregation.stateDistribution App.PRESET_TARGETS selectedState
                    (App.countOf (App.stateUniqueMap trim []))) as Ht.
    { unfold Aggregation.topState in Htop.
      destruct (forEach_max_first_max StateStat.percentage
                  (Aggregation.stateDistribution App.PRESET_TARGETS selectedState
                     (App.countOf (App.stateUniqueMap trim []))))
        as (top' & Htop' & Hfm).
      - apply stateDistribution_percentages_nonneg, countOf_nonneg.
      - intros E. rewrite E in He. by apply elem_of_nil in He.
      - apply first_max_elem in Hfm. congruence. }
    destruct (Hzero top Ht) as [_ Ht0]. lia.
  - rewrite notRegistered_within_unit. f_equal.
    apply filter_bool_all. intros staff. apply bool_decide_eq_true_2.
    unfold has_record. simpl. by intros ?%elem_of_nil.
  - intros now st. unfold App.lockWinner.
    destruct (_ !! _); [done|]. destruct (Js.inherited _); [done|].
    rewrite find_Forall_false; [done|].
    apply Forall_forall. intros e [_ He]%Hzero. apply Z.leb_gt. lia.
Qed.

Lemma statistics_of_an_empty_selection_witness :
  let a := App.stats Runtime.trim Runtime.getTime "all" "all" "all" []
             Examples.roster_mixed in
  App.totalParticipants a = 0
  ∧ App.overallPercentage a = 0
  ∧ App.dateDistribution a = []
  ∧ App.topDay a = None
  ∧ (∀ e, e ∈ App.stateDistribution a → StateStat.count e = 0 ∧ StateStat.percentage e = 0)
  ∧ (∃ top, App.topState a = Some top
            ∧ head (unit_list App.PRESET_TARGETS "all") = Some (StateStat.state top))
  ∧ App.notRegisteredData a
    = List.filter (λ staff, bool_decide (in_selected_unit "all" staff))
        Examples.roster_mixed
  ∧ ∀ now st, App.lockWinner now "all" (App.stateDistribution a) st = st.
Proof.
  intros a.
  exact (statistics_of_an_empty_selection Runtime.trim Runtime.getTime "all" "all" "all"
           [] Examples.roster_mixed eq_refl eq_refl).
Defined.

(** ** The winner card, local storage and the polls *)

(** X29.  A run of the effect for a session key that has no winner and
    whose name [Object.prototype] does not define: if some unit of the
    distribution has reached 100 percent, the first such unit is recorded
    for that key, with its percentage and the time of the run, in the
    state and in local storage; if none has, nothing changes and the key
    stays without a winner. *)
Theorem winner_lock_fires_at_100_percent (now selectedSession : string)
    (stateDistribution : list StateStat.t) (st : App.LockState) :
  App.sessionWinners st !! selectedSession = None →
  Js.inherited selectedSession = false →
  let st' := App.lockWinner now selectedSession stateDistribution st in
  (Exists (λ s, 100 ≤ StateStat.percentage s) stateDistribution →
   ∃ champion before after,
     stateDistribution = before ++ champion :: after
     ∧ 100 ≤ StateStat.percentage champion
     ∧ Forall (λ s, StateStat.percentage s < 100) before
     ∧ App.currentSessionWinner selectedSession st'
       = Some (WinnerLock.mk (StateStat.state champion) (StateStat.percentage champion) now)
     ∧ App.localStorage st' = Some (App.sessionWinners st'))
  ∧ (Forall (λ s, StateStat.percentage s < 100) stateDistribution →
     st' = st ∧ App.currentSessionWinner selectedSession st' = None).
Proof.
  intros Hnone Hname. simpl. unfold App.lockWinner, App.currentSessionWinner.
  rewrite Hnone, Hname. split.
  - intros Hex.
    destruct (find_Exists (λ s, 100 <=? StateStat.percentage s) stateDistribution)
      as (champion & before & after & -> & -> & Hc & Hbefore).
    { eapply Exists_impl; [exact Hex|]. simpl. intros s Hs. by apply Z.leb_le. }
    exists champion, before, after. simpl. rewrite lookup_insert_eq.
    repeat split; [by apply Z.leb_le|].
    eapply Forall_impl; [exact Hbefore|]. simpl. intros s Hs. by apply Z.leb_gt.
  - intros Hall. rewrite find_Forall_false; [done|].
    eapply Forall_impl; [exact Hall|]. simpl. intros s Hs. by apply Z.leb_gt.
Qed.

Lemma winner_lock_fires_at_100_percent_witness :
  let stateDistribution :=
    [StateStat.mk "FAMA PERLIS" 7 6 117; StateStat.mk "FAMA JOHOR" 15 15 100;
     StateStat.mk "FAMA KEDAH" 3 13 23] in
  let st := Examples.locked_for_session_1 in
  let st' := App.lockWinner "2025-01-02T10:00:00.000Z" "all" stateDistribution st in
  App.sessionWinners st !! "all" = None
  ∧ (Exists (λ s, 100 ≤ StateStat.percentage s) stateDistribution →
     ∃ champion before after,
       stateDistribution = before ++ champion :: after
       ∧ 100 ≤ StateStat.percentage champion
       ∧ Forall (λ s, StateStat.percentage s < 100) before
       ∧ App.currentSessionWinner "all" st'
         = Some (WinnerLock.mk (StateStat.state champion) (StateStat.percentage champion)
                   "2025-01-02T10:00:00.000Z")
       ∧ App.localStorage st' = Some (App.sessionWinners st'))
  ∧ (Forall (λ s, StateStat.percentage s < 100) stateDistribution →
     st' = st ∧ App.currentSessionWinner "all" st' = None).
Proof.
  intros stateDistribution st st'. split; [reflexivity|].
  apply (winner_lock_fires_at_100_percent "2025-01-02T10:00:00.000Z" "all"
           stateDistribution st); reflexivity.
Defined.

(** X16.  At the moment the winner-lock effect records a winner, that
    winner is the top unit of the current statistics: the third card shows
    the same unit and the same percentage just before and just after the
    lock is taken. *)
Theorem locking_does_not_change_the_winner_card (trim : string → string)
    (getTime : string → option Z) (selectedDate selectedSession selectedState : string)
    (rawData : list AttendanceRecord.t) (masterData : list MasterRecord.t)
    (now : string) (st : App.LockState) :
  let a := App.stats trim getTime selectedDate selectedSession selectedState
             rawData masterData in
  let st' := App.lockWinner now selectedSession (App.stateDistribution a) st in
  App.sessionWinners st !! selectedSession = None →
  Render.cardUnit (App.currentSessionWinner selectedSession st') (App.topState a)
  = Render.cardUnit (App.currentSessionWinner selectedSession st) (App.topState a)
  ∧ Render.cardPercentage (App.currentSessionWinner selectedSession st') (App.topState a)
    = Render.cardPercentage (App.currentSessionWinner selectedSession st) (App.topState a).
Proof.
  simpl. intros Hnone. unfold App.currentSessionWinner, App.lockWinner. rewrite Hnone.
  destruct (topState_spec App.PRESET_TARGETS selectedState
              (App.countOf (App.stateUniqueMap trim
                 (Aggregation.filtered selectedDate selectedSession selectedState rawData)))
              (countOf_nonneg _) eq_refl) as [Htop _].
  revert Htop.
  set (sd := Aggregation.stateDistribution App.PRESET_TARGETS selectedState _).
  intros Htop.
  destruct (Js.inherited selectedSession); [by rewrite Hnone|].
  destruct (find _ sd) as [champion|] eqn:Hfind; simpl; [|by rewrite Hnone].
  rewrite lookup_insert_eq. simpl.
  apply find_sorted_head in Hfind as (Hhead & _); [|apply stateDistribution_sorted].
  destruct Htop as (top & -> & Hhead' & _).
  { intros E. by rewrite E in Hhead. }
  assert (top = champion) as -> by congruence. done.
Qed.

Lemma locking_does_not_change_the_winner_card_witness :
  let a := App.stats Runtime.trim Runtime.getTime "all" "all" "all"
             Examples.perlis_full [] in
  let st' := App.lockWinner "2025-01-02T10:00:00.000Z" "all" (App.stateDistribution a)
               Examples.unlocked in
  Render.cardUnit (App.currentSessionWinner "all" st') (App.topState a)
  = Render.cardUnit (App.currentSessionWinner "all" Examples.unlocked) (App.topState a)
  ∧ Render.cardPercentage (App.currentSessionWinner "all" st') (App.topState a)
    = Render.cardPercentage (App.currentSessionWinner "all" Examples.unlocked)
        (App.topState a).
Proof.
  intros a st'.
  exact (locking_does_not_change_the_winner_card Runtime.trim Runtime.getTime
           "all" "all" "all" Examples.perlis_full [] "2025-01-02T10:00:00.000Z"
           Examples.unlocked eq_refl).
Defined.

Lemma lockWinner_in_sync (now selectedSession : string)
    (stateDistribution : list StateStat.t) (st : App.LockState) :
  App.sessionWinners st = Startup.initialSessionWinners (App.localStorage st) →
  App.sessionWinners (App.lockWinner now selectedSession stateDistribution st)
  = Startup.initialSessionWinners
      (App.localStorage (App.lockWinner now selectedSession stateDistribution st)).
Proof.
  intros Hsync. unfold App.lockWinner.
  destruct (_ !! _); [done|]. destruct (Js.inherited _); [done|].
  by destruct (find _ _).
Qed.

(** X17.  Whatever local storage holds when the component starts and
    whatever the winner-lock effect does afterwards, the winners in memory
    are the ones a reload would read back from local storage: starting
    again from the stored item gives the same state. *)
Theorem reload_restores_the_winners (saved : option (gmap string WinnerLock.t))
    (runs : list (string * string * list StateStat.t)) :
  let st := recompute runs (Startup.mount saved) in
  Startup.mount (App.localStorage st) = st.
Proof.
  simpl.
  assert (∀ st, App.sessionWinners st = Startup.initialSessionWinners (App.localStorage st) →
                App.sessionWinners (recompute runs st)
                = Startup.initialSessionWinners (App.localStorage (recompute runs st)))
    as Hinv.
  { unfold recompute. induction runs as [|run runs IH]; intros st Hsync; simpl; [done|].
    apply IH. by apply lockWinner_in_sync. }
  specialize (Hinv (Startup.mount saved) eq_refl).
  destruct (recompute runs (Startup.mount saved)) as [winners storage].
  simpl in *. unfold Startup.mount. by rewrite <- Hinv.
Qed.

Lemma lockWinner_reached_100 (now selectedSession : string)
    (stateDistribution : list StateStat.t) (st : App.LockState) :
  winners_reached_100 (App.sessionWinners st) →
  winners_reached_100
    (App.sessionWinners (App.lockWinner now selectedSession stateDistribution st)).
Proof.
  intros Hinv. unfold App.lockWinner.
  destruct (_ !! _) eqn:Hnone; [done|]. destruct (Js.inherited _); [done|].
  destruct (find _ _) as [champion|] eqn:Hfind; [|done]. simpl.
  apply map_Forall_insert_2; [|done]. simpl.
  apply find_some in Hfind as [_ Hc]. by apply Z.leb_le.
Qed.

(** X18.  The winner-lock effect only ever records a unit with 100 percent
    or more: if every stored winner has at least 100 percent, so has every
    winner after any number of runs of the effect. *)
Theorem recorded_winners_have_at_least_100_percent (st : App.LockState)
    (runs : list (string * string * list StateStat.t)) :
  winners_reached_100 (App.sessionWinners st) →
  winners_reached_100 (App.sessionWinners (recompute runs st)).
Proof.
  unfold recompute. revert st.
  induction runs as [|run runs IH]; intros st Hinv; simpl; [done|].
  apply IH. by apply lockWinner_reached_100.
Qed.

Lemma recorded_winners_have_at_least_100_percent_witness :
  winners_reached_100
    (App.sessionWinners
       (recompute
          [ ("2025-01-02T10:00:00.000Z", "all", [StateStat.mk "FAMA PERLIS" 7 6 117]);
            ("2025-01-02T10:00:30.000Z", "Sesi 2", [StateStat.mk "FAMA KEDAH" 3 13 23]) ]
          (Startup.mount (Some Samples.stored_locks)))).
Proof.
  apply recorded_winners_have_at_least_100_percent.
  intros k w Hk. simpl in Hk. unfold Samples.stored_locks in Hk.
  apply lookup_singleton_Some in Hk as [_ <-]. simpl. lia.
Defined.

Lemma fetchAttendanceData_two_steps (supabase : option Fetch.QueryOutcome) (now : Z)
    (st : Fetch.State) :
  App.fetchAttendanceData supabase now st
  = Startup.fetchSettles supabase now (Startup.fetchStarts st).
Proof. by destruct supabase as [[err|[data|] [err|]]|]. Qed.

Lemma run_in_turn (polls : list (option Fetch.QueryOutcome * Z)) (st : Fetch.State) :
  Startup.poll polls st = fold_left (λ st p, App.fetchAttendanceData p.1 p.2 st) polls st.
Proof.
  unfold Startup.poll, Startup.run. revert st.
  induction polls as [|[supabase now] polls IH]; intros st; simpl; [done|].
  by rewrite IH, fetchAttendanceData_two_steps.
Qed.

Lemma fetchSettles_failed (supabase : option Fetch.QueryOutcome) (now : Z)
    (st : Fetch.State) :
  refresh_failed supabase → shows_message (Startup.fetchSettles supabase now st).
Proof.
  assert (∀ err, default "Gagal mendapatkan data." (Js.truthy (Fetch.message err))
                 ≠ EmptyString) as Hmsg.
  { intros [[s|]]; simpl; [|done]. by case_decide. }
  unfold refresh_failed, Startup.fetchSettles.
  destruct supabase as [[err|data [err|]]|]; simpl; try done; intros _.
  - eexists; split; [done|apply Hmsg].
  - eexists; split; [done|apply Hmsg].
  - eexists; split; [done|]. done.
Qed.

Lemma fetchSettles_answered (data : option (list AttendanceRecord.t)) (now : Z)
    (st : Fetch.State) :
  Fetch.error (Startup.fetchSettles (Some (Fetch.Resolves data None)) now st)
  = Fetch.error st.
Proof. by destruct data. Qed.

Lemma failure_cleared_by_start (events : list Startup.Event) :
  ¬ failure_not_cleared (events ++ [Startup.Starts]).
Proof.
  intros (before & supabase & now & after & E & _ & Hafter).
  destruct after as [|e after _] using rev_ind.
  - by apply (app_inj_tail events before) in E as [_ ?].
  - rewrite app_comm_cons, app_assoc in E. apply app_inj_tail in E as [_ <-].
    apply Hafter. apply elem_of_app. right. by left.
Qed.

Lemma failure_after_answer (events : list Startup.Event)
    (supabase : option Fetch.QueryOutcome) (now : Z) :
  failure_not_cleared (events ++ [Startup.Settles supabase now])
  ↔ refresh_failed supabase ∨ failure_not_cleared events.
Proof.
  split.
  - intros (before & supabase' & now' & after & E & Hfailed & Hafter).
    destruct after as [|e after _] using rev_ind.
    + apply (app_inj_tail events before) in E as [_ [= -> ->]]. by left.
    + rewrite app_comm_cons, app_assoc in E. apply app_inj_tail in E as [-> _].
      right. exists before, supabase', now', after. split; [done|]. split; [done|].
      intros Hin. apply Hafter. apply elem_of_app. by left.
  - intros [Hfailed|(before & supabase' & now' & after & -> & Hfailed & Hafter)].
    + exists events, supabase, now, []. split; [done|]. split; [done|].
      apply not_elem_of_nil.
    + exists before, supabase', now', (after ++ [Startup.Settles supabase now]).
      split; [by rewrite <- app_assoc|]. split; [done|].
      intros [Hin|Hin%list_elem_of_singleton]%elem_of_app; done.
Qed.

(** X19.  The calls of [fetchAttendanceData] may overlap: the timer starts
    one every 30 seconds whether or not the one before has been answered.
    After any series of starts and answers the record set is that of the
    last answer that carried rows (the initial one if none did); a message
    is on display exactly when a call has failed and no call has started
    since, so an answer with rows does not remove the message of a call
    that failed before it; and the loading flag is off as soon as any call
    is answered.  When the calls do not overlap, the state is the one that
    the calls give when each runs as a whole, and a message is on display
    exactly when the last one failed. *)
Theorem polling_keeps_the_last_good_rows (events : list Startup.Event)
    (st : Fetch.State) :
  let st' := Startup.run events st in
  Fetch.rawData st' = rows_of_last_success events (Fetch.rawData st)
  ∧ (shows_message st'
     ↔ failure_not_cleared events ∨ (shows_message st ∧ Startup.Starts ∉ events))
  ∧ (∀ earlier last, events = earlier ++ [last] →
       Fetch.loading st' = false ↔ last ≠ Startup.Starts)
  ∧ ∀ earlier last, events = Startup.in_turn (earlier ++ [last]) →
      st' = fold_left (λ st p, App.fetchAttendanceData p.1 p.2 st) (earlier ++ [last]) st
      ∧ (shows_message st' ↔ refresh_failed last.1).
Proof.
  simpl.
  assert (∀ events,
            shows_message (Startup.run events st)
            ↔ failure_not_cleared events ∨ (shows_message st ∧ Startup.Starts ∉ events))
    as Hmessage.
  { clear events. intros events. induction events as [|e events IH] using rev_ind.
    - simpl. split.
      + intros H. right. split; [done|apply not_elem_of_nil].
      + intros [(before & ? & ? & ? & E & _)|[H _]]; [by destruct before|done].
    - unfold Startup.run in *. rewrite fold_left_app. simpl.
      destruct e as [|supabase now]; simpl.
      + split.
        * by intros (msg & ? & _).
        * intros [H|[_ H]]; [by apply failure_cleared_by_start in H|].
          destruct H. apply elem_of_app. right. by left.
      + rewrite failure_after_answer.
        destruct supabase as [[err|data [err|]]|].
        * split; [by left; left|intros _; by apply fetchSettles_failed].
        * split; [by left; left|intros _; by apply fetchSettles_failed].
        * unfold shows_message at 1. rewrite fetchSettles_answered.
          fold (shows_message (fold_left Startup.step events st)). rewrite IH.
          rewrite not_elem_of_app. simpl.
          assert (Startup.Starts ∉ [Startup.Settles (Some (Fetch.Resolves data None)) now])
            by (by intros ?%list_elem_of_singleton).
          tauto.
        * split; [by left; left|intros _; by apply fetchSettles_failed]. }
  split; [|split; [apply Hmessage|split]].
  - unfold Startup.run, rows_of_last_success. clear Hmessage. revert st.
    induction events as [|e events IH]; intros st; simpl; [done|].
    rewrite IH. f_equal.
    by destruct e as [|[[err|[data|] [err|]]|] now].
  - intros earlier last ->. unfold Startup.run. rewrite fold_left_app. simpl.
    destruct last as [|[[err|[data|] [err|]]|] now]; simpl; split; done.
  - intros earlier [supabase now] ->.
    split; [apply (run_in_turn (earlier ++ [(supabase, now)]) st)|].
    rewrite Hmessage. unfold Startup.in_turn. rewrite flat_map_app. simpl.
    assert (∀ (l : list Startup.Event) a b, l ++ [a; b] = (l ++ [a]) ++ [b]) as ->
      by (intros; by rewrite <- app_assoc).
    rewrite failure_after_answer.
    split.
    + intros [[H|H]|[_ H]]; [done|by apply failure_cleared_by_start in H|].
      destruct H. rewrite !elem_of_app. left. right. by left.
    + intros H. by left; left.
Qed.

Lemma polling_keeps_the_last_good_rows_witness :
  let events :=
    [ Startup.Starts; Startup.Starts;
      Startup.Settles (Some (Fetch.Resolves None (Some (Fetch.mkError (Some "timeout"))))) 1;
      Startup.Settles (Some (Fetch.Resolves (Some Examples.undated_first) None)) 2 ] in
  let st' := Startup.run events Examples.loaded in
  Fetch.rawData st' = Examples.undated_first
  ∧ shows_message st'
  ∧ Fetch.loading st' = false.
Proof.
  intros events st'.
  destruct (polling_keeps_the_last_good_rows events Examples.loaded)
    as (Hrows & Hmessage & Hloading & _).
  split; [exact Hrows|]. split.
  - apply Hmessage. left.
    exists [Startup.Starts; Startup.Starts],
      (Some (Fetch.Resolves None (Some (Fetch.mkError (Some "timeout"))))), 1,
      [Startup.Settles (Some (Fetch.Resolves (Some Examples.undated_first) None)) 2].
    split; [reflexivity|]. split; [exact I|]. by intros ?%list_elem_of_singleton.
  - apply (Hloading
             [ Startup.Starts; Startup.Starts;
               Startup.Settles
                 (Some (Fetch.Resolves None (Some (Fetch.mkError (Some "timeout"))))) 1 ]
             (Startup.Settles (Some (Fetch.Resolves (Some Examples.undated_first) None)) 2)
             eq_refl).
    discriminate.
Defined.

(** X20.  When the roster query returns no rows (no client, a rejected
    request, a query error) the roster stays as it was; from the empty
    initial roster the list of absentees is then empty for every record
    set and every selection. *)
Theorem roster_query_without_rows_leaves_no_absentees (trim : string → string)
    (getTime : string → option Z) (selectedDate selectedSession selectedState : string)
    (rawData : list AttendanceRecord.t) (masterData : list MasterRecord.t)
    (supabase : option Startup.RosterOutcome) :
  roster_not_loaded supabase →
  Startup.fetchMasterList supabase masterData = masterData
  ∧ App.notRegisteredData
      (App.stats trim getTime selectedDate selectedSession selectedState rawData
         (Startup.fetchMasterList supabase []))
    = [].
Proof.
  intros Hno.
  assert (∀ m, Startup.fetchMasterList supabase m = m) as Hsame.
  { intros m. by destruct supabase as [[|[data|] [err|]]|]. }
  split; [apply Hsame|]. rewrite Hsame. simpl. unfold App.notRegistered. simpl.
  by case_decide.
Qed.

Lemma roster_query_without_rows_leaves_no_absentees_witness :
  Startup.fetchMasterList (Some Startup.Rejects) Examples.roster_mixed
  = Examples.roster_mixed
  ∧ App.notRegisteredData
      (App.stats Runtime.trim Runtime.getTime "all" "all" "all" Examples.two_sessions
         (Startup.fetchMasterList (Some Startup.Rejects) []))
    = [].
Proof.
  exact (roster_query_without_rows_leaves_no_absentees Runtime.trim Runtime.getTime
           "all" "all" "all" Examples.two_sessions Examples.roster_mixed
           (Some Startup.Rejects) I).
Defined.

(** ** Roster, labels, colours *)

Lemma sublist_filter_bool {A : Type} (p : A → bool) (l : list A) :
  sublist (List.filter p l) l.
Proof.
  induction l as [|x l IH]; simpl; [done|].
  destruct (p x); [by apply sublist_skip|by apply sublist_cons].
Qed.

Lemma length_filter_split {A : Type} (p q : A → bool) (l : list A) :
  (length (List.filter (λ x, q x && negb (p x)) l)
   + length (List.filter (λ x, q x && p x) l)
   = length (List.filter q l))%nat.
Proof.
  induction l as [|x l IH]; simpl; [done|].
  destruct (q x), (p x); simpl; lia.
Qed.

Lemma filter_filter_bool {A : Type} (p q : A → bool) (l : list A) :
  List.filter q (List.filter p l) = List.filter (λ x, q x && p x) l.
Proof.
  induction l as [|x l IH]; simpl; [done|].
  destruct (p x) eqn:Hp; simpl; rewrite ?Hp, ?andb_true_r, ?andb_false_r.
  - destruct (q x); by rewrite IH.
  - done.
Qed.

(** X21.  The list of absentees is a part of the roster in roster order,
    none of its members has a filtered attendance record, and together
    with the roster members of the selected unit that have one it accounts
    for every roster member of the selected unit. *)
Theorem absentees_and_attendees_split_the_roster (trim : string → string)
    (getTime : string → option Z) (selectedDate selectedSession selectedState : string)
    (rawData : list AttendanceRecord.t) (masterData : list MasterRecord.t) :
  let a := App.stats trim getTime selectedDate selectedSession selectedState
             rawData masterData in
  let in_unit staff := bool_decide (in_selected_unit selectedState staff) in
  let present staff := bool_decide (has_record (App.filteredData a) staff) in
  sublist (App.notRegisteredData a) masterData
  ∧ (∀ staff, staff ∈ App.notRegisteredData a → ¬ has_record (App.filteredData a) staff)
  ∧ (length (App.notRegisteredData a)
     + length (List.filter (λ staff, in_unit staff && present staff) masterData)
     = length (List.filter in_unit masterData))%nat.
Proof.
  simpl.
  set (records := Aggregation.filtered selectedDate selectedSession selectedState rawData).
  rewrite notRegistered_within_unit. unfold roster_minus_attendance.
  rewrite filter_filter_bool.
  split; [apply sublist_filter_bool|]. split.
  - intros staff [_ [_ H]%andb_true_iff]%elem_of_filter_bool.
    by apply bool_decide_eq_true_1 in H.
  - rewrite <- (length_filter_split
                  (λ staff, bool_decide (has_record records staff))
                  (λ staff, bool_decide (in_selected_unit selectedState staff))).
    f_equal. f_equal. apply filter_bool_ext. intros staff. f_equal.
    destruct (decide (has_record records staff)).
    + rewrite (bool_decide_eq_true_2 (has_record records staff)) by done.
      by rewrite bool_decide_eq_false_2 by tauto.
    + rewrite (bool_decide_eq_false_2 (has_record records staff)) by done.
      by rewrite bool_decide_eq_true_2.
Qed.

(** X22.  [formatDate] gives ['N/A'] for a missing date and for the text
    ['N/A'], and gives back a text that is not a valid date as it is (the
    formatter's RangeError is caught).  So the bar of the records without a
    date is labelled ['N/A'], and a record whose date is missing or free of
    surrounding white space has the same label in the table and on its
    bar. *)
Theorem formatDate_labels (trim : string → string) (getTime : string → option Z)
    (Intl_format : Z → string) :
  (∀ o, Js.truthy o = None → Render.formatDate getTime Intl_format o = "N/A")
  ∧ Render.formatDate getTime Intl_format (Some "N/A") = "N/A"
  ∧ (∀ s, s ≠ EmptyString → getTime s = None →
       Render.formatDate getTime Intl_format (Some s) = s)
  ∧ ∀ r, undated r
         ∨ (∃ s, AttendanceRecord.tarikh_kehadiran r = Some s ∧ trim s = s) →
      Render.formatDate getTime Intl_format (AttendanceRecord.tarikh_kehadiran r)
      = Render.formatDate getTime Intl_format (Some (Aggregation.dateKey trim r)).
Proof.
  split; [|split; [|split]].
  - intros o Ho. unfold Render.formatDate. by rewrite Ho.
  - done.
  - intros s Hs Hinvalid. unfold Render.formatDate. simpl.
    rewrite decide_False by done. case_decide; [done|]. by rewrite Hinvalid.
  - intros r [Hund|(s & Hs & Htrim)].
    + rewrite (dateKey_missing trim r Hund). unfold Render.formatDate.
      unfold undated in Hund. by rewrite Hund.
    + unfold Aggregation.dateKey. rewrite Hs. simpl.
      case_decide; [by subst|]. by rewrite Htrim.
Qed.

Lemma formatDate_labels_witness :
  Render.formatDate Runtime.getTime (λ _, "1 Jan 2025") None = "N/A"
  ∧ Render.formatDate Runtime.getTime (λ _, "1 Jan 2025") (Some "esok") = "esok".
Proof.
  destruct (formatDate_labels Runtime.trim Runtime.getTime (λ _, "1 Jan 2025"))
    as (Hmissing & _ & Hinvalid & _).
  split; [by apply Hmissing|by apply Hinvalid].
Defined.

(** X23.  In both variants the bar of a unit and the percentage in its
    tooltip are coloured by the same three bands (green with emerald from
    100 percent, blue from 80, amber below), and a bar is green exactly
    when the count of the unit has reached its positive target. *)
Theorem bar_and_tooltip_colours_agree (trim : string → string)
    (getTime : string → option Z) (selectedDate selectedSession selectedState : string)
    (rawData : list AttendanceRecord.t) (masterData : list MasterRecord.t) :
  let a := App.stats trim getTime selectedDate selectedSession selectedState
             rawData masterData in
  let b := Part001.stats trim getTime selectedDate selectedSession selectedState rawData in
  (∀ e : StateStat.t,
     (Render.fillUrl e = "url(#barGradientGreen)"
      ↔ Render.tooltipColor e = "text-emerald-600")
     ∧ (Render.fillUrl e = "url(#barGradientBlue)"
        ↔ Render.tooltipColor e = "text-blue-600")
     ∧ (Render.fillUrl e = "url(#barGradientAmber)"
        ↔ Render.tooltipColor e = "text-amber-600"))
  ∧ ∀ e, e ∈ App.stateDistribution a ∨ e ∈ Part001.stateDistribution b →
      Render.fillUrl e = "url(#barGradientGreen)"
      ↔ 0 < StateStat.target e ∧ StateStat.target e ≤ StateStat.count e.
Proof.
  simpl. split.
  - intros e. unfold Render.fillUrl, Render.tooltipColor.
    destruct (Z.leb_spec 100 (StateStat.percentage e));
      destruct (Z.ltb_spec (StateStat.percentage e) 80);
      destruct (Z.leb_spec 80 (StateStat.percentage e));
      try lia; repeat split; done.
  - intros e He.
    assert (100 ≤ StateStat.percentage e
            ↔ 0 < StateStat.target e ∧ StateStat.target e ≤ StateStat.count e) as <-.
    { destruct He as [(key & _ & ->)%elem_of_stateDistribution
                     |(key & _ & ->)%elem_of_stateDistribution]; simpl.
      - apply percentageOf_100, App_target_small.
      - apply percentageOf_100, Part001_target_small. }
    unfold Render.fillUrl.
    destruct (Z.leb_spec 100 (StateStat.percentage e)); [done|].
    destruct (Z.ltb_spec (StateStat.percentage e) 80); split; (done || lia).
Qed.

Lemma bar_and_tooltip_colours_agree_witness :
  let entry := StateStat.mk "FAMA PERLIS" 6 6 100 in
  Render.fillUrl entry = "url(#barGradientGreen)"
  ↔ 0 < StateStat.target entry ∧ StateStat.target entry ≤ StateStat.count entry.
Proof.
  intros entry.
  apply (proj2 (bar_and_tooltip_colours_agree Runtime.trim Runtime.getTime
                  "all" "all" "all" Examples.perlis_full []) entry).
  left. apply list_elem_of_In. vm_compute. tauto.
Defined.

(** X24.  In both variants every bar of the unit chart is drawn at full
    opacity: when a unit is selected the chart holds that unit alone, so
    the dimmed style is never applied. *)
Theorem unit_bars_are_never_dimmed (trim : string → string)
    (getTime : string → option Z) (selectedDate selectedSession selectedState : string)
    (rawData : list AttendanceRecord.t) (masterData : list MasterRecord.t) :
  let a := App.stats trim getTime selectedDate selectedSession selectedState
             rawData masterData in
  let b := Part001.stats trim getTime selectedDate selectedSession selectedState rawData in
  ∀ e, e ∈ App.stateDistribution a ∨ e ∈ Part001.stateDistribution b →
    Render.stateOpacity selectedState e = 1%Q.
Proof.
  simpl. intros e He.
  assert (selectedState ≠ "all" → StateStat.state e = selectedState) as Hkey.
  { intros Hsel.
    destruct He as [(key & Hkey & ->)%elem_of_stateDistribution
                   |(key & Hkey & ->)%elem_of_stateDistribution];
      unfold Aggregation.stateKeys in Hkey; rewrite decide_True in Hkey by done;
      by apply list_elem_of_singleton in Hkey. }
  unfold Render.stateOpacity.
  destruct (decide (selectedState = "all")) as [Hall|Hsel].
  - by rewrite (bool_decide_eq_true_2 _ Hall).
  - rewrite (bool_decide_eq_false_2 _ Hsel). simpl.
    rewrite bool_decide_eq_true_2 by done.
    by rewrite bool_decide_eq_true_2 by (symmetry; auto).
Qed.

Lemma unit_bars_are_never_dimmed_witness :
  Render.stateOpacity "FAMA PERLIS" (StateStat.mk "FAMA PERLIS" 1 6 17) = 1%Q.
Proof.
  apply (unit_bars_are_never_dimmed Runtime.trim Runtime.getTime "all" "all" "FAMA PERLIS"
           Examples.two_sessions []).
  left. apply list_elem_of_In. vm_compute. tauto.
Defined.

(** ** Thresholds and narrowing *)

(** X25.  With no unit selected the overall target is the sum of the
    preset table, 221 in [src/App.tsx] and 222 in the earlier variant, and
    because of the rounding the overall percentage reads 100 from one
    participant short of it: from 220, respectively 221.  The width of the
    progress bar stays between 0 and 100. *)
Theorem overall_percentage_reads_100_one_short_of_the_target (trim : string → string)
    (getTime : string → option Z) (selectedDate selectedSession : string)
    (rawData : list AttendanceRecord.t) (masterData : list MasterRecord.t) :
  let a := App.stats trim getTime selectedDate selectedSession "all" rawData masterData in
  let b := Part001.stats trim getTime selectedDate selectedSession "all" rawData in
  (App.totalTarget a = 221
   ∧ (100 ≤ App.overallPercentage a ↔ 220 ≤ App.totalParticipants a)
   ∧ 0 ≤ Render.progressWidth (App.overallPercentage a) ≤ 100)
  ∧ (Part001.totalTarget b = 222
     ∧ (100 ≤ Part001.overallPercentage b ↔ 221 ≤ Part001.totalParticipants b)
     ∧ 0 ≤ Render.progressWidth (Part001.overallPercentage b) ≤ 100).
Proof.
  simpl. unfold Aggregation.overallPercentage, Render.progressWidth.
  change (Aggregation.totalTarget App.PRESET_TARGETS "all") with 221.
  change (Aggregation.totalTarget Part001.PRESET_TARGETS "all") with 222.
  split; (split; [done|]); rewrite percentageOf_pos by lia.
  - set (n := Z.of_nat (size _)). assert (0 ≤ n) as Hn by lia. clearbody n.
    pose proof (Z.div_mod (200 * n + 221) (2 * 221) ltac:(lia)) as Hdiv.
    pose proof (Z.mod_pos_bound (200 * n + 221) (2 * 221) ltac:(lia)) as Hmod.
    revert Hdiv Hmod.
    generalize ((200 * n + 221) / (2 * 221)) ((200 * n + 221) mod (2 * 221)).
    intros q m Hdiv Hmod. split; [split; intros; lia|lia].
  - set (n := Z.of_nat (length _)). assert (0 ≤ n) as Hn by lia. clearbody n.
    pose proof (Z.div_mod (200 * n + 222) (2 * 222) ltac:(lia)) as Hdiv.
    pose proof (Z.mod_pos_bound (200 * n + 222) (2 * 222) ltac:(lia)) as Hmod.
    revert Hdiv Hmod.
    generalize ((200 * n + 222) / (2 * 222)) ((200 * n + 222) mod (2 * 222)).
    intros q m Hdiv Hmod. split; [split; intros; lia|lia].
Qed.

Lemma length_filter_filter_le {A : Type} (p q : A → bool) (l : list A) :
  (length (List.filter p (List.filter q l)) ≤ length (List.filter p l))%nat.
Proof.
  induction l as [|x l IH]; simpl; [done|].
  destruct (q x); simpl; destruct (p x); simpl; lia.
Qed.

(** X26.  Narrowing the selection never adds anything: the records on
    display are a part of the record set in its order, the number of
    participants is at most the one without any filter, in both variants,
    and no date counts more records than it does without any filter. *)
Theorem narrowing_the_selection_never_adds (trim : string → string)
    (getTime : string → option Z) (selectedDate selectedSession selectedState : string)
    (rawData : list AttendanceRecord.t) (masterData : list MasterRecord.t) :
  let a := App.stats trim getTime selectedDate selectedSession selectedState
             rawData masterData in
  let b := Part001.stats trim getTime selectedDate selectedSession selectedState rawData in
  let a0 := App.stats trim getTime "all" "all" "all" rawData masterData in
  let b0 := Part001.stats trim getTime "all" "all" "all" rawData in
  sublist (App.filteredData a) rawData
  ∧ App.filteredData a0 = rawData
  ∧ App.totalParticipants a ≤ App.totalParticipants a0
  ∧ Part001.totalParticipants b ≤ Part001.totalParticipants b0
  ∧ ∀ d, d ∈ App.dateDistribution a →
      ∃ d0, d0 ∈ App.dateDistribution a0
        ∧ DateStat.date d0 = DateStat.date d ∧ DateStat.count d ≤ DateStat.count d0.
Proof.
  simpl. rewrite !filtered_all.
  set (records := Aggregation.filtered selectedDate selectedSession selectedState rawData).
  assert (sublist records rawData) as Hsub by apply sublist_filter_bool.
  split; [done|]. split; [done|]. split; [|split].
  - apply Nat2Z.inj_le, subseteq_size. unfold App.uniqueParticipants.
    intros x. rewrite !elem_of_list_to_set, !list_elem_of_fmap.
    intros (r & -> & Hr). exists r. split; [done|].
    by apply elem_of_filter_bool in Hr as [? _].
  - apply Nat2Z.inj_le. by apply sublist_length.
  - intros d [Hc Hpos]%elem_of_dateDistribution.
    assert (Z.of_nat (length (of_date trim (DateStat.date d) records))
            ≤ Z.of_nat (length (of_date trim (DateStat.date d) rawData))) as Hle.
    { apply Nat2Z.inj_le. apply length_filter_filter_le. }
    exists (DateStat.mk (DateStat.date d)
              (Z.of_nat (length (of_date trim (DateStat.date d) rawData)))).
    split; [|split; [done|simpl; lia]].
    apply elem_of_dateDistribution. simpl. split; [done|lia].
Qed.

(** X27.  A click on a bar of the date chart, with nothing selected,
    selects the date of the bar; when that date is not a name that
    [Object.prototype] defines and the records counted by the bar are
    exactly those whose date field is that text, as is the case when no
    date has surrounding white space or is missing, the records then on
    display are as many as the bar counts. *)
Theorem clicking_a_date_bar_shows_its_records (trim : string → string)
    (getTime : string → option Z) (rawData : list AttendanceRecord.t)
    (masterData : list MasterRecord.t) (bar : DateStat.t) :
  bar ∈ App.dateDistribution (App.stats trim getTime "all" "all" "all" rawData masterData) →
  DateStat.date bar ≠ "all" →
  Js.inherited (DateStat.date bar) = false →
  (∀ r, r ∈ rawData →
     Aggregation.dateKey trim r = DateStat.date bar
     ↔ AttendanceRecord.tarikh_kehadiran r = Some (DateStat.date bar)) →
  let st' := Filters.handleDateClick (Some (Filters.mkEvent (Some [bar]))) Filters.initial in
  st' = Filters.mk (DateStat.date bar) "all" "all"
  ∧ Z.of_nat (length (Filters.filtered st' rawData)) = DateStat.count bar.
Proof.
  intros Hbar Hne _ Hsame st'. subst st'.
  simpl in Hbar. rewrite filtered_all in Hbar.
  apply elem_of_dateDistribution in Hbar as [Hc _].
  assert (Filters.handleDateClick (Some (Filters.mkEvent (Some [bar]))) Filters.initial
          = Filters.mk (DateStat.date bar) "all" "all") as ->.
  { unfold Filters.handleDateClick, Filters.setSelectedDate, Filters.resetSession. simpl.
    rewrite (decide_False (P := "all" = DateStat.date bar)) by done. simpl.
    by rewrite decide_False by done. }
  split; [done|]. rewrite Hc. do 2 f_equal.
  unfold Filters.filtered, Aggregation.filtered, of_date. simpl.
  apply filter_bool_ext_in. intros r Hr.
  apply eq_true_iff_eq. rewrite matchFilters_true, bool_decide_eq_true, (Hsame r Hr).
  naive_solver.
Qed.

Lemma clicking_a_date_bar_shows_its_records_witness :
  let bar := DateStat.mk "2025-01-01" 1 in
  let st' := Filters.handleDateClick (Some (Filters.mkEvent (Some [bar]))) Filters.initial in
  st' = Filters.mk "2025-01-01" "all" "all"
  ∧ Z.of_nat (length (Filters.filtered st' Samples.later_date_first)) = 1.
Proof.
  intros bar.
  apply (clicking_a_date_bar_shows_its_records Runtime.trim Runtime.getTime
           Samples.later_date_first [] bar).
  - apply list_elem_of_In. vm_compute. tauto.
  - discriminate.
  - reflexivity.
  - intros r Hr%list_elem_of_In. vm_compute in Hr.
    destruct Hr as [<-|[<-|[]]]; vm_compute; split; congruence.
Defined.

(** X28.  The bars of the date chart are all drawn at full opacity when no
    date is selected or when the selected date is a non-empty text without
    surrounding white space; when the selected date changes under [trim]
    every bar is dimmed, since the bars carry the trimmed text. *)
Theorem date_bars_are_dimmed_only_for_untrimmed_dates (trim : string → string)
    (getTime : string → option Z) (selectedDate selectedSession selectedState : string)
    (rawData : list AttendanceRecord.t) (masterData : list MasterRecord.t) :
  let a := App.stats trim getTime selectedDate selectedSession selectedState
             rawData masterData in
  (selectedDate = "all" ∨ trim selectedDate = selectedDate ∧ selectedDate ≠ EmptyString →
   ∀ e, e ∈ App.dateDistribution a → Render.dateOpacity selectedDate e = 1%Q)
  ∧ (selectedDate ≠ "all" ∧ trim selectedDate ≠ selectedDate ∧ selectedDate ≠ EmptyString →
     ∀ e, e ∈ App.dateDistribution a → Render.dateOpacity selectedDate e = (4 # 10)%Q).
Proof.
  simpl.
  assert (∀ e, e ∈ Aggregation.dateDistribution trim getTime
                     (Aggregation.filtered selectedDate selectedSession selectedState
                        rawData) →
               selectedDate ≠ "all" → selectedDate ≠ EmptyString →
               DateStat.date e = trim selectedDate) as Hdate.
  { intros e (r & [_ Hr]%elem_of_filtered & <-)%dateDistribution_date Hsel Hne.
    apply matchFilters_true in Hr as [[?|Hd] _]; [done|].
    unfold Aggregation.dateKey. rewrite Hd. simpl. by rewrite decide_False. }
  unfold Render.dateOpacity. split.
  - intros [Hall|[Htrim Hne]] e He.
    + by rewrite (bool_decide_eq_true_2 _ Hall).
    + destruct (decide (selectedDate = "all")) as [Hall|Hsel].
      * by rewrite (bool_decide_eq_true_2 _ Hall).
      * rewrite (bool_decide_eq_false_2 _ Hsel). simpl.
        rewrite bool_decide_eq_true_2 by done.
        by rewrite bool_decide_eq_true_2 by (rewrite (Hdate e); auto).
  - intros (Hsel & Htrim & Hne) e He.
    rewrite (bool_decide_eq_false_2 _ Hsel). simpl.
    rewrite bool_decide_eq_true_2 by done.
    by rewrite bool_decide_eq_false_2 by (rewrite (Hdate e); auto).
Qed.

Lemma date_bars_are_dimmed_only_for_untrimmed_dates_witness :
  Render.dateOpacity "2025-01-01" (DateStat.mk "2025-01-01" 1) = 1%Q.
Proof.
  apply (proj1 (date_bars_are_dimmed_only_for_untrimmed_dates Runtime.trim Runtime.getTime
                  "2025-01-01" "all" "all" Samples.later_date_first [])).
  - right. split; [reflexivity|discriminate].
  - apply list_elem_of_In. vm_compute. tauto.
Defined.
